(** * Hand-gesture letter recognition: a shallow embedding

    The development embeds the geometric letter recogniser of the
    repository ([model/finger_detection.py], [model/asl_letter_detector.py],
    [model/simple_asl_detector.py] and the area gate of
    [model/improved_hand_detection.py]) and proves properties of it.
    It also embeds the drawing helpers of the detectors, the landmark
    extraction of [model/improved_hand_detection.py], the colour-based
    detector of [model/opencv_hand_detection.py] and the sample
    collection of [model/asl_training_helper.py].

    Conventions.
    - A Python [float] is an IEEE-754 binary64 value: Rocq's primitive
      [float], whose operations are the hardware ones.  A decimal literal
      such as [0.7] denotes, as in Python, the nearest binary64 value.
    - A Python [int] is a [Z]; a [str] is a [string]; [None] is the [None]
      of an [option].
    - A Python exception is the [Raise] outcome of [Py.result].
    - OpenCV is outside the repository: its functions are the fields of the
      class [OpenCV], and every statement holds for every implementation
      of them. *)

From Stdlib Require Import ZArith Zpower List String Bool Lia Floats.
From Stdlib Require Import DecimalString Sorted Permutation.
Import ListNotations.

Set Warnings "-inexact-float".

Local Open Scope string_scope.
Local Open Scope list_scope.
Local Open Scope Z_scope.

(* ================================================================== *)
(** * Python primitives *)
(* ================================================================== *)

Module Py.

  (** Exceptions the embedded code can raise. *)
Inductive exn : Type :=
  | ValueError
  | OverflowError
  | TypeError
  | IndexError.

  (** Outcome of a call: a returned value or a raised exception. *)
Inductive result (A : Type) : Type :=
  | Return (a : A)
  | Raise (e : exn).
Arguments Return {A} a.
Arguments Raise {A} e.

Definition bind {A B : Type} (m : result A) (k : A -> result B) : result B :=
    match m with
    | Return a => k a
    | Raise e => Raise e
    end.

  (** [len(l)]. *)
Definition len {A : Type} (l : list A) : Z := Z.of_nat (List.length l).

  (** Conversion of an [int] to a [float], as done by a mixed
      [int]/[float] operation.  Exact below 2^53, which covers every
      pixel coordinate, frame side and count of this program. *)
Definition Z2F (z : Z) : float :=
    match z with
    | Z0 => 0%float
    | Zpos _ => PrimFloat.of_uint63 (Uint63.of_Z z)
    | Zneg p => (- PrimFloat.of_uint63 (Uint63.of_Z (Zpos p)))%float
    end.

  (** [int(f)]: truncation toward zero; [ValueError] on a NaN and
      [OverflowError] on an infinity. *)
Definition int (f : float) : result Z :=
    match Prim2SF f with
    | S754_zero _ => Return 0
    | S754_finite s m e =>
        let a := Z.shiftl (Zpos m) e in
        Return (if s then - a else a)
    | S754_infinity _ => Raise OverflowError
    | S754_nan => Raise ValueError
    end.

  (** A [dict] with [str] keys and [int] values.  Iteration order is
      insertion order, which [max] over a dict observes. *)
Definition dict : Type := list (string * Z).

  (** [d.get(k, default)]. *)
Fixpoint dict_get (d : dict) (k : string) (default : Z) : Z :=
    match d with
    | [] => default
    | (k', v) :: d' => if String.eqb k' k then v else dict_get d' k default
    end.

  (** [d[k] = v]: an existing key keeps its position, a new key goes last. *)
Fixpoint dict_set (d : dict) (k : string) (v : Z) : dict :=
    match d with
    | [] => [(k, v)]
    | (k', v') :: d' =>
        if String.eqb k' k then (k', v) :: d' else (k', v') :: dict_set d' k v
    end.

  (** The scan of [max(d, key=d.get)]: keys are visited in insertion
      order, each with its own value, and a later key replaces the
      current best only when its value is strictly greater. *)
Fixpoint max_scan (best : string * Z) (d : dict) : string * Z :=
    match d with
    | [] => best
    | kv :: d' => max_scan (if (snd best <? snd kv)%Z then kv else best) d'
    end.

  (** [k = max(d, key=d.get)] together with [d[k]]; [ValueError] on an
      empty dict. *)
Definition dict_max (d : dict) : result (string * Z) :=
    match d with
    | [] => Raise ValueError
    | kv :: d' => Return (max_scan kv d')
    end.

  (** [max(l, key=key)] for a [float]-valued key: the first element whose
      key no later element exceeds. *)
Fixpoint max_by_scan {A : Type} (key : A -> float) (best : A) (l : list A) : A :=
    match l with
    | [] => best
    | x :: l' => max_by_scan key (if (key best <? key x)%float then x else best) l'
    end.

  (** [l.sort(key=key)].  The sort is stable and compares keys with [<]
      only; it is embedded as the stable insertion sort.  On keys that
      are totally ordered by [<] (no NaN) every stable sort returns this
      list. *)
Fixpoint insert_by {A : Type} (key : A -> float) (x : A) (l : list A) : list A :=
    match l with
    | [] => [x]
    | y :: l' =>
        if (key x <? key y)%float then x :: y :: l' else y :: insert_by key x l'
    end.

Definition sort_by {A : Type} (key : A -> float) (l : list A) : list A :=
    fold_left (fun sorted x => insert_by key x sorted) l [].

  (** [str(n)] for an [int]. *)
Definition str (n : Z) : string := NilZero.string_of_int (Z.to_int n).

End Py.

Import Py.

Declare Scope py_scope.
Notation "x <- m ;; k" := (Py.bind m (fun x => k))
  (at level 61, m at next level, right associativity) : py_scope.
Notation "' p <- m ;; k" := (Py.bind m (fun x => match x with p => k end))
  (at level 61, p pattern, m at next level, right associativity) : py_scope.
Local Open Scope py_scope.

(* ================================================================== *)
(** * The OpenCV interface *)
(* ================================================================== *)

(** The spatial moments the code reads from [cv2.moments]. *)
Record Moments : Type := {
  m00 : float;
  m10 : float;
  m01 : float
}.

Inductive MorphOp : Type := MORPH_OPEN | MORPH_CLOSE.

(** The OpenCV calls of the detectors.  [shape] is [image.shape] reduced
    to (rows, columns); [findContours] is called with [RETR_EXTERNAL] and
    [CHAIN_APPROX_SIMPLE]; [convexHull] with [returnPoints=True] yields
    integer pixel points; a structuring element [np.ones((k, k))] is
    given by its side [k]. *)
Class OpenCV : Type := {
  Image : Type;
  Mask : Type;
  Contour : Type;
  shape : Image -> Z * Z;
  cvtColor_BGR2HSV : Image -> Image;
  inRange : Image -> Z * Z * Z -> Z * Z * Z -> Mask;
  morphologyEx : Mask -> MorphOp -> Z -> Mask;
  findContours : Mask -> list Contour;
  contourArea : Contour -> float;
  convexHull : Contour -> list (Z * Z);
  moments : Contour -> Moments
}.

(** A finger tip [[x, y, 0.0]] in frame-relative coordinates. *)
Definition Point : Type := (float * float * float)%type.

Definition px (p : Point) : float := fst (fst p).
Definition py (p : Point) : float := snd (fst p).

(* ================================================================== *)
(** * model/finger_detection.py *)
(* ================================================================== *)

(** [FingerDetector]: the two attributes set by [__init__]. *)
Record FingerDetector : Type := {
  min_contour_area : Z;
  max_contour_area : Z
}.

(** [FingerDetector.__init__]. *)
Definition FingerDetector_init : FingerDetector :=
  {| min_contour_area := 5000; max_contour_area := 50000 |}.

Section FingerDetection.

Context {cv : OpenCV}.

  (** The mask and contour extraction shared by the detectors; [k] is
      the side of the structuring element (3 in [FingerDetector], 5 in
      [ImprovedHandDetector]). *)
Definition skin_contours (k : Z) (image : Image) : list Contour :=
    let hsv := cvtColor_BGR2HSV image in
    let lower_skin := (0, 20, 70) in
    let upper_skin := (20, 255, 255) in
    let mask := inRange hsv lower_skin upper_skin in
    let mask := morphologyEx mask MORPH_OPEN k in
    let mask := morphologyEx mask MORPH_CLOSE k in
    findContours mask.

  (** [distance = np.sqrt((x - center_x)**2 + (y - center_y)**2)].  The
      squares and their sum are integer arithmetic on pixel coordinates;
      these are far below the square root of the integer range, so no
      wrap-around arises and the arithmetic is written in [Z].  The
      square root is the binary64 one. *)
Definition distance (x y center_x center_y : Z) : float :=
    PrimFloat.sqrt (Z2F ((x - center_x) ^ 2 + (y - center_y) ^ 2)).

  (** The test of the loop body of [_find_finger_tips]:
      [distance > 50 and y < center_y]. *)
Definition is_finger_tip (center_x center_y : Z) (point : Z * Z) : bool :=
    let '(x, y) := point in
    (Z2F 50 <? distance x y center_x center_y)%float && (y <? center_y)%Z.

  (** [[x / image_shape[1], y / image_shape[0], 0.0]]. *)
Definition normalized (image_shape : Z * Z) (point : Z * Z) : Point :=
    let '(x, y) := point in
    ((Z2F x / Z2F (snd image_shape))%float,
     (Z2F y / Z2F (fst image_shape))%float,
     0%float).

  (** [FingerDetector._find_finger_tips]. *)
Definition _find_finger_tips (contour : Contour) (image_shape : Z * Z)
    : Py.result (list Point) :=
    let hull := convexHull contour in
    let moments := moments contour in
    if (m00 moments =? 0)%float then Return []
    else
      center_x <- Py.int (m10 moments / m00 moments)%float ;;
      center_y <- Py.int (m01 moments / m00 moments)%float ;;
      let finger_tips :=
        fold_left
          (fun finger_tips point =>
             if is_finger_tip center_x center_y point
             then finger_tips ++ [normalized image_shape point]
             else finger_tips)
          hull [] in
      let finger_tips := Py.sort_by px finger_tips in
      Return (firstn 5 finger_tips).

  (** [FingerDetector.detect_fingers]. *)
Definition detect_fingers (self : FingerDetector) (image : Image)
    : Py.result (bool * option (list Point)) :=
    let contours := skin_contours 3 image in
    match contours with
    | [] => Return (false, None)
    | first :: rest =>
        let hand_contour := Py.max_by_scan contourArea first rest in
        let area := contourArea hand_contour in
        if (area <? Z2F (min_contour_area self))%float then Return (false, None)
        else
          finger_points <- _find_finger_tips hand_contour (shape image) ;;
          if (3 <=? Py.len finger_points)%Z then Return (true, Some finger_points)
          else Return (false, None)
    end.

End FingerDetection.

(* ================================================================== *)
(** * model/improved_hand_detection.py: the area gate *)
(* ================================================================== *)

(** [ImprovedHandDetector]. *)
Record ImprovedHandDetector : Type := {
  improved_min_contour_area : Z;
  improved_max_contour_area : Z
}.

(** [ImprovedHandDetector.__init__]. *)
Definition ImprovedHandDetector_init : ImprovedHandDetector :=
  {| improved_min_contour_area := 10000; improved_max_contour_area := 100000 |}.

Section ImprovedHandDetection.

Context {cv : OpenCV}.

  (** [ImprovedHandDetector._extract_finger_landmarks] works on convexity
      defects and arc cosines; [detect_hands] only tests its result, so it
      is taken as given here.  Its embedding, further down, is what the
      statements about the landmarks pass for it. *)
Variable _extract_finger_landmarks : Contour -> Z * Z -> option (list Point).

  (** [ImprovedHandDetector.detect_hands]. *)
Definition detect_hands (self : ImprovedHandDetector) (image : Image)
    : bool * option (list Point) :=
    let contours := skin_contours 5 image in
    match contours with
    | [] => (false, None)
    | first :: rest =>
        let largest_contour := Py.max_by_scan contourArea first rest in
        let area := contourArea largest_contour in
        if (area <? Z2F (improved_min_contour_area self))%float
           || (Z2F (improved_max_contour_area self) <? area)%float
        then (false, None)
        else
          match _extract_finger_landmarks largest_contour (shape image) with
          | Some ((_ :: _) as landmarks) =>
              if (5 <=? Py.len landmarks)%Z then (true, Some landmarks)
              else (false, None)
          | _ => (false, None)
          end
    end.

End ImprovedHandDetection.

(* ================================================================== *)
(** * model/asl_letter_detector.py *)
(* ================================================================== *)

(** One entry of [detection_history]: [(detected_letter, confidence)]. *)
Definition Detection : Type := (string * float)%type.

(** [ASLLetterDetector]: the attributes the detection methods read or
    write.  ([letter_patterns], [min_confidence], [current_letter] and
    [confidence] are only used by the drawing helpers.) *)
Record ASLLetterDetector : Type := {
  finger_detector : FingerDetector;
  stable_frames : Z;
  detection_history : list Detection
}.

(** [ASLLetterDetector.__init__]. *)
Definition ASLLetterDetector_init : ASLLetterDetector :=
  {| finger_detector := FingerDetector_init;
     stable_frames := 5;
     detection_history := [] |}.

Definition with_history (self : ASLLetterDetector) (h : list Detection)
  : ASLLetterDetector :=
  {| finger_detector := finger_detector self;
     stable_frames := stable_frames self;
     detection_history := h |}.

(** [ASLLetterDetector._distinguish_a_or_d]. *)
Definition _distinguish_a_or_d (finger_points : list Point) : Detection :=
  match finger_points with
  | [] => ("A", 0.5%float)
  | point :: _ =>
      let finger_x := px point in
      if (finger_x <? 0.4)%float then ("A", 0.7%float) else ("D", 0.7%float)
  end.

(** [ASLLetterDetector._classify_by_finger_count]. *)
Definition _classify_by_finger_count (finger_count : Z) (finger_points : list Point)
  : Detection :=
  if finger_count =? 0 then ("E", 0.8%float)
  else if finger_count =? 1 then _distinguish_a_or_d finger_points
  else if finger_count =? 2 then ("C", 0.6%float)
  else if finger_count =? 3 then ("C", 0.7%float)
  else if finger_count =? 4 then ("C", 0.6%float)
  else if finger_count =? 5 then ("B", 0.8%float)
  else ("Unknown", 0%float).

(** The loop of [_get_stable_detection]: occurrences of each letter, in
    order of first appearance, and the running sum of the confidences. *)
Definition tally (history : list Detection) : Py.dict * float :=
  fold_left
    (fun '(letter_counts, total_confidence) '(letter, confidence) =>
       (Py.dict_set letter_counts letter (Py.dict_get letter_counts letter 0 + 1),
        (total_confidence + confidence)%float))
    history ([], 0%float).

(** [ASLLetterDetector._get_stable_detection]. *)
Definition _get_stable_detection (self : ASLLetterDetector)
  : Py.result (option string * float) :=
  if Py.len (detection_history self) <? stable_frames self
  then Return (None, 0%float)
  else
    let '(letter_counts, total_confidence) := tally (detection_history self) in
    '(most_common_letter, most_common_count) <- Py.dict_max letter_counts ;;
    if (Z2F (stable_frames self) * 0.6 <=? Z2F most_common_count)%float
    then
      let avg_confidence :=
        (total_confidence / Z2F (Py.len (detection_history self)))%float in
      Return (Some most_common_letter, avg_confidence)
    else Return (None, 0%float).

(** Lines 53-61 of [detect_asl_letter]: the per-frame result is appended
    to the history, the oldest entry is dropped when the history exceeds
    [stable_frames], and the stable detection is returned. *)
Definition record_detection (self : ASLLetterDetector) (detection : Detection)
  : Py.result (ASLLetterDetector * (option string * float)) :=
  let history := detection_history self ++ [detection] in
  let history :=
    if stable_frames self <? Py.len history then tl history else history in
  let self := with_history self history in
  stable <- _get_stable_detection self ;;
  Return (self, stable).

Section LetterDetection.

Context {cv : OpenCV}.

  (** Lines 41-51 of [detect_asl_letter]: the per-frame letter. *)
Definition frame_detection (self : ASLLetterDetector) (image : Image)
    : Py.result Detection :=
    '(fingers_detected, finger_points) <- detect_fingers (finger_detector self) image ;;
    if negb fingers_detected then Return ("E", 0.7%float)
    else
      match finger_points with
      | Some finger_points =>
          let finger_count := Py.len finger_points in
          Return (_classify_by_finger_count finger_count finger_points)
      | None => Raise TypeError
      end.

  (** [ASLLetterDetector.detect_asl_letter]. *)
Definition detect_asl_letter (self : ASLLetterDetector) (image : Image)
    : Py.result (ASLLetterDetector * (option string * float)) :=
    detection <- frame_detection self image ;;
    record_detection self detection.

  (** Consecutive calls of [detect_asl_letter] on one detector: the final
      detector and the returned values, oldest first. *)
Fixpoint detect_sequence (self : ASLLetterDetector) (images : list Image)
    : Py.result (ASLLetterDetector * list (option string * float)) :=
    match images with
    | [] => Return (self, [])
    | image :: images' =>
        '(self', stable) <- detect_asl_letter self image ;;
        '(self'', stables) <- detect_sequence self' images' ;;
        Return (self'', stable :: stables)
    end.

End LetterDetection.

(** Consecutive pushes of per-frame results into one detector. *)
Fixpoint record_sequence (self : ASLLetterDetector) (detections : list Detection)
  : Py.result (ASLLetterDetector * list (option string * float)) :=
  match detections with
  | [] => Return (self, [])
  | detection :: detections' =>
      '(self', stable) <- record_detection self detection ;;
      '(self'', stables) <- record_sequence self' detections' ;;
      Return (self'', stable :: stables)
  end.

(* ================================================================== *)
(** * model/simple_asl_detector.py *)
(* ================================================================== *)

(** What [detect_letter] returns: letter, confidence, description. *)
Definition Described : Type := (string * float * string)%type.

(** The branches of [SimpleASLDetector.detect_letter] on the outcome of
    [detect_fingers]. *)
Definition describe_letter (fingers_detected : bool) (finger_points : option (list Point))
  : Py.result Described :=
  if negb fingers_detected then Return ("E", 0.8%float, "Fist (no fingers)")
  else
    match finger_points with
    | None => Raise TypeError
    | Some finger_points =>
        let finger_count := Py.len finger_points in
        if finger_count =? 1 then
          match finger_points with
          | point :: _ =>
              let finger_x := px point in
              if (finger_x <? 0.4)%float then Return ("A", 0.7%float, "Thumb out")
              else Return ("D", 0.7%float, "Index finger up")
          | [] => Raise IndexError
          end
        else if finger_count =? 2 then Return ("C", 0.6%float, "Curved hand (2 fingers)")
        else if finger_count =? 3 then Return ("C", 0.7%float, "Curved hand (3 fingers)")
        else if finger_count =? 4 then Return ("C", 0.6%float, "Curved hand (4 fingers)")
        else if finger_count =? 5 then Return ("B", 0.8%float, "Open hand (5 fingers)")
        else Return ("Unknown", 0%float, "Detected " ++ Py.str finger_count ++ " fingers")%string
    end.

Section SimpleDetection.

Context {cv : OpenCV}.

  (** [SimpleASLDetector.detect_letter]; the detector's only attribute
      read here is its [FingerDetector]. *)
Definition detect_letter (finger_detector : FingerDetector) (image : Image)
    : Py.result Described :=
    '(fingers_detected, finger_points) <- detect_fingers finger_detector image ;;
    describe_letter fingers_detected finger_points.

End SimpleDetection.

(* ================================================================== *)
(** * Vocabulary of the statements *)
(* ================================================================== *)

(** Number of entries of a window that carry a given letter. *)
Definition occurrences (letter : string) (window : list Detection) : Z :=
  Py.len (filter (fun d => String.eqb (fst d) letter) window).

(** Sum of the confidences of a window, accumulated from [0.0] in window
    order, and their mean: both in binary64, as the code computes them. *)
Definition confidence_sum (window : list Detection) : float :=
  fold_left (fun total d => (total + snd d)%float) window 0%float.

Definition window_mean (window : list Detection) : float :=
  (confidence_sum window / Z2F (Py.len window))%float.

(** The last five of the results pushed so far. *)
Definition trailing_window (pushed : list Detection) : list Detection :=
  skipn (List.length pushed - 5) pushed.

Section FrameVocabulary.

Context {cv : OpenCV}.

(** The contour that [detect_fingers] hands to [_find_finger_tips]: the
    largest external contour of the skin mask, when there is one and the
    area test lets it through. *)
Definition hand_contour (self : FingerDetector) (image : Image) : option Contour :=
  match skin_contours 3 image with
  | [] => None
  | first :: rest =>
      let hand_contour := Py.max_by_scan contourArea first rest in
      if (contourArea hand_contour <? Z2F (min_contour_area self))%float then None
      else Some hand_contour
  end.

(** The tip candidates of a frame: those of its hand contour, and none
    when no contour reaches the hull analysis. *)
Definition finger_tips_of (self : FingerDetector) (image : Image)
  : Py.result (list Point) :=
  match hand_contour self image with
  | None => Return []
  | Some contour => _find_finger_tips contour (shape image)
  end.

(** The contour that [detect_hands] hands to [_extract_finger_landmarks]. *)
Definition improved_hand_contour (self : ImprovedHandDetector) (image : Image)
  : option Contour :=
  match skin_contours 5 image with
  | [] => None
  | first :: rest =>
      let largest_contour := Py.max_by_scan contourArea first rest in
      let area := contourArea largest_contour in
      if (area <? Z2F (improved_min_contour_area self))%float
         || (Z2F (improved_max_contour_area self) <? area)%float
      then None
      else Some largest_contour
  end.

(** The per-frame outcome of [detect_asl_letter] read as a classification
    result whose label may be absent. *)
Definition per_frame_outcome (self : ASLLetterDetector) (image : Image)
  : Py.result (option string * float) :=
  '(letter, confidence) <- frame_detection self image ;;
  Return (Some letter, confidence).

End FrameVocabulary.

(** The stability rule in the words of its description: a window that is
    not full is undetermined; in a full window a letter with at least 3
    of the 5 entries is stable, with the mean of all the confidences of
    the window; otherwise the window is undetermined. *)
Definition majority_letter (window : list Detection) : option string :=
  option_map fst (find (fun d => 3 <=? occurrences (fst d) window) window).

Definition stable_of_window (window : list Detection) : option string * float :=
  if Py.len window <? 5 then (None, 0%float)
  else
    match majority_letter window with
    | Some letter => (Some letter, window_mean window)
    | None => (None, 0%float)
    end.

(** The values returned by the pushes of [detections] that follow the
    pushes of [pushed]: one per push, each read off the last five results
    pushed up to it. *)
Definition stable_outputs (pushed detections : list Detection)
  : list (option string * float) :=
  map (fun k => stable_of_window (trailing_window (pushed ++ firstn (S k) detections)))
      (seq 0 (List.length detections)).

(** Order of two elements by a binary64 key: no descent from [a] to
    [b], and [a] at most [b]. *)
Definition no_descent {A : Type} (key : A -> float) (a b : A) : Prop :=
  (key b <? key a)%float = false.

Definition key_le {A : Type} (key : A -> float) (a b : A) : Prop :=
  (key a <=? key b)%float = true.

(** The last step of the rounding [binary_round_aux] of a binary64
    result: the value read off the shifted mantissa and its exponent. *)
Definition round_finish (sx : bool) (mrs_e : shr_record * Z) : spec_float :=
  let '(mrs, e) := mrs_e in
  match shr_m mrs with
  | Z0 => S754_zero sx
  | Zpos m => if Z.leb e (Z.sub emax prec) then S754_finite sx m e else S754_infinity sx
  | _ => S754_nan
  end.

(** Closed interval test on binary64 values. *)
Definition within (lo hi x : float) : bool := ((lo <=? x) && (x <=? hi))%float.

(* ================================================================== *)
(** * Drawing *)
(* ================================================================== *)

(** A colour [(b, g, r)]. *)
Definition Colour : Type := (Z * Z * Z)%type.

(** The drawing helpers copy the image and draw on the copy.  The copy
    is given by the OpenCV drawing calls made on it, in order.
    [drawContours] is called with one outline: a contour or a convex
    hull.  A [thickness] of [-1] fills the shape. *)
Inductive DrawOp (C : Type) : Type :=
  | putText (text : string) (org : Z * Z) (fontScale : float) (color : Colour)
            (thickness : Z)
  | rectangle (pt1 pt2 : Z * Z) (color : Colour) (thickness : Z)
  | circle (center : Z * Z) (radius : Z) (color : Colour) (thickness : Z)
  | drawContours (outline : C + list (Z * Z)) (color : Colour) (thickness : Z).
Arguments putText {C} text org fontScale color thickness.
Arguments rectangle {C} pt1 pt2 color thickness.
Arguments circle {C} center radius color thickness.
Arguments drawContours {C} outline color thickness.

(** [(int(point[0] * image.shape[1]), int(point[1] * image.shape[0]))]:
    the pixel of a frame-relative point. *)
Definition pixel (image_shape : Z * Z) (point : Point) : Py.result (Z * Z) :=
  x <- Py.int (px point * Z2F (snd image_shape))%float ;;
  y <- Py.int (py point * Z2F (fst image_shape))%float ;;
  Return (x, y).

(** The loop of [FingerDetector.draw_fingers] from index [i] on. *)
Fixpoint draw_fingers_from {C : Type} (image_shape : Z * Z) (i : Z)
         (finger_points : list Point) : Py.result (list (DrawOp C)) :=
  match finger_points with
  | [] => Return []
  | point :: finger_points' =>
      '(x, y) <- pixel image_shape point ;;
      ops <- draw_fingers_from image_shape (i + 1) finger_points' ;;
      Return (circle (x, y) 8 (0, 255, 0) (-1)
              :: putText ("F" ++ Py.str (i + 1)) (x + 10, y - 10) 0.6%float
                         (255, 255, 255) 2
              :: ops)
  end.

Section FingerDrawing.

Context {cv : OpenCV}.

(** [FingerDetector.draw_fingers]. *)
Definition draw_fingers (image : Image) (finger_points : option (list Point))
  : Py.result (list (DrawOp Contour)) :=
  match finger_points with
  | Some ((_ :: _) as finger_points) => draw_fingers_from (shape image) 0 finger_points
  | _ => Return []
  end.

(** [FingerDetector.draw_hand_contour]. *)
Definition draw_hand_contour (self : FingerDetector) (image : Image)
  : Py.result (list (DrawOp Contour)) :=
  let contours := skin_contours 3 image in
  match contours with
  | [] => Return []
  | first :: rest =>
      let hand_contour := Py.max_by_scan contourArea first rest in
      let area := contourArea hand_contour in
      if (Z2F (min_contour_area self) <? area)%float then
        let hull := convexHull hand_contour in
        let outlines :=
          [drawContours (inl hand_contour) (0, 255, 0) 2;
           drawContours (inr hull) (255, 0, 0) 2] in
        let moments := moments hand_contour in
        if (m00 moments =? 0)%float then Return outlines
        else
          center_x <- Py.int (m10 moments / m00 moments)%float ;;
          center_y <- Py.int (m01 moments / m00 moments)%float ;;
          Return (outlines ++ [circle (center_x, center_y) 5 (0, 0, 255) (-1)])
      else Return []
  end.

(** [ImprovedHandDetector.draw_hand_contour]. *)
Definition improved_draw_hand_contour (self : ImprovedHandDetector) (image : Image)
  : list (DrawOp Contour) :=
  let contours := skin_contours 5 image in
  match contours with
  | [] => []
  | first :: rest =>
      let largest_contour := Py.max_by_scan contourArea first rest in
      let area := contourArea largest_contour in
      if (Z2F (improved_min_contour_area self) <? area)%float
         && (area <? Z2F (improved_max_contour_area self))%float
      then
        let hull := convexHull largest_contour in
        [drawContours (inl largest_contour) (0, 255, 0) 2;
         drawContours (inr hull) (255, 0, 0) 2]
      else []
  end.

End FingerDrawing.

(** [self.min_confidence], set by [ASLLetterDetector.__init__] and never
    assigned again. *)
Definition min_confidence : float := 0.6%float.

(** [self.letter_patterns], set by [ASLLetterDetector.__init__] and never
    assigned again: for each letter its ['fingers'] and ['description']. *)
Definition letter_patterns : list (string * (Z * string)) :=
  [("A", (1, "Fist with thumb out"));
   ("B", (5, "Open hand with all fingers extended"));
   ("C", (3, "Curved hand like letter C"));
   ("D", (1, "Index finger pointing up"));
   ("E", (0, "Fist with all fingers closed"))].

(** [ASLLetterDetector.get_letter_info]: [None] stands for the empty
    dict returned for a letter without a pattern. *)
Definition get_letter_info (letter : string) : option (Z * string) :=
  option_map snd (find (fun entry => String.eqb (fst entry) letter) letter_patterns).

(** Truth value of an optional [str]. *)
Definition truthy (letter : option string) : bool :=
  match letter with
  | Some s => negb (String.eqb s "")
  | None => false
  end.

Section DetectionDrawing.

(** [f"{confidence:.2f}"]. *)
Variable format_2f : float -> string.

(** [ASLLetterDetector.draw_detection]. *)
Definition draw_detection {C : Type} (letter : option string) (confidence : float)
  : Py.result (list (DrawOp C)) :=
  match letter with
  | Some text =>
      if truthy letter && (min_confidence <? confidence)%float then
        let bar_width := 200 in
        let bar_height := 20 in
        let bar_x := 50 in
        let bar_y := 150 in
        confidence_width <- Py.int (Z2F bar_width * confidence)%float ;;
        let color :=
          if (0.8 <? confidence)%float then (0, 255, 0)
          else if (0.6 <? confidence)%float then (0, 255, 255)
          else (0, 0, 255) in
        let description :=
          match get_letter_info text with
          | Some info => snd info
          | None => ""
          end in
        Return
          [putText ("ASL: " ++ text) (50, 100) 3%float (0, 255, 0) 4;
           rectangle (bar_x, bar_y) (bar_x + bar_width, bar_y + bar_height)
                     (50, 50, 50) (-1);
           rectangle (bar_x, bar_y) (bar_x + confidence_width, bar_y + bar_height)
                     color (-1);
           putText ("Confidence: " ++ format_2f confidence) (50, 190) 0.7%float
                   (255, 255, 255) 2;
           putText description (50, 220) 0.6%float (200, 200, 200) 1]
      else Return [putText "No ASL Letter Detected" (50, 100) 1%float (0, 0, 255) 2]
  | None => Return [putText "No ASL Letter Detected" (50, 100) 1%float (0, 0, 255) 2]
  end.

End DetectionDrawing.

(* ================================================================== *)
(** * model/improved_hand_detection.py: the landmarks *)
(* ================================================================== *)

(** [l.sort(key=key)] for an [int]-valued key: the stable insertion
    sort. *)
Fixpoint insert_by_int {A : Type} (key : A -> Z) (x : A) (l : list A) : list A :=
  match l with
  | [] => [x]
  | y :: l' => if key x <? key y then x :: y :: l' else y :: insert_by_int key x l'
  end.

Definition sort_by_int {A : Type} (key : A -> Z) (l : list A) : list A :=
  fold_left (fun sorted x => insert_by_int key x sorted) l [].

(** The exceptions that the [try] of [_extract_finger_landmarks] can
    catch: [cy] read before any assignment, an [int] divided by zero,
    and [int()] of a NaN or an infinity. *)
Inductive Caught : Type :=
  | UnboundLocalError
  | ZeroDivisionError
  | Conversion (e : Py.exn).

(** How the [try] ends: [return landmarks[:21]], the [return None] of a
    contour without defects, or an exception. *)
Inductive Extraction : Type :=
  | Landmarks (landmarks : list Point)
  | NoDefects
  | Except (e : Caught).

(** The synthetic landmark of the padding loop: the midpoint of the last
    two landmarks, or the centre of the frame when there are fewer than
    two. *)
Definition midpoint (p1 p2 : Point) : Point :=
  (((px p1 + px p2) / 2)%float, ((py p1 + py p2) / 2)%float, 0%float).

Definition synthetic (landmarks : list Point) : Point :=
  match rev landmarks with
  | p2 :: p1 :: _ => midpoint p1 p2
  | _ => (0.5%float, 0.5%float, 0%float)
  end.

(** [while len(landmarks) < 21: landmarks.append(synthetic)]: every
    iteration adds one landmark, so the loop runs [21 - len(landmarks)]
    times, or not at all. *)
Fixpoint pad_landmarks (missing : nat) (landmarks : list Point) : list Point :=
  match missing with
  | O => landmarks
  | S missing' => pad_landmarks missing' (landmarks ++ [synthetic landmarks])
  end.

Section FingerLandmarks.

Context {cv : OpenCV}.

(** [cv2.convexityDefects(contour, hull)] is [None] or an array of
    defects.  [far_point] is the contour point [contour[f][0]] of a
    defect.  [is_valley] is the test of lines 121-129 on a defect: the
    angle at the far point, obtained with [np.sqrt] and [np.arccos], is
    at most [np.pi/2], and the depth exceeds 10000.  numpy reports an
    invalid argument by a NaN, not by an exception. *)
Variable Defect : Type.
Variable convexityDefects : Contour -> option (list Defect).
Variable far_point : Contour -> Defect -> Z * Z.
Variable is_valley : Contour -> Defect -> bool.

(** Lines 89-94: [cy] and the wrist landmark, when [m00] is not zero. *)
Definition wrist_point (contour : Contour) (image_shape : Z * Z)
  : Caught + option (Z * Point) :=
  let moments := moments contour in
  if (m00 moments =? 0)%float then inr None
  else
    match Py.int (m10 moments / m00 moments)%float with
    | Raise e => inl (Conversion e)
    | Return cx =>
        match Py.int (m01 moments / m00 moments)%float with
        | Raise e => inl (Conversion e)
        | Return cy =>
            if snd image_shape =? 0 then inl ZeroDivisionError
            else if fst image_shape =? 0 then inl ZeroDivisionError
            else inr (Some (cy, ((Z2F cx / Z2F (snd image_shape))%float,
                                 (Z2F cy / Z2F (fst image_shape))%float,
                                 0%float)))
        end
    end.

(** Lines 97-102: the hull points above the wrist.  The test reads [cy]
    at the first hull point. *)
Definition points_above (cy : option Z) (hull_points : list (Z * Z))
  : Caught + list (Z * Z) :=
  match hull_points, cy with
  | [], _ => inr []
  | _ :: _, None => inl UnboundLocalError
  | _ :: _, Some cy => inr (filter (fun point => snd point <? cy - 50) hull_points)
  end.

(** The body of the [try] of [_extract_finger_landmarks]. *)
Definition extract_finger_landmarks_try (contour : Contour) (image_shape : Z * Z)
  : Extraction :=
  let hull_points := convexHull contour in
  match convexityDefects contour with
  | None => NoDefects
  | Some defects =>
      match wrist_point contour image_shape with
      | inl e => Except e
      | inr wrist =>
          let landmarks :=
            match wrist with
            | Some (_, wrist_point) => [wrist_point]
            | None => []
            end in
          match points_above (option_map fst wrist) hull_points with
          | inl e => Except e
          | inr finger_tips =>
              let finger_tips := sort_by_int fst finger_tips in
              let landmarks :=
                landmarks ++ map (normalized image_shape) (firstn 5 finger_tips) in
              let valleys :=
                map (far_point contour) (filter (is_valley contour) defects) in
              let landmarks :=
                landmarks ++ map (normalized image_shape) (firstn 4 valleys) in
              let landmarks :=
                pad_landmarks (Z.to_nat (21 - Py.len landmarks)) landmarks in
              Landmarks (firstn 21 landmarks)
          end
      end
  end.

(** [ImprovedHandDetector._extract_finger_landmarks]: an exception is
    caught and turned into [None]. *)
Definition _extract_finger_landmarks (contour : Contour) (image_shape : Z * Z)
  : option (list Point) :=
  match extract_finger_landmarks_try contour image_shape with
  | Landmarks landmarks => Some landmarks
  | NoDefects => None
  | Except _ => None
  end.

End FingerLandmarks.

(* ================================================================== *)
(** * model/opencv_hand_detection.py *)
(* ================================================================== *)

(** The body of the loop of [_create_simple_landmarks] for index [i];
    [//] is the floor division. *)
Definition simple_landmark_pixel (x y w h i : Z) : Z * Z :=
  if i <? 5 then (x + (i * w / 4), y + h / 2)
  else if i <? 9 then (x + w / 2, y + (i - 5) * h / 4)
  else if i <? 13 then (x + w / 2 + w / 8, y + (i - 9) * h / 4)
  else if i <? 17 then (x + w / 2 + w / 4, y + (i - 13) * h / 4)
  else (x + w / 2 + 3 * w / 8, y + (i - 17) * h / 4).

(** [OpenCVHandDetector._create_simple_landmarks]. *)
Definition _create_simple_landmarks (x y w h : Z) : list Point :=
  map (fun i =>
         let '(px, py) := simple_landmark_pixel x y w h i in
         ((Z2F px / 640.0)%float, (Z2F py / 480.0)%float, 0%float))
      (map Z.of_nat (seq 0 21)).

Section ColorDetection.

Context {cv : OpenCV}.

(** [cv2.boundingRect]: [(x, y, w, h)]. *)
Variable boundingRect : Contour -> Z * Z * Z * Z.

(** [OpenCVHandDetector._detect_hands_by_color], which is what
    [detect_hands] calls: [use_color_detection] is always [True]. *)
Definition _detect_hands_by_color (image : Image) : bool * option (list Point) :=
  let contours := skin_contours 5 image in
  match contours with
  | [] => (false, None)
  | first :: rest =>
      let largest_contour := Py.max_by_scan contourArea first rest in
      let area := contourArea largest_contour in
      if (Z2F 5000 <? area)%float then
        let '(x, y, w, h) := boundingRect largest_contour in
        let landmarks := _create_simple_landmarks x y w h in
        (true, Some landmarks)
      else (false, None)
  end.

End ColorDetection.

(* ================================================================== *)
(** * model/asl_training_helper.py *)
(* ================================================================== *)

(** One entry of [training_data]. *)
Record Sample : Type := {
  timestamp : string;
  letter : string;
  finger_count : Z;
  finger_points : list Point;
  image_shape : Z * Z
}.

(** [ASLTrainingHelper]: the attributes [collect_sample] reads or
    writes. *)
Record ASLTrainingHelper : Type := {
  helper_finger_detector : FingerDetector;
  training_data : list Sample
}.

(** [ASLTrainingHelper.__init__]. *)
Definition ASLTrainingHelper_init : ASLTrainingHelper :=
  {| helper_finger_detector := FingerDetector_init; training_data := [] |}.

Section Training.

Context {cv : OpenCV}.

(** [ASLTrainingHelper.collect_sample]; [now] is
    [datetime.now().isoformat()] at the call. *)
Definition collect_sample (self : ASLTrainingHelper) (now : string) (image : Image)
           (letter : string) : Py.result (ASLTrainingHelper * bool) :=
  '(fingers_detected, finger_points) <-
     detect_fingers (helper_finger_detector self) image ;;
  if fingers_detected then
    match finger_points with
    | Some finger_points =>
        let finger_count := Py.len finger_points in
        let sample :=
          {| timestamp := now;
             letter := letter;
             finger_count := finger_count;
             finger_points := finger_points;
             image_shape := shape image |} in
        Return ({| helper_finger_detector := helper_finger_detector self;
                   training_data := training_data self ++ [sample] |}, true)
    | None => Raise TypeError
    end
  else Return (self, false).

(** Consecutive calls of [collect_sample] on one helper: the final
    helper and the returned values, oldest first. *)
Fixpoint collect_samples (self : ASLTrainingHelper)
         (calls : list (string * Image * string))
  : Py.result (ASLTrainingHelper * list bool) :=
  match calls with
  | [] => Return (self, [])
  | (now, image, letter) :: calls' =>
      '(self', collected) <- collect_sample self now image letter ;;
      '(self'', rest) <- collect_samples self' calls' ;;
      Return (self'', collected :: rest)
  end.

End Training.

(* ================================================================== *)
(** * Frames for the examples *)
(* ================================================================== *)

(** A frame given by what OpenCV reports about it: its shape and, for
    each external contour of its skin mask, the area, the convex hull
    and the moments. *)
Record Blob : Type := {
  blob_area : float;
  blob_hull : list (Z * Z);
  blob_moments : Moments
}.

Record Scene : Type := {
  scene_shape : Z * Z;
  scene_blobs : list Blob
}.

Definition SceneCV : OpenCV := {|
  Image := Scene;
  Mask := list Blob;
  Contour := Blob;
  shape := scene_shape;
  cvtColor_BGR2HSV := fun image => image;
  inRange := fun image _ _ => scene_blobs image;
  morphologyEx := fun mask _ _ => mask;
  findContours := fun mask => mask;
  contourArea := blob_area;
  convexHull := blob_hull;
  moments := blob_moments
|}.

(** Moments of a region of area [area] whose centroid is [(cx, cy)]. *)
Definition moments_at (area cx cy : Z) : Moments :=
  {| m00 := Z2F area; m10 := Z2F (cx * area); m01 := Z2F (cy * area) |}.

(** A hull with five vertices far above the centroid (320, 300) and two
    below it. *)
Definition spread_hull : list (Z * Z) :=
  [(440, 200); (200, 200); (260, 150); (320, 130); (380, 150); (400, 400); (240, 400)].

(** A hull whose vertices all lie within 50 pixels of the centroid. *)
Definition compact_hull : list (Z * Z) :=
  [(290, 270); (350, 270); (350, 330); (290, 330)].

(** A hull with three vertices far above the centroid. *)
Definition three_tip_hull : list (Z * Z) :=
  [(260, 150); (320, 130); (380, 150); (400, 400); (240, 400)].

(** A hull with two vertices far above the centroid. *)
Definition two_tip_hull : list (Z * Z) :=
  [(260, 150); (380, 150); (400, 400); (240, 400)].

Definition frame_of (area : Z) (hull : list (Z * Z)) : Scene :=
  {| scene_shape := (480, 640);
     scene_blobs := [ {| blob_area := Z2F area;
                         blob_hull := hull;
                         blob_moments := moments_at area 320 300 |} ] |}.

(** The contour of an open hand of area 20000 and the tips found on it. *)
Definition open_hand_contour : Blob :=
  {| blob_area := Z2F 20000;
     blob_hull := spread_hull;
     blob_moments := moments_at 20000 320 300 |}.

Definition open_hand_tips : list Point :=
  [(0.3125, 0.41666666666666669, 0); (0.40625, 0.3125, 0);
   (0.5, 0.27083333333333331, 0); (0.59375, 0.3125, 0);
   (0.6875, 0.41666666666666669, 0)]%float.

(** A 640x480 frame with an open hand of area 20000. *)
Definition open_hand_frame : Scene := frame_of 20000 spread_hull.

(** A 640x480 frame with a fist of area 20000. *)
Definition fist_frame : Scene := frame_of 20000 compact_hull.

(** A 640x480 frame with three spread fingers. *)
Definition three_finger_frame : Scene := frame_of 20000 three_tip_hull.

(** A 640x480 frame with two spread fingers. *)
Definition two_finger_frame : Scene := frame_of 20000 two_tip_hull.

(** A 640x480 frame whose largest contour has area 1. *)
Definition speck_frame : Scene := frame_of 1 spread_hull.

(** A 640x480 frame whose largest contour, an open hand close to the
    camera, has area 60000. *)
Definition oversized_frame : Scene := frame_of 60000 spread_hull.

(** A 640x480 frame without any skin-coloured region. *)
Definition empty_frame : Scene := {| scene_shape := (480, 640); scene_blobs := [] |}.

(** A hull with six vertices far above the centroid (320, 300). *)
Definition crowded_hull : list (Z * Z) :=
  [(440, 200); (200, 200); (260, 150); (320, 130); (380, 150); (150, 240);
   (400, 400); (240, 400)].

Definition crowded_contour : Blob :=
  {| blob_area := Z2F 20000;
     blob_hull := crowded_hull;
     blob_moments := moments_at 20000 320 300 |}.

(** A 640x480 frame whose only contour has area 5000 (resp. 10000 and
    100000): the lower bound of [FingerDetector] (resp. the two bounds
    of [ImprovedHandDetector]). *)
Definition boundary_frame : Scene := frame_of 5000 spread_hull.
Definition lower_bound_frame : Scene := frame_of 10000 spread_hull.
Definition upper_bound_frame : Scene := frame_of 100000 spread_hull.

(** The rows of a 640x480 frame whose frame-relative coordinate
    [y / 480], multiplied by 480 again, falls just below [y]. *)
Definition rounds_down (y : Z) : bool := existsb (Z.eqb y) [123; 245; 246; 247].

(** The pixel at which a hull vertex of a 640x480 frame is drawn. *)
Definition drawn_at (vertex : Z * Z) : Z * Z :=
  (fst vertex, if rounds_down (snd vertex) then snd vertex - 1 else snd vertex).

(** The centres of the circles of a drawing. *)
Definition circle_centers {C : Type} (ops : list (DrawOp C)) : list (Z * Z) :=
  flat_map (fun op => match op with circle center _ _ _ => [center] | _ => [] end) ops.

(** A hull with four vertices far above the centroid. *)
Definition four_tip_hull : list (Z * Z) :=
  [(200, 200); (260, 150); (320, 130); (380, 150); (400, 400); (240, 400)].

(** A 640x480 frame with four spread fingers. *)
Definition four_finger_frame : Scene := frame_of 20000 four_tip_hull.

(** The drawing of [draw_detection] without a letter. *)
Definition no_letter_drawing {C : Type} : list (DrawOp C) :=
  [putText "No ASL Letter Detected" (50, 100) 1%float (0, 0, 255) 2].

(** The drawing of [draw_detection] with a letter, for a confidence bar
    of a given width and colour. *)
Definition letter_drawing {C : Type} (format_2f : float -> string) (text : string)
           (confidence : float) (confidence_width : Z) (color : Colour)
  : list (DrawOp C) :=
  [putText ("ASL: " ++ text) (50, 100) 3%float (0, 255, 0) 4;
   rectangle (50, 150) (250, 170) (50, 50, 50) (-1);
   rectangle (50, 150) (50 + confidence_width, 170) color (-1);
   putText ("Confidence: " ++ format_2f confidence) (50, 190) 0.7%float
           (255, 255, 255) 2;
   putText (match get_letter_info text with Some info => snd info | None => "" end)
           (50, 220) 0.6%float (200, 200, 200) 1].

(** Convexity defects for the examples: a defect is given by its far
    point, and every defect passes the valley test. *)
Definition scene_defects (contour : Blob) : option (list (Z * Z)) :=
  Some [(290, 260); (350, 260)].

Definition scene_landmarks (contour : Blob) (image_shape : Z * Z)
  : option (list Point) :=
  _extract_finger_landmarks (cv := SceneCV) (Z * Z) scene_defects
    (fun _ far => far) (fun _ _ => true) contour image_shape.

(** The landmarks of the open hand. *)
Definition open_hand_landmarks : list Point :=
  Eval vm_compute in
    match scene_landmarks open_hand_contour (480, 640) with
    | Some landmarks => landmarks
    | None => []
    end.

(** A contour whose moments are all zero. *)
Definition flat_contour : Blob :=
  {| blob_area := Z2F 20000;
     blob_hull := spread_hull;
     blob_moments := {| m00 := 0; m10 := 0; m01 := 0 |} |}.

(** A bounding rectangle for the examples: the one of [spread_hull]. *)
Definition scene_bounding_rect (contour : Blob) : Z * Z * Z * Z :=
  (200, 130, 240, 270).

(** The third coordinate of a point. *)
Definition pz (p : Point) : float := snd p.

(** A contour of area 20000 whose centroid (320.9, 300.9) is not a
    pixel: its moments are [m10 = 320.9 * 20000] and
    [m01 = 300.9 * 20000]. *)
Definition off_centre_contour : Blob :=
  {| blob_area := Z2F 20000;
     blob_hull := [(370, 299); (400, 400); (240, 400)];
     blob_moments := {| m00 := Z2F 20000; m10 := Z2F 6418000; m01 := Z2F 6018000 |} |}.

(* ================================================================== *)
(** * Properties: Python primitives *)
(* ================================================================== *)

(** [lia] after the list lengths of the goal are made opaque. *)
Ltac length_lia :=
  unfold Detection, Point in *;
  repeat match goal with
         | |- context [@List.length ?A ?l] =>
             let n := fresh "n" in set (n := @List.length A l) in *; clearbody n
         | H : context [@List.length ?A ?l] |- _ =>
             let n := fresh "n" in set (n := @List.length A l) in *; clearbody n
         end;
  lia.

Section DictFacts.

Lemma dict_get_set (d : Py.dict) (k k' : string) (v default : Z) :
    Py.dict_get (Py.dict_set d k v) k' default =
    if String.eqb k k' then v else Py.dict_get d k' default.
  Proof.
    induction d as [| [k0 v0] d IH]; simpl.
    - reflexivity.
    - destruct (String.eqb k0 k) eqn:E0; simpl.
      + apply String.eqb_eq in E0; subst k0.
        destruct (String.eqb k k'); reflexivity.
      + destruct (String.eqb k0 k') eqn:E1.
        * apply String.eqb_eq in E1; subst k0. now rewrite String.eqb_sym, E0.
        * exact IH.
  Qed.

Lemma dict_set_keys (d : Py.dict) (k : string) (v : Z) :
    forall k', In k' (map fst (Py.dict_set d k v)) <-> k' = k \/ In k' (map fst d).
  Proof.
    induction d as [| [k0 v0] d IH]; simpl; intros k'.
    - intuition.
    - destruct (String.eqb k0 k) eqn:E0; simpl.
      + apply String.eqb_eq in E0; subst k0. intuition.
      + rewrite IH. intuition.
  Qed.

Lemma dict_set_NoDup (d : Py.dict) (k : string) (v : Z) :
    NoDup (map fst d) -> NoDup (map fst (Py.dict_set d k v)).
  Proof.
    induction d as [| [k0 v0] d IH]; simpl; intros ND.
    - constructor; [intros [] | constructor].
    - inversion ND as [| ? ? Hnotin ND']; subst.
      destruct (String.eqb k0 k) eqn:E0; simpl.
      + constructor; assumption.
      + constructor; [| auto].
        rewrite dict_set_keys. intros [-> | Hin]; [| contradiction].
        now rewrite String.eqb_refl in E0.
  Qed.

  (** With distinct keys, every stored pair is what [get] returns. *)
Lemma dict_get_In (d : Py.dict) (k : string) (v default : Z) :
    NoDup (map fst d) -> In (k, v) d -> Py.dict_get d k default = v.
  Proof.
    induction d as [| [k0 v0] d IH]; simpl; intros ND Hin; [contradiction |].
    inversion ND as [| ? ? Hnotin ND']; subst.
    destruct Hin as [Heq | Hin].
    - inversion Heq; subst. now rewrite String.eqb_refl.
    - destruct (String.eqb k0 k) eqn:E0.
      + apply String.eqb_eq in E0; subst k0.
        exfalso. apply Hnotin. change k with (fst (k, v)). now apply in_map.
      + now apply IH.
  Qed.

Lemma dict_set_nonempty (d : Py.dict) (k : string) (v : Z) :
    Py.dict_set d k v <> [].
  Proof. destruct d as [| [k0 v0] d]; simpl; [| destruct (String.eqb k0 k)]; discriminate. Qed.

  (** [max_scan] returns a visited pair whose value bounds all the others. *)
Lemma max_scan_spec (d : Py.dict) :
    forall best,
      let r := Py.max_scan best d in
      (r = best \/ In r d) /\ snd best <= snd r /\ (forall kv, In kv d -> snd kv <= snd r).
  Proof.
    induction d as [| kv d IH]; simpl; intros best.
    - split; [now left | split; [lia | intros ? []]].
    - destruct (IH (if snd best <? snd kv then kv else best)) as (Hin & Hle & Hall).
      destruct (Z.ltb_spec (snd best) (snd kv)) as [Hlt | Hge].
      + split; [destruct Hin as [-> | Hin]; auto |].
        split; [lia |]. intros kv' [<- | Hin']; auto.
      + split; [destruct Hin as [-> | Hin]; auto |].
        split; [lia |]. intros kv' [<- | Hin']; [lia | auto].
  Qed.

Lemma dict_max_spec (d : Py.dict) :
    d <> [] ->
    exists kv, Py.dict_max d = Return kv /\ In kv d /\ (forall kv', In kv' d -> snd kv' <= snd kv).
  Proof.
    destruct d as [| kv d]; [congruence | intros _].
    simpl. exists (Py.max_scan kv d).
    destruct (max_scan_spec d kv) as (Hin & Hle & Hall).
    split; [reflexivity |]. split.
    - destruct Hin as [-> | Hin]; [now left | now right].
    - intros kv' [<- | Hin']; auto.
  Qed.

End DictFacts.

(* ================================================================== *)
(** * Properties: the stability window *)
(* ================================================================== *)

Section Occurrences.

Lemma occurrences_nil letter : occurrences letter [] = 0.
  Proof. reflexivity. Qed.

Lemma occurrences_app letter (h1 h2 : list Detection) :
    occurrences letter (h1 ++ h2) = occurrences letter h1 + occurrences letter h2.
  Proof.
    unfold occurrences, Py.len. rewrite filter_app, length_app. length_lia.
  Qed.

Lemma occurrences_cons letter (d : Detection) (h : list Detection) :
    occurrences letter (d :: h) =
    (if String.eqb (fst d) letter then 1 else 0) + occurrences letter h.
  Proof.
    unfold occurrences, Py.len. simpl.
    destruct (String.eqb (fst d) letter); cbn [List.length]; length_lia.
  Qed.

Lemma occurrences_nonneg letter (h : list Detection) : 0 <= occurrences letter h.
  Proof. unfold occurrences, Py.len. length_lia. Qed.

  (** Two distinct letters share the entries of a window. *)
Lemma occurrences_two (a b : string) (h : list Detection) :
    a <> b -> occurrences a h + occurrences b h <= Py.len h.
  Proof.
    intros Hab. induction h as [| d h IH].
    - unfold Py.len; simpl; rewrite !occurrences_nil; lia.
    - rewrite !occurrences_cons.
      unfold Py.len in *. cbn [List.length]. rewrite Nat2Z.inj_succ.
      destruct (String.eqb (fst d) a) eqn:Ea, (String.eqb (fst d) b) eqn:Eb;
        try length_lia.
      apply String.eqb_eq in Ea, Eb. congruence.
  Qed.

Lemma occurrences_le_len letter (h : list Detection) : occurrences letter h <= Py.len h.
  Proof.
    unfold occurrences, Py.len. apply inj_le, filter_length_le.
  Qed.

Lemma occurrences_pos_In letter (h : list Detection) :
    0 < occurrences letter h <-> In letter (map fst h).
  Proof.
    induction h as [| d h IH].
    - rewrite occurrences_nil. simpl. split; [lia | intros []].
    - rewrite occurrences_cons. simpl.
      pose proof (occurrences_nonneg letter h).
      destruct (String.eqb (fst d) letter) eqn:E.
      + apply String.eqb_eq in E. split; [now left | lia].
      + apply String.eqb_neq in E. rewrite <- IH. split; [intros; right; lia |].
        intros [? | ?]; [contradiction | lia].
  Qed.

End Occurrences.

Section Tally.

Lemma tally_snoc (h : list Detection) (d : Detection) :
    tally (h ++ [d]) =
    (Py.dict_set (fst (tally h)) (fst d) (Py.dict_get (fst (tally h)) (fst d) 0 + 1),
     (snd (tally h) + snd d)%float).
  Proof.
    unfold tally. rewrite fold_left_app. simpl.
    destruct (fold_left _ h _) as [letter_counts total]. destruct d as [letter confidence].
    reflexivity.
  Qed.

Lemma confidence_sum_snoc (h : list Detection) (d : Detection) :
    confidence_sum (h ++ [d]) = (confidence_sum h + snd d)%float.
  Proof. unfold confidence_sum. now rewrite fold_left_app. Qed.

  (** What the loop of [_get_stable_detection] has computed at its end. *)
Lemma tally_spec (h : list Detection) :
    snd (tally h) = confidence_sum h
    /\ NoDup (map fst (fst (tally h)))
    /\ (forall letter, Py.dict_get (fst (tally h)) letter 0 = occurrences letter h)
    /\ (forall letter, In letter (map fst (fst (tally h))) <-> In letter (map fst h)).
  Proof.
    induction h as [| d h IH] using rev_ind.
    - repeat split; simpl; try constructor; intros; try contradiction.
    - destruct IH as (Hsum & Hnd & Hget & Hkeys).
      rewrite tally_snoc. cbn [fst snd]. split; [| split; [| split]].
      + now rewrite confidence_sum_snoc, Hsum.
      + now apply dict_set_NoDup.
      + intros letter. rewrite dict_get_set, occurrences_app, occurrences_cons, occurrences_nil.
        rewrite !Hget. destruct (String.eqb (fst d) letter) eqn:E.
        * apply String.eqb_eq in E; subst. lia.
        * lia.
      + intros letter. rewrite dict_set_keys, Hkeys, map_app, in_app_iff. simpl.
        intuition.
  Qed.

Lemma tally_nonempty (h : list Detection) : h <> [] -> fst (tally h) <> [].
  Proof.
    destruct h as [| d h] using rev_ind; [congruence | intros _].
    rewrite tally_snoc. cbn [fst]. apply dict_set_nonempty.
  Qed.

End Tally.

Section StableDetection.

(** [stable_frames * 0.6] is [3.0] in binary64, so the acceptance test on
    a count of a five-entry window is [3 <= count]. *)
Lemma threshold_five (count : Z) :
  0 <= count <= 5 ->
  (Z2F 5 * 0.6 <=? Z2F count)%float = (3 <=? count).
Proof.
  intros H.
  assert (C : count = 0 \/ count = 1 \/ count = 2 \/ count = 3 \/ count = 4 \/ count = 5) by lia.
  destruct C as [-> | [-> | [-> | [-> | [-> | ->]]]]]; vm_compute; reflexivity.
Qed.

(** On a full window of five entries [_get_stable_detection] returns: it
    finds a letter of maximal count, and accepts it exactly when that
    count is at least 3. *)
Lemma get_stable_full (self : ASLLetterDetector) :
  stable_frames self = 5 ->
  Py.len (detection_history self) = 5 ->
  exists letter,
    In letter (map fst (detection_history self))
    /\ (forall other, occurrences other (detection_history self)
                      <= occurrences letter (detection_history self))
    /\ _get_stable_detection self =
       Return (if 3 <=? occurrences letter (detection_history self)
               then (Some letter, window_mean (detection_history self))
               else (None, 0%float)).
Proof.
  intros Hsf Hlen. unfold _get_stable_detection. rewrite Hsf, Hlen. simpl (5 <? 5).
  cbv iota.
  set (h := detection_history self) in *.
  destruct (tally_spec h) as (Hsum & Hnd & Hget & Hkeys).
  assert (Hne : h <> []) by (intros E; rewrite E in Hlen; discriminate).
  destruct (dict_max_spec (fst (tally h)) (tally_nonempty h Hne)) as ([k v] & Hmax & Hin & Hall).
  destruct (tally h) as [letter_counts total] eqn:Et. cbn [fst snd] in *.
  rewrite Hmax. cbn [Py.bind].
  assert (Hv : v = occurrences k h).
  { rewrite <- Hget. symmetry. now apply dict_get_In. }
  assert (Hk : In k (map fst h)).
  { apply Hkeys. change k with (fst (k, v)). now apply in_map. }
  exists k. split; [exact Hk |]. split.
  - intros other. rewrite <- Hv.
    destruct (in_dec string_dec other (map fst letter_counts)) as [Hi | Hni].
    + apply in_map_iff in Hi. destruct Hi as ([k' v'] & Hfst & Hin'). simpl in Hfst; subst k'.
      specialize (Hall _ Hin'). cbn [snd] in Hall.
      rewrite <- (Hget other). now rewrite (dict_get_In _ _ _ 0 Hnd Hin').
    + rewrite Hkeys in Hni.
      pose proof (occurrences_pos_In other h) as Hp.
      pose proof (occurrences_nonneg other h).
      pose proof (proj2 (occurrences_pos_In k h) Hk).
      assert (occurrences other h = 0) by (destruct (Z.eq_dec (occurrences other h) 0); [assumption | exfalso; apply Hni, Hp; lia]).
      lia.
  - rewrite threshold_five.
    + rewrite <- Hv. destruct (3 <=? v); [| reflexivity].
      unfold window_mean. fold h. now rewrite Hlen, Hsum.
    + rewrite Hv. pose proof (occurrences_le_len k h). pose proof (occurrences_nonneg k h). lia.
Qed.

(** A window shorter than five entries is undetermined. *)
Lemma get_stable_short (self : ASLLetterDetector) :
  stable_frames self = 5 ->
  Py.len (detection_history self) < 5 ->
  _get_stable_detection self = Return (None, 0%float).
Proof.
  intros Hsf Hlen. unfold _get_stable_detection. rewrite Hsf.
  destruct (Z.ltb_spec (Py.len (detection_history self)) 5); [reflexivity | lia].
Qed.

(** With five entries, a letter that occurs three times is the only one
    that does. *)
Lemma majority_unique (a b : string) (h : list Detection) :
  Py.len h = 5 -> 3 <= occurrences a h -> 3 <= occurrences b h -> a = b.
Proof.
  intros Hlen Ha Hb. destruct (string_dec a b) as [| Hne]; [assumption |].
  pose proof (occurrences_two a b h Hne). lia.
Qed.

End StableDetection.

Section Window.

Lemma trailing_window_len (pushed : list Detection) :
  Py.len (trailing_window pushed) = Z.min 5 (Py.len pushed).
Proof.
  unfold trailing_window, Py.len. rewrite length_skipn. length_lia.
Qed.

Lemma tl_skipn {A : Type} (n : nat) (l : list A) : tl (skipn n l) = skipn (S n) l.
Proof.
  revert l. induction n as [| n IH]; intros [| x l]; try reflexivity.
  simpl skipn at 1. rewrite IH. reflexivity.
Qed.

(** Appending a result and dropping the oldest entry beyond five keeps
    the history equal to the last five results pushed. *)
Lemma trailing_window_snoc (pushed : list Detection) (d : Detection) :
  trailing_window (pushed ++ [d]) =
  (let history := trailing_window pushed ++ [d] in
   if 5 <? Py.len history then tl history else history).
Proof.
  cbv zeta. unfold trailing_window, Py.len.
  rewrite !length_app, length_skipn. cbn [List.length].
  destruct (Nat.le_gt_cases (List.length pushed) 4) as [Hshort | Hlong].
  - replace (List.length pushed - 5)%nat with 0%nat by lia.
    replace (List.length pushed + 1 - 5)%nat with 0%nat by lia.
    simpl skipn.
    destruct (Z.ltb_spec 5 (Z.of_nat (List.length pushed - 0 + 1))); [lia | reflexivity].
  - destruct (Z.ltb_spec 5 (Z.of_nat (List.length pushed - (List.length pushed - 5) + 1))); [| lia].
    rewrite skipn_app.
    replace (List.length pushed + 1 - 5 - List.length pushed)%nat with 0%nat by lia.
    simpl (skipn 0 [d]).
    replace (List.length pushed + 1 - 5)%nat with (S (List.length pushed - 5)) by lia.
    rewrite <- tl_skipn.
    destruct (skipn (List.length pushed - 5) pushed) as [| x l] eqn:E; [| reflexivity].
    exfalso. apply (f_equal (@List.length _)) in E. rewrite length_skipn in E. simpl in E. lia.
Qed.

(** The description of the rule agrees with what the code returns on
    every history of at most five entries. *)
Lemma get_stable_spec (self : ASLLetterDetector) :
  stable_frames self = 5 ->
  Py.len (detection_history self) <= 5 ->
  _get_stable_detection self = Return (stable_of_window (detection_history self)).
Proof.
  intros Hsf Hlen. unfold stable_of_window.
  destruct (Z.ltb_spec (Py.len (detection_history self)) 5) as [Hshort | Hfull].
  - now apply get_stable_short.
  - assert (Hfive : Py.len (detection_history self) = 5) by lia.
    destruct (get_stable_full self Hsf Hfive) as (letter & Hin & Hmax & ->).
    f_equal. set (h := detection_history self) in *. unfold majority_letter.
    destruct (find (fun d => 3 <=? occurrences (fst d) h) h) as [d |] eqn:Ef; simpl.
    + apply find_some in Ef. destruct Ef as [Hd H3]. apply Z.leb_le in H3.
      specialize (Hmax (fst d)).
      assert (H3' : 3 <= occurrences letter h) by lia.
      rewrite (majority_unique _ _ h Hfive H3 H3').
      apply Z.leb_le in H3'. now rewrite H3'.
    + destruct (Z.leb_spec 3 (occurrences letter h)) as [H3 | Hlt]; [| reflexivity].
      exfalso. apply in_map_iff in Hin. destruct Hin as (d & Hfst & Hd).
      pose proof (find_none _ _ Ef d Hd) as Hn. cbv beta in Hn.
      rewrite Hfst in Hn. apply Z.leb_gt in Hn. lia.
Qed.

Lemma record_detection_spec (self : ASLLetterDetector) (pushed : list Detection)
      (d : Detection) :
  stable_frames self = 5 ->
  detection_history self = trailing_window pushed ->
  record_detection self d =
  Return (with_history self (trailing_window (pushed ++ [d])),
          stable_of_window (trailing_window (pushed ++ [d]))).
Proof.
  intros Hsf Hh. unfold record_detection.
  rewrite Hsf, Hh, <- trailing_window_snoc.
  rewrite get_stable_spec; [reflexivity | exact Hsf |].
  cbn [with_history detection_history]. rewrite trailing_window_len. lia.
Qed.

Lemma record_sequence_spec (detections : list Detection) :
  forall (self : ASLLetterDetector) (pushed : list Detection),
    stable_frames self = 5 ->
    detection_history self = trailing_window pushed ->
    record_sequence self detections =
    Return (with_history self (trailing_window (pushed ++ detections)),
            stable_outputs pushed detections).
Proof.
  induction detections as [| d ds IH]; intros self pushed Hsf Hh.
  - simpl. rewrite app_nil_r, <- Hh. destruct self; reflexivity.
  - cbn [record_sequence]. rewrite (record_detection_spec self pushed d Hsf Hh).
    cbn [Py.bind].
    rewrite (IH _ (pushed ++ [d])); [| exact Hsf | reflexivity].
    cbn [Py.bind]. unfold stable_outputs. cbn [List.length seq map].
    rewrite <- seq_shift, map_map. f_equal. f_equal.
    + unfold with_history; cbn. now rewrite <- app_assoc.
    + f_equal.
      apply map_ext. intros k. now rewrite (firstn_cons (S k)), <- app_assoc.
Qed.

End Window.

Section StabilityRule.

Lemma majority_letter_some (window : list Detection) (letter : string) :
  Py.len window = 5 -> 3 <= occurrences letter window ->
  majority_letter window = Some letter.
Proof.
  intros Hlen H3. unfold majority_letter.
  destruct (find (fun d => 3 <=? occurrences (fst d) window) window) as [d |] eqn:Ef; simpl.
  - apply find_some in Ef. destruct Ef as [_ Hd]. apply Z.leb_le in Hd.
    f_equal. exact (majority_unique _ _ window Hlen Hd H3).
  - exfalso.
    assert (Hin : In letter (map fst window)) by (apply occurrences_pos_In; lia).
    apply in_map_iff in Hin. destruct Hin as (d & Hfst & Hd).
    pose proof (find_none _ _ Ef d Hd) as Hn. cbv beta in Hn.
    rewrite Hfst in Hn. apply Z.leb_gt in Hn. lia.
Qed.

Lemma majority_letter_inv (window : list Detection) (letter : string) :
  majority_letter window = Some letter -> 3 <= occurrences letter window.
Proof.
  unfold majority_letter.
  destruct (find (fun d => 3 <=? occurrences (fst d) window) window) as [d |] eqn:Ef;
    simpl; [| discriminate].
  intros E; inversion E; subst. apply find_some in Ef. now apply Z.leb_le.
Qed.

Lemma stable_of_window_accept (window : list Detection) (letter : string) :
  Py.len window = 5 -> 3 <= occurrences letter window ->
  stable_of_window window = (Some letter, window_mean window).
Proof.
  intros Hlen H3. unfold stable_of_window. rewrite Hlen. simpl (5 <? 5).
  now rewrite (majority_letter_some window letter Hlen H3).
Qed.

Lemma stable_of_window_reject (window : list Detection) :
  (forall letter, occurrences letter window < 3) ->
  stable_of_window window = (None, 0%float).
Proof.
  intros Hall. unfold stable_of_window.
  destruct (Py.len window <? 5); [reflexivity |].
  destruct (majority_letter window) as [letter |] eqn:Em; [| reflexivity].
  apply majority_letter_inv in Em. specialize (Hall letter). lia.
Qed.

Lemma stable_of_window_letter (window : list Detection) (letter : string) :
  Py.len window <= 5 ->
  (fst (stable_of_window window) = Some letter
   <-> Py.len window = 5 /\ 3 <= occurrences letter window).
Proof.
  intros Hle. split.
  - unfold stable_of_window.
    destruct (Z.ltb_spec (Py.len window) 5) as [Hlt | Hge]; [discriminate |].
    destruct (majority_letter window) as [l |] eqn:Em; simpl; [| discriminate].
    intros E; inversion E; subst. split; [lia | now apply majority_letter_inv].
  - intros [Hlen H3]. now rewrite (stable_of_window_accept window letter Hlen H3).
Qed.

(** Four distinct letters share the entries of a window. *)
Lemma occurrences_four (a b c d : string) (h : list Detection) :
  a <> b -> a <> c -> a <> d -> b <> c -> b <> d -> c <> d ->
  occurrences a h + occurrences b h + occurrences c h + occurrences d h <= Py.len h.
Proof.
  intros Hab Hac Had Hbc Hbd Hcd. induction h as [| x h IH].
  - unfold Py.len; simpl; rewrite !occurrences_nil; lia.
  - rewrite !occurrences_cons.
    unfold Py.len in *. cbn [List.length]. rewrite Nat2Z.inj_succ.
    destruct (String.eqb (fst x) a) eqn:Ea, (String.eqb (fst x) b) eqn:Eb,
             (String.eqb (fst x) c) eqn:Ec, (String.eqb (fst x) d) eqn:Ed;
      try length_lia;
      repeat match goal with
             | H : String.eqb _ _ = true |- _ => apply String.eqb_eq in H
             end; congruence.
Qed.

End StabilityRule.

(** C1.  Push semantics of the stability filter.  Whatever per-frame
    results are pushed into a fresh detector, every push returns, and the
    value returned by the last push is determined by the trailing window
    of the last five results: it is [(None, 0.0)] while fewer than five
    results have been pushed; once the window is full, a letter is
    returned exactly when it occurs at least 3 times among the 5 entries,
    and then the returned confidence is the mean of all five confidences
    of the window (their sum accumulated from [0.0] in window order,
    divided by 5); when no letter reaches 3 occurrences the value is
    [(None, 0.0)].  In particular a full window with 3 entries of [X] and
    2 of [Y] yields [X], and one with 2 of [X], 2 of [Y] and 1 of [Z]
    yields [None]. *)
Theorem C1_stable_detection_semantics :
  forall (pushed : list Detection) (detection : Detection),
    let results := pushed ++ [detection] in
    let window := trailing_window results in
    exists self' earlier stable,
      record_sequence ASLLetterDetector_init results = Return (self', earlier ++ [stable])
      /\ detection_history self' = window
      /\ stable = stable_of_window window
      /\ (Py.len results < 5 -> stable = (None, 0%float))
      /\ (forall letter,
            fst stable = Some letter
            <-> 5 <= Py.len results /\ 3 <= occurrences letter window)
      /\ (forall letter,
            5 <= Py.len results -> 3 <= occurrences letter window ->
            stable = (Some letter, window_mean window))
      /\ ((forall letter, occurrences letter window < 3) -> stable = (None, 0%float))
      /\ (forall d1 d2 d3 d4 d5,
            window = [d1; d2; d3; d4; d5] ->
            window_mean window
            = ((0 + snd d1 + snd d2 + snd d3 + snd d4 + snd d5) / 5)%float)
      /\ (forall X Y,
            X <> Y -> 5 <= Py.len results ->
            occurrences X window = 3 -> occurrences Y window = 2 ->
            fst stable = Some X)
      /\ (forall X Y Z,
            X <> Y -> X <> Z -> Y <> Z -> 5 <= Py.len results ->
            occurrences X window = 2 -> occurrences Y window = 2 ->
            occurrences Z window = 1 ->
            stable = (None, 0%float)).
Proof.
  intros pushed detection results window.
  pose proof (record_sequence_spec results ASLLetterDetector_init [] eq_refl eq_refl) as Hrun.
  assert (Hwl : Py.len window = Z.min 5 (Py.len results)) by apply trailing_window_len.
  assert (Hout : stable_outputs [] results =
                 stable_outputs [] pushed ++ [stable_of_window window]).
  { unfold stable_outputs, results. rewrite length_app. cbn [List.length].
    rewrite Nat.add_1_r, seq_S, map_app. cbn [map Nat.add app]. f_equal.
    - apply map_ext_in. intros k Hk. apply in_seq in Hk.
      rewrite firstn_app. replace (S k - List.length pushed)%nat with 0%nat by lia.
      now rewrite firstn_O, app_nil_r.
    - unfold window, results. now rewrite firstn_all2 by (rewrite length_app; simpl; lia). }
  exists (with_history ASLLetterDetector_init window), (stable_outputs [] pushed),
    (stable_of_window window).
  split; [now rewrite Hrun, Hout |].
  split; [reflexivity |]. split; [reflexivity |].
  split.
  { intros Hlt. unfold stable_of_window.
    destruct (Z.ltb_spec (Py.len window) 5); [reflexivity | lia]. }
  split.
  { intros letter. rewrite stable_of_window_letter by lia. intuition lia. }
  split.
  { intros letter H5 H3. apply stable_of_window_accept; [lia | exact H3]. }
  split; [apply stable_of_window_reject |].
  split.
  { intros d1 d2 d3 d4 d5 ->. reflexivity. }
  split.
  { intros X Y Hne H5 HX HY.
    rewrite (stable_of_window_accept window X); [reflexivity | lia | lia]. }
  intros X Y Z Hxy Hxz Hyz H5 HX HY HZ.
  apply stable_of_window_reject. intros letter.
  destruct (string_dec letter X) as [-> | Hx]; [lia |].
  destruct (string_dec letter Y) as [-> | Hy]; [lia |].
  destruct (string_dec letter Z) as [-> | Hz]; [lia |].
  assert (Hfour := occurrences_four X Y Z letter window).
  specialize (Hfour Hxy Hxz (not_eq_sym Hx) Hyz (not_eq_sym Hy) (not_eq_sym Hz)). lia.
Qed.

Example frames_evaluate :
  detect_fingers (cv := SceneCV) FingerDetector_init open_hand_frame
  = Return (true, Some [(0.3125, 0.41666666666666669, 0); (0.40625, 0.3125, 0);
                        (0.5, 0.27083333333333331, 0); (0.59375, 0.3125, 0);
                        (0.6875, 0.41666666666666669, 0)]%float)
  /\ detect_fingers (cv := SceneCV) FingerDetector_init fist_frame = Return (false, None)
  /\ detect_fingers (cv := SceneCV) FingerDetector_init two_finger_frame = Return (false, None)
  /\ detect_fingers (cv := SceneCV) FingerDetector_init speck_frame = Return (false, None)
  /\ detect_fingers (cv := SceneCV) FingerDetector_init empty_frame = Return (false, None)
  /\ frame_detection (cv := SceneCV) ASLLetterDetector_init open_hand_frame
     = Return ("B", 0.8%float)
  /\ finger_tips_of (cv := SceneCV) FingerDetector_init fist_frame = Return [].
Proof. vm_compute. repeat split; reflexivity. Qed.

(* ================================================================== *)
(** * Properties: binary64 comparisons *)
(* ================================================================== *)

Section FloatOrder.

(** Swapping the arguments of the comparison of two binary64 values
    reverses its result. *)
Lemma SFcompare_swap (a b : spec_float) :
  SFcompare b a = option_map CompOpp (SFcompare a b).
Proof.
  destruct a as [sa | sa | | sa ma ea], b as [sb | sb | | sb mb eb]; simpl;
    try reflexivity;
    try (destruct sa; reflexivity);
    try (destruct sb; reflexivity);
    try (destruct sa, sb; reflexivity).
  destruct sa, sb; try reflexivity; simpl;
    rewrite (Z.compare_antisym ea eb);
    destruct (ea ?= eb) eqn:E; simpl; try reflexivity;
    change (Pos.compare_cont Eq mb ma) with (Pos.compare mb ma);
    change (Pos.compare_cont Eq ma mb) with (Pos.compare ma mb);
    rewrite (Pos.compare_antisym ma mb); try reflexivity;
    destruct (ma ?= mb)%positive; reflexivity.
Qed.

(** [x < y] excludes [y < x]. *)
Lemma ltb_asym (x y : float) : (x <? y)%float = true -> (y <? x)%float = false.
Proof.
  rewrite !FloatAxioms.ltb_spec. unfold SFltb.
  rewrite (SFcompare_swap (Prim2SF x) (Prim2SF y)).
  destruct (SFcompare (Prim2SF x) (Prim2SF y)) as [[| |] |]; simpl; congruence.
Qed.

(** [x <= y] excludes [y < x]. *)
Lemma leb_not_ltb (x y : float) : (x <=? y)%float = true -> (y <? x)%float = false.
Proof.
  rewrite FloatAxioms.ltb_spec, FloatAxioms.leb_spec. unfold SFltb, SFleb.
  rewrite (SFcompare_swap (Prim2SF x) (Prim2SF y)).
  destruct (SFcompare (Prim2SF x) (Prim2SF y)) as [[| |] |]; simpl; congruence.
Qed.

(** Two comparable values (neither is a NaN) are ordered one way or the
    other. *)
Lemma not_ltb_leb (x y : float) :
  (x <=? x)%float = true -> (y <=? y)%float = true ->
  (y <? x)%float = false -> (x <=? y)%float = true.
Proof.
  rewrite FloatAxioms.ltb_spec, !FloatAxioms.leb_spec. unfold SFltb, SFleb.
  rewrite (SFcompare_swap (Prim2SF x) (Prim2SF y)).
  destruct (Prim2SF x) as [sa | sa | | sa ma ea], (Prim2SF y) as [sb | sb | | sb mb eb];
    simpl; try congruence;
    match goal with
    | |- context [match ?c with _ => _ end] => destruct c; simpl; congruence
    | _ => idtac
    end.
Qed.

Lemma SFleb_trans (a b c : spec_float) :
  SFleb a b = true -> SFleb b c = true -> SFleb a c = true.
Proof.
  unfold SFleb, SFcompare.
  destruct a as [sa | sa | | sa ma ea], b as [sb | sb | | sb mb eb],
           c as [sc | sc | | sc mc ec];
    try discriminate; try reflexivity;
    try (destruct sa; try discriminate; try reflexivity; destruct sb; try discriminate; try reflexivity; destruct sc; discriminate || reflexivity);
    try (destruct sa, sb; try discriminate; try reflexivity; fail);
    try (destruct sa, sc; try discriminate; try reflexivity; fail);
    try (destruct sb, sc; try discriminate; try reflexivity; fail);
    try (destruct sa, sb, sc; try discriminate; try reflexivity; fail).
  all: destruct sa, sb, sc; try discriminate; try reflexivity;
    change (PosDef.Pos.compare_cont Eq) with Pos.compare;
    destruct (Z.compare_spec ea eb), (Z.compare_spec eb ec), (Z.compare_spec ea ec);
    try lia; try discriminate; try reflexivity; subst;
    destruct (Pos.compare_spec ma mb), (Pos.compare_spec mb mc), (Pos.compare_spec ma mc);
    try lia; try discriminate; try reflexivity; simpl; intros; try discriminate; try congruence.
Qed.

(** The binary64 order is transitive. *)
Lemma leb_trans (x y z : float) :
  (x <=? y)%float = true -> (y <=? z)%float = true -> (x <=? z)%float = true.
Proof. rewrite !FloatAxioms.leb_spec. apply SFleb_trans. Qed.

End FloatOrder.

(* ================================================================== *)
(** * Properties: binary64 quotients of pixel coordinates *)
(* ================================================================== *)

Section BinaryQuotient.

Lemma digits2_size (p : positive) : digits2_pos p = Pos.size p.
Proof. induction p; simpl; congruence. Qed.

Lemma digits2_log2 (p : positive) : Zpos (digits2_pos p) = Z.log2 (Zpos p) + 1.
Proof.
  rewrite digits2_size. destruct p; cbn [Pos.size Z.log2]; lia.
Qed.

Lemma digits2_unique (p : positive) (d : Z) :
  0 < d -> 2 ^ (d - 1) <= Zpos p < 2 ^ d -> Zpos (digits2_pos p) = d.
Proof.
  intros Hd H. rewrite digits2_log2.
  rewrite (Z.log2_unique (Zpos p) (d - 1)); [lia | lia |].
  now replace (Z.succ (d - 1)) with d by lia.
Qed.

Lemma fexp_normal (e : Z) : -1021 <= e -> fexp prec emax e = e - 53.
Proof. unfold fexp, SpecFloat.emin, prec, emax. lia. Qed.

Lemma shr_m_of_loc (m : Z) (l : location) : shr_m (shr_record_of_loc m l) = m.
Proof. destruct l as [| []]; reflexivity. Qed.

Lemma shr_m_shr_1 (mrs : shr_record) :
  0 <= shr_m mrs -> shr_m (shr_1 mrs) = shr_m mrs / 2.
Proof.
  destruct mrs as [m r s]. cbn [shr_m]. intros Hm.
  destruct m as [| [p | p |] | p]; try lia; cbn [shr_1 shr_m].
  - reflexivity.
  - apply Z.div_unique with 1; lia.
  - apply Z.div_unique with 0; lia.
  - reflexivity.
Qed.

(* shr_fexp on a 53-digit mantissa does not shift *)
Lemma shr_fexp_53 (p : positive) (e : Z) (l : location) :
  4503599627370496 <= Zpos p < 9007199254740992 -> -1074 <= e ->
  shr_fexp prec emax (Zpos p) e l = (shr_record_of_loc (Zpos p) l, e).
Proof.
  intros Hp He. unfold shr_fexp. cbn [Zdigits2].
  rewrite (digits2_unique p 53) by (change (2 ^ (53 - 1)) with 4503599627370496; change (2 ^ 53) with 9007199254740992; lia).
  rewrite fexp_normal by lia.
  replace (53 + e - 53 - e) with 0 by lia. reflexivity.
Qed.

Lemma shr_fexp_54 (p : positive) (e : Z) (l : location) :
  9007199254740992 <= Zpos p < 18014398509481984 -> -1075 <= e ->
  shr_fexp prec emax (Zpos p) e l = (shr_1 (shr_record_of_loc (Zpos p) l), e + 1).
Proof.
  intros Hp He. unfold shr_fexp. cbn [Zdigits2].
  rewrite (digits2_unique p 54) by (change (2 ^ (54 - 1)) with 9007199254740992; change (2 ^ 54) with 18014398509481984; lia).
  rewrite fexp_normal by lia.
  replace (54 + e - 53 - e) with 1 by lia. reflexivity.
Qed.

Lemma round_nearest_even_cases (m : Z) (l : location) :
  round_nearest_even m l = m \/ round_nearest_even m l = m + 1.
Proof. destruct l as [| []]; simpl; auto. destruct (Z.even m); auto. Qed.

Lemma binary_round_aux_eq (sx : bool) (mx ex : Z) (lx : location) :
  binary_round_aux prec emax sx mx ex lx =
  round_finish sx (shr_fexp prec emax
               (round_nearest_even (shr_m (fst (shr_fexp prec emax mx ex lx)))
                                   (loc_of_shr_record (fst (shr_fexp prec emax mx ex lx))))
               (snd (shr_fexp prec emax mx ex lx)) loc_Exact).
Proof.
  unfold binary_round_aux, round_finish.
  destruct (shr_fexp prec emax mx ex lx) as [mrs' e']. cbn [fst snd].
  destruct (shr_fexp prec emax _ e' loc_Exact) as [mrs'' e'']. reflexivity.
Qed.

Lemma second_stage (m1 e1 : Z) :
  4503599627370496 <= m1 <= 9007199254740992 -> -1074 <= e1 <= 970 ->
  exists m e,
    round_finish false (shr_fexp prec emax m1 e1 loc_Exact) = S754_finite false m e
    /\ ((e = e1 /\ Zpos m = m1 /\ m1 < 9007199254740992)
        \/ (e = e1 + 1 /\ Zpos m = 4503599627370496 /\ m1 = 9007199254740992)).
Proof.
  intros Hm He. destruct m1 as [| p |]; try lia.
  destruct (Z.eq_dec (Zpos p) 9007199254740992) as [E | N].
  - rewrite shr_fexp_54 by lia. inversion E; subst p.
    exists 4503599627370496%positive, (e1 + 1). split.
    + unfold round_finish. cbn [shr_record_of_loc shr_1 shr_m orb].
      destruct (Z.leb_spec (e1 + 1) (emax - prec)) as [_ | H]; [reflexivity |].
      unfold emax, prec in H. lia.
    + right. repeat split; reflexivity.
  - rewrite shr_fexp_53 by lia.
    exists p, e1. split.
    + unfold round_finish. cbn [shr_record_of_loc shr_m].
      destruct (Z.leb_spec e1 (emax - prec)) as [_ | H]; [reflexivity |].
      unfold emax, prec in H. lia.
    + left. repeat split; lia.
Qed.

Lemma round_aux_normal (q e : Z) (l : location) :
  4503599627370496 <= q < 18014398509481984 -> -1074 <= e <= 900 ->
  exists m e',
    binary_round_aux prec emax false q e l = S754_finite false m e'
    /\ 4503599627370496 <= Zpos m < 9007199254740992
    /\ ((e' = (if q <? 9007199254740992 then e else e + 1))
        \/ (e' = (if q <? 9007199254740992 then e else e + 1) + 1
            /\ Zpos m = 4503599627370496)).
Proof.
  intros Hq He. rewrite binary_round_aux_eq. destruct q as [| p |]; try lia.
  destruct (Z.ltb_spec (Zpos p) 9007199254740992) as [H53 | H54].
  - rewrite shr_fexp_53 by lia. cbn [fst snd]. rewrite shr_m_of_loc.
    destruct (round_nearest_even_cases (Zpos p) (loc_of_shr_record (shr_record_of_loc (Zpos p) l)))
      as [-> | ->].
    + destruct (second_stage (Zpos p) e) as (m & e' & -> & [(-> & Hm & Hlt) | (-> & Hm & Hx)]);
        try lia; exists m; eexists; (split; [reflexivity |]); split; try lia; auto.
    + destruct (second_stage (Zpos p + 1) e) as (m & e' & -> & [(-> & Hm & Hlt) | (-> & Hm & Hx)]);
        try lia; exists m; eexists; (split; [reflexivity |]); split; try lia; auto.
  - rewrite shr_fexp_54 by lia. cbn [fst snd].
    assert (Hh : shr_m (shr_1 (shr_record_of_loc (Zpos p) l)) = Zpos p / 2).
    { rewrite shr_m_shr_1; rewrite shr_m_of_loc; [reflexivity | lia]. }
    assert (Hb : 4503599627370496 <= Zpos p / 2 < 9007199254740992).
    { split; [apply Z.div_le_lower_bound; lia | apply Z.div_lt_upper_bound; lia]. }
    rewrite Hh.
    destruct (round_nearest_even_cases (Zpos p / 2) (loc_of_shr_record (shr_1 (shr_record_of_loc (Zpos p) l))))
      as [-> | ->].
    + destruct (second_stage (Zpos p / 2) (e + 1)) as (m & e' & -> & [(-> & Hm & Hlt) | (-> & Hm & Hx)]);
        try lia; exists m; eexists; (split; [reflexivity |]); split; try lia; auto.
    + destruct (second_stage (Zpos p / 2 + 1) (e + 1)) as (m & e' & -> & [(-> & Hm & Hlt) | (-> & Hm & Hx)]);
        try lia; exists m; eexists; (split; [reflexivity |]); split; try lia; auto.
Qed.

Lemma round_aux_exact (m : positive) (e : Z) :
  4503599627370496 <= Zpos m < 9007199254740992 -> -1074 <= e <= 970 ->
  binary_round_aux prec emax false (Zpos m) e loc_Exact = S754_finite false m e.
Proof.
  intros Hm He. rewrite binary_round_aux_eq, shr_fexp_53 by lia.
  cbn [fst snd shr_record_of_loc shr_m loc_of_shr_record round_nearest_even].
  rewrite shr_fexp_53 by lia. unfold round_finish. cbn [shr_record_of_loc shr_m].
  destruct (Z.leb_spec e (emax - prec)) as [_ | H]; [reflexivity |].
  unfold emax, prec in H. lia.
Qed.

(** The normal form of a positive integer below 2^53. *)
Lemma binary_normalize_pos (p : positive) :
  Zpos p < 9007199254740992 ->
  let d := Zpos (digits2_pos p) in
  exists m,
    binary_normalize prec emax (Zpos p) 0 false = S754_finite false m (d - 53)
    /\ Zpos m = Zpos p * 2 ^ (53 - d)
    /\ 4503599627370496 <= Zpos m < 9007199254740992
    /\ 1 <= d <= 53.
Proof.
  intros Hp d.
  assert (Hd : 1 <= d <= 53).
  { unfold d. rewrite digits2_log2.
    pose proof (Z.log2_nonneg (Zpos p)).
    assert (Z.log2 (Zpos p) < 53) by (apply Z.log2_lt_pow2; [lia | exact Hp]). lia. }
  assert (Hlog : Z.log2 (Zpos p) = d - 1) by (unfold d; rewrite digits2_log2; lia).
  assert (Hspec := Z.log2_spec (Zpos p) ltac:(lia)). rewrite Hlog in Hspec.
  replace (Z.succ (d - 1)) with d in Hspec by lia.
  assert (Hbound : 4503599627370496 <= Zpos p * 2 ^ (53 - d) < 9007199254740992).
  { assert (E52 : 4503599627370496 = 2 ^ (d - 1) * 2 ^ (53 - d)).
    { rewrite <- Z.pow_add_r by lia. now replace (d - 1 + (53 - d)) with 52 by lia. }
    assert (E53 : 9007199254740992 = 2 ^ d * 2 ^ (53 - d)).
    { rewrite <- Z.pow_add_r by lia. now replace (d + (53 - d)) with 53 by lia. }
    assert (0 < 2 ^ (53 - d)) by (apply Z.pow_pos_nonneg; lia).
    rewrite E52, E53.
    split; [apply Z.mul_le_mono_nonneg_r; lia | apply Z.mul_lt_mono_pos_r; lia]. }
  cbn [binary_normalize]. unfold binary_round.
  fold d. rewrite fexp_normal by lia.
  unfold shl_align. replace (d + 0 - 53 - 0) with (d - 53) by lia.
  destruct (d - 53) as [| k | k] eqn:Ek; try lia.
  - exists p. replace (53 - d) with 0 in * by lia. rewrite Z.mul_1_r in *.
    split; [| split; [lia | split; [exact Hbound | exact Hd]]].
    replace (d + 0 - 53) with 0 by lia.
    apply round_aux_exact; lia.
  - exists (Pos.iter xO p k).
    assert (Hk : Zpos (Pos.iter xO p k) = Zpos p * 2 ^ (53 - d)).
    { change (Pos.iter xO p k) with (shift_pos k p). rewrite shift_pos_correct.
      replace (53 - d) with (Zpos k) by lia. rewrite Z.mul_comm. reflexivity. }
    split; [| split; [exact Hk | split; [now rewrite Hk | exact Hd]]].
    replace (d + 0 - 53) with (Zneg k) by lia.
    apply round_aux_exact; lia.
Qed.

Lemma digits2_mono (p q : positive) :
  Zpos p <= Zpos q -> Zpos (digits2_pos p) <= Zpos (digits2_pos q).
Proof.
  intros H. rewrite !digits2_log2. pose proof (Z.log2_le_mono _ _ H). lia.
Qed.

Lemma SFleb_one (m : positive) (e : Z) :
  e < -52 \/ (e = -52 /\ Zpos m = 4503599627370496) ->
  SFleb (S754_finite false m e) (S754_finite false 4503599627370496 (-52)) = true.
Proof.
  intros [Hlt | [-> Hm]]; unfold SFleb, SFcompare.
  - now rewrite (proj2 (Z.compare_lt_iff e (-52)) Hlt).
  - inversion Hm; subst. reflexivity.
Qed.

(** The quotient of two positive integers [x <= w < 2^53], as binary64
    values, is at most one. *)
Lemma SFdiv_le_one (x w : positive) :
  Zpos x <= Zpos w -> Zpos w < 9007199254740992 ->
  exists m e,
    SFdiv prec emax (binary_normalize prec emax (Zpos x) 0 false)
                    (binary_normalize prec emax (Zpos w) 0 false)
    = S754_finite false m e
    /\ (e < -52 \/ (e = -52 /\ Zpos m = 4503599627370496)).
Proof.
  intros Hxw Hw.
  destruct (binary_normalize_pos x ltac:(lia)) as (ma & -> & Hma & Hba & Hdx).
  destruct (binary_normalize_pos w Hw) as (mb & -> & Hmb & Hbb & Hdw).
  pose proof (digits2_mono x w Hxw) as Hmono.
  set (dx := Zpos (digits2_pos x)) in *. set (dw := Zpos (digits2_pos w)) in *.
  cbn [SFdiv xorb]. unfold SFdiv_core_binary. cbn [Zdigits2].
  rewrite (digits2_unique ma 53), (digits2_unique mb 53)
    by (change (2 ^ (53 - 1)) with 4503599627370496;
        change (2 ^ 53) with 9007199254740992; lia).
  rewrite fexp_normal by lia.
  rewrite Z.min_l by lia.
  replace (dx - 53 - (dw - 53) - (53 + (dx - 53) - (53 + (dw - 53)) - 53)) with 53 by lia.
  rewrite Z.shiftl_mul_pow2 by lia. change (2 ^ 53) with 9007199254740992.
  set (a := Zpos ma * 9007199254740992).
  set (e' := 53 + (dx - 53) - (53 + (dw - 53)) - 53).
  assert (Hdiv : Z.div_eucl a (Zpos mb) = (a / Zpos mb, a mod Zpos mb)).
  { unfold Z.div, Z.modulo. now destruct (Z.div_eucl a (Zpos mb)). }
  rewrite Hdiv.
  assert (Hq : 4503599627370496 <= a / Zpos mb < 18014398509481984).
  { unfold a. split; [apply Z.div_le_lower_bound; lia | apply Z.div_lt_upper_bound; lia]. }
  destruct (Z.eq_dec dx dw) as [Ed | Nd].
  - assert (Hle : Zpos ma <= Zpos mb).
    { rewrite Hma, Hmb, Ed. apply Z.mul_le_mono_nonneg_r; [| exact Hxw].
      apply Z.pow_nonneg. lia. }
    unfold e'. replace (53 + (dx - 53) - (53 + (dw - 53)) - 53) with (-53) by lia.
    destruct (Z.eq_dec (Zpos ma) (Zpos mb)) as [Eab | Nab].
    + (* equal operands: the quotient is exactly one *)
      unfold a. rewrite Eab, Z.mul_comm, Z.div_mul, Z.mod_mul by lia.
      assert (Hloc : new_location (Zpos mb) 0 = loc_Exact).
      { unfold new_location, new_location_even, new_location_odd.
        destruct (Z.even (Zpos mb)); reflexivity. }
      rewrite Hloc. exists 4503599627370496%positive, (-52).
      split; [vm_compute; reflexivity | right; split; reflexivity].
    + (* same exponent, smaller mantissa *)
      assert (Hq53 : a / Zpos mb < 9007199254740992).
      { unfold a. apply Z.div_lt_upper_bound; lia. }
      destruct (round_aux_normal (a / Zpos mb) (-53) (new_location (Zpos mb) (a mod Zpos mb))
                  Hq ltac:(lia)) as (m & e'' & -> & Hm & He).
      exists m, e''. split; [reflexivity |].
      destruct (Z.ltb_spec (a / Zpos mb) 9007199254740992) as [_ | ?]; [| lia].
      destruct He as [-> | [-> Hm2]]; [left; lia | right; split; [lia | exact Hm2]].
  - (* smaller exponent *)
    destruct (round_aux_normal (a / Zpos mb) e' (new_location (Zpos mb) (a mod Zpos mb)) Hq
                ltac:(unfold e'; lia)) as (m & e'' & -> & Hm & He).
    exists m, e''. split; [reflexivity |].
    unfold e' in He.
    destruct (a / Zpos mb <? 9007199254740992);
      destruct He as [-> | [-> Hm2]]; try (left; lia);
      destruct (Z.eq_dec (dw - dx) 1); try (left; lia); right; split; try lia; exact Hm2.
Qed.

Lemma Prim2SF_Z2F_pos (p : positive) :
  Zpos p < 9007199254740992 ->
  Prim2SF (Z2F (Zpos p)) = binary_normalize prec emax (Zpos p) 0 false.
Proof.
  intros Hp. cbn [Z2F]. rewrite of_uint63_spec, Uint63.of_Z_spec.
  rewrite Z.mod_small; [reflexivity |].
  change Uint63.wB with 9223372036854775808. lia.
Qed.

(** A pixel coordinate divided by a frame side that bounds it lies in
    [0, 1], in binary64. *)
Lemma unit_quotient (x w : Z) :
  0 <= x <= w -> 0 < w < 9007199254740992 ->
  within 0 1 (Z2F x / Z2F w) = true.
Proof.
  intros Hx Hw. unfold within.
  rewrite !FloatAxioms.leb_spec, div_spec.
  change (Prim2SF 0) with (S754_zero false).
  change (Prim2SF 1) with (S754_finite false 4503599627370496 (-52)).
  destruct w as [| pw |]; try lia.
  rewrite (Prim2SF_Z2F_pos pw) by lia.
  destruct x as [| px |]; try lia.
  - change (Prim2SF (Z2F 0)) with (S754_zero false).
    destruct (binary_normalize_pos pw ltac:(lia)) as (mb & -> & _). reflexivity.
  - rewrite (Prim2SF_Z2F_pos px) by lia.
    destruct (SFdiv_le_one px pw ltac:(lia) ltac:(lia)) as (m & e & Hdiv & He).
    unfold SF64div. rewrite Hdiv, (SFleb_one m e He). reflexivity.
Qed.

(** A value compared with anything is comparable with itself. *)
Lemma leb_refl_of_leb (x y : float) : (x <=? y)%float = true -> (y <=? y)%float = true.
Proof.
  rewrite !FloatAxioms.leb_spec. unfold SFleb.
  destruct (Prim2SF y) as [sb | sb | | sb mb eb].
  - intros _. reflexivity.
  - intros _. destruct sb; reflexivity.
  - destruct (Prim2SF x); simpl; congruence.
  - intros _. simpl. destruct sb; rewrite Z.compare_refl, Pos.compare_cont_refl; reflexivity.
Qed.

Lemma within_comparable (lo hi x : float) : within lo hi x = true -> (x <=? x)%float = true.
Proof.
  unfold within. intros H. apply andb_prop in H. destruct H as [H _].
  exact (leb_refl_of_leb lo x H).
Qed.

End BinaryQuotient.

(* ================================================================== *)
(** * Properties: the classification rules *)
(* ================================================================== *)

Section Classification.

(** The seven outcomes of [_classify_by_finger_count]. *)
Lemma classify_cases (finger_count : Z) (finger_points : list Point) :
  In (_classify_by_finger_count finger_count finger_points)
     [("E", 0.8); ("A", 0.5); ("A", 0.7); ("D", 0.7); ("C", 0.6); ("C", 0.7);
      ("B", 0.8); ("Unknown", 0)]%float.
Proof.
  unfold _classify_by_finger_count, _distinguish_a_or_d.
  repeat match goal with
         | |- context [if ?b then _ else _] => destruct b
         | |- context [match ?l with [] => _ | _ :: _ => _ end] => destruct l
         end; simpl; tauto.
Qed.

(** The outcomes of [describe_letter], without their descriptions. *)
Lemma describe_cases (fingers_detected : bool) (finger_points : option (list Point))
      (r : Described) :
  describe_letter fingers_detected finger_points = Return r ->
  In (fst r) [("E", 0.8); ("A", 0.7); ("D", 0.7); ("C", 0.6); ("C", 0.7);
              ("B", 0.8); ("Unknown", 0)]%float.
Proof.
  unfold describe_letter.
  repeat match goal with
         | |- context [if ?b then _ else _] => destruct b
         | |- context [match ?l with [] => _ | _ :: _ => _ end] => destruct l
         | |- context [match ?o with Some _ => _ | None => _ end] => destruct o
         end; intros E; inversion E; subst; simpl; tauto.
Qed.

End Classification.

(** C6.  Confidence cap.  For every finger count and every tip list the
    confidence produced by [_classify_by_finger_count] lies in [0, 1] and
    is at most 0.85; the same holds for every result of the rules of
    [SimpleASLDetector.detect_letter] and for the confidence 0.7 that
    [detect_asl_letter] gives to a frame without detected fingers. *)
Theorem C6_confidence_cap :
  (forall (finger_count : Z) (finger_points : list Point),
      let confidence := snd (_classify_by_finger_count finger_count finger_points) in
      (confidence <=? 0.85)%float = true /\ within 0 1 confidence = true)
  /\ (forall fingers_detected finger_points letter confidence description,
         describe_letter fingers_detected finger_points
         = Return (letter, confidence, description) ->
         (confidence <=? 0.85)%float = true /\ within 0 1 confidence = true)
  /\ ((0.7 <=? 0.85)%float = true /\ within 0 1 0.7 = true).
Proof.
  split; [| split].
  - intros finger_count finger_points confidence. subst confidence.
    pose proof (classify_cases finger_count finger_points) as H. simpl in H.
    repeat (destruct H as [<- | H]; [vm_compute; split; reflexivity |]). contradiction.
  - intros fingers_detected finger_points letter confidence description E.
    pose proof (describe_cases _ _ _ E) as H. cbn [fst In] in H.
    repeat (destruct H as [H | H];
            [inversion H; subst; vm_compute; split; reflexivity |]). contradiction.
  - vm_compute. split; reflexivity.
Qed.

(** C3.  A/D disambiguation.  With a finger count of exactly 1 and a tip
    whose relative x-coordinate is [x]: [x < 0.4] gives A with
    confidence 0.7, [x >= 0.4] gives D with confidence 0.7, and [x = 0.4]
    itself gives D.  The rule of [SimpleASLDetector.detect_letter] for a
    one-tip list is the same. *)
Theorem C3_a_or_d_boundary :
  forall (point : Point) (rest : list Point),
    let x := px point in
    ((x <? 0.4)%float = true ->
       _classify_by_finger_count 1 (point :: rest) = ("A", 0.7%float)
       /\ describe_letter true (Some [point]) = Return ("A", 0.7%float, "Thumb out"))
    /\ ((0.4 <=? x)%float = true ->
       _classify_by_finger_count 1 (point :: rest) = ("D", 0.7%float)
       /\ describe_letter true (Some [point]) = Return ("D", 0.7%float, "Index finger up"))
    /\ (x = 0.4%float ->
       _classify_by_finger_count 1 (point :: rest) = ("D", 0.7%float)
       /\ describe_letter true (Some [point]) = Return ("D", 0.7%float, "Index finger up"))
    /\ (x = 0.1%float -> _classify_by_finger_count 1 (point :: rest) = ("A", 0.7%float))
    /\ (x = 0.9%float -> _classify_by_finger_count 1 (point :: rest) = ("D", 0.7%float)).
Proof.
  intros point rest x.
  assert (HA : (x <? 0.4)%float = true ->
               _classify_by_finger_count 1 (point :: rest) = ("A", 0.7%float)
               /\ describe_letter true (Some [point]) = Return ("A", 0.7%float, "Thumb out")).
  { intros Hlt. unfold _classify_by_finger_count, _distinguish_a_or_d, describe_letter.
    cbn -[PrimFloat.ltb]. fold x. rewrite Hlt. split; reflexivity. }
  assert (HD : (x <? 0.4)%float = false ->
               _classify_by_finger_count 1 (point :: rest) = ("D", 0.7%float)
               /\ describe_letter true (Some [point])
                  = Return ("D", 0.7%float, "Index finger up")).
  { intros Hge. unfold _classify_by_finger_count, _distinguish_a_or_d, describe_letter.
    cbn -[PrimFloat.ltb]. fold x. rewrite Hge. split; reflexivity. }
  split; [exact HA |].
  split; [intros Hge; apply HD; now apply leb_not_ltb |].
  split; [intros Hx; apply HD; rewrite Hx; reflexivity |].
  split; [intros Hx; apply HA; rewrite Hx; reflexivity |].
  intros Hx; apply HD; rewrite Hx; reflexivity.
Qed.

(* ================================================================== *)
(** * Properties: sorting by a binary64 key *)
(* ================================================================== *)

Section Sorting.

Context {A : Type} (key : A -> float).

Lemma insert_by_perm (x : A) (l : list A) : Permutation (Py.insert_by key x l) (x :: l).
Proof.
  induction l as [| y l IH]; simpl.
  - apply Permutation_refl.
  - destruct (key x <? key y)%float.
    + apply Permutation_refl.
    + eapply perm_trans; [apply perm_skip, IH | apply perm_swap].
Qed.

Lemma sort_from_perm (l acc : list A) :
  Permutation (fold_left (fun sorted x => Py.insert_by key x sorted) l acc) (l ++ acc).
Proof.
  revert acc. induction l as [| x l IH]; intros acc; simpl.
  - apply Permutation_refl.
  - eapply perm_trans; [apply IH |].
    eapply perm_trans; [apply Permutation_app_head, insert_by_perm |].
    apply Permutation_sym, Permutation_middle.
Qed.

(** The sort rearranges the list. *)
Lemma sort_by_perm (l : list A) : Permutation (Py.sort_by key l) l.
Proof.
  unfold Py.sort_by. eapply perm_trans; [apply sort_from_perm |]. now rewrite app_nil_r.
Qed.

Lemma insert_by_HdRel (a x : A) (l : list A) :
  no_descent key a x -> HdRel (no_descent key) a l ->
  HdRel (no_descent key) a (Py.insert_by key x l).
Proof.
  intros Hax Hal. destruct l as [| y l]; simpl.
  - constructor; exact Hax.
  - destruct (key x <? key y)%float; constructor; [exact Hax |].
    now inversion Hal.
Qed.

Lemma insert_by_sorted (x : A) (l : list A) :
  Sorted (no_descent key) l -> Sorted (no_descent key) (Py.insert_by key x l).
Proof.
  induction l as [| y l IH]; intros Hs; simpl.
  - repeat constructor.
  - inversion Hs as [| ? ? Hl Hhd]; subst.
    destruct (key x <? key y)%float eqn:E.
    + constructor; [exact Hs |]. constructor. unfold no_descent. now apply ltb_asym.
    + constructor; [now apply IH |]. now apply insert_by_HdRel.
Qed.

Lemma sort_from_sorted (l acc : list A) :
  Sorted (no_descent key) acc ->
  Sorted (no_descent key) (fold_left (fun sorted x => Py.insert_by key x sorted) l acc).
Proof.
  revert acc. induction l as [| x l IH]; intros acc Hs; simpl; [exact Hs |].
  now apply IH, insert_by_sorted.
Qed.

(** After the sort no element is followed by one with a smaller key. *)
Lemma sort_by_sorted (l : list A) : Sorted (no_descent key) (Py.sort_by key l).
Proof. apply sort_from_sorted. constructor. Qed.

(** On keys that are all comparable, the sorted list is ascending. *)
Lemma sorted_comparable (l : list A) :
  Forall (fun a => (key_le key) a a) l -> Sorted (no_descent key) l -> Sorted (key_le key) l.
Proof.
  induction l as [| a l IH]; intros Hc Hs; [constructor |].
  inversion Hc as [| ? ? Ha Hl]; subst. inversion Hs as [| ? ? Hsl Hhd]; subst.
  constructor; [now apply IH |].
  destruct l as [| b l]; constructor.
  inversion Hhd; subst. inversion Hl; subst.
  now apply not_ltb_leb.
Qed.

Lemma firstn_sorted (R : A -> A -> Prop) (n : nat) (l : list A) :
  Sorted R l -> Sorted R (firstn n l).
Proof.
  revert l. induction n as [| n IH]; intros [| a l] Hs; simpl; try constructor.
  - inversion Hs; subst. now apply IH.
  - inversion Hs as [| ? ? _ Hhd]; subst.
    destruct l as [| b l]; destruct n; simpl; constructor. now inversion Hhd.
Qed.

End Sorting.

(* ================================================================== *)
(** * Properties: the finger detector *)
(* ================================================================== *)

Section FingerDetectionFacts.

Context {cv : OpenCV}.

(** The loop of [_find_finger_tips] keeps, in hull order, the normalised
    vertices that pass its test. *)
Lemma tips_loop (image_shape : Z * Z) (center_x center_y : Z) (hull : list (Z * Z)) :
  forall acc,
    fold_left
      (fun finger_tips point =>
         if is_finger_tip center_x center_y point
         then finger_tips ++ [normalized image_shape point]
         else finger_tips)
      hull acc
    = acc ++ map (normalized image_shape) (filter (is_finger_tip center_x center_y) hull).
Proof.
  induction hull as [| point hull IH]; intros acc; simpl.
  - now rewrite app_nil_r.
  - rewrite IH. destruct (is_finger_tip center_x center_y point); simpl.
    + now rewrite <- app_assoc.
    + reflexivity.
Qed.

(** The two ways [_find_finger_tips] returns. *)
Lemma find_finger_tips_inv (contour : Contour) (image_shape : Z * Z) (tips : list Point) :
  _find_finger_tips contour image_shape = Return tips ->
  ((m00 (moments contour) =? 0)%float = true /\ tips = [])
  \/ (exists center_x center_y,
         (m00 (moments contour) =? 0)%float = false
         /\ Py.int (m10 (moments contour) / m00 (moments contour))%float = Return center_x
         /\ Py.int (m01 (moments contour) / m00 (moments contour))%float = Return center_y
         /\ tips = firstn 5 (Py.sort_by px
                               (map (normalized image_shape)
                                    (filter (is_finger_tip center_x center_y)
                                            (convexHull contour))))).
Proof.
  unfold _find_finger_tips.
  destruct (m00 (moments contour) =? 0)%float.
  - intros E; inversion E. now left.
  - destruct (Py.int (m10 (moments contour) / m00 (moments contour))%float)
      as [center_x |] eqn:Ex; cbn [Py.bind]; [| discriminate].
    destruct (Py.int (m01 (moments contour) / m00 (moments contour))%float)
      as [center_y |] eqn:Ey; cbn [Py.bind]; [| discriminate].
    intros E; inversion E. right. exists center_x, center_y.
    rewrite tips_loop. simpl. auto.
Qed.

(** At most five tips are returned. *)
Lemma find_finger_tips_len (contour : Contour) (image_shape : Z * Z) (tips : list Point) :
  _find_finger_tips contour image_shape = Return tips -> Py.len tips <= 5.
Proof.
  intros H. apply find_finger_tips_inv in H.
  destruct H as [[_ ->] | (cx & cy & _ & _ & _ & ->)]; unfold Py.len.
  - simpl. lia.
  - pose proof (firstn_le_length 5 (Py.sort_by px
       (map (normalized image_shape) (filter (is_finger_tip cx cy) (convexHull contour))))).
    length_lia.
Qed.

(** [int(f)] returns on every finite [f]. *)
Lemma int_returns (f : float) :
  PrimFloat.is_nan f = false -> PrimFloat.is_infinity f = false ->
  exists z, Py.int f = Return z.
Proof.
  intros Hnan Hinf. unfold Py.int, Prim2SF. rewrite Hnan, Hinf.
  destruct (PrimFloat.is_zero f); [eexists; reflexivity |].
  destruct (Z.frexp f) as [r e].
  destruct (shr_fexp prec emax _ _ _) as [shr e'].
  destruct (shr_m shr); eexists; reflexivity.
Qed.

(** [_find_finger_tips] returns whenever the two centre quotients are
    finite. *)
Lemma find_finger_tips_returns (contour : Contour) (image_shape : Z * Z) :
  let cx := (m10 (moments contour) / m00 (moments contour))%float in
  let cy := (m01 (moments contour) / m00 (moments contour))%float in
  PrimFloat.is_nan cx = false -> PrimFloat.is_infinity cx = false ->
  PrimFloat.is_nan cy = false -> PrimFloat.is_infinity cy = false ->
  exists tips, _find_finger_tips contour image_shape = Return tips.
Proof.
  intros cx cy Hx1 Hx2 Hy1 Hy2. unfold _find_finger_tips.
  destruct (m00 (moments contour) =? 0)%float; [eexists; reflexivity |].
  destruct (int_returns cx Hx1 Hx2) as [zx Ex], (int_returns cy Hy1 Hy2) as [zy Ey].
  fold cx cy. rewrite Ex, Ey. cbn [Py.bind]. eexists; reflexivity.
Qed.

(** [detect_fingers] in terms of the contour it analyses. *)
Lemma detect_fingers_unfold (self : FingerDetector) (image : Image) :
  detect_fingers self image =
  match hand_contour self image with
  | None => Return (false, None)
  | Some contour =>
      finger_points <- _find_finger_tips contour (shape image) ;;
      if 3 <=? Py.len finger_points then Return (true, Some finger_points)
      else Return (false, None)
  end.
Proof.
  unfold detect_fingers, hand_contour.
  destruct (skin_contours 3 image) as [| first rest]; [reflexivity |].
  cbv zeta.
  destruct (contourArea (Py.max_by_scan contourArea first rest)
            <? Z2F (min_contour_area self))%float; reflexivity.
Qed.

(** What [detect_fingers] can return: no detection, or three to five
    finger tips. *)
Lemma detect_fingers_inv (self : FingerDetector) (image : Image)
      (fingers_detected : bool) (finger_points : option (list Point)) :
  detect_fingers self image = Return (fingers_detected, finger_points) ->
  (fingers_detected = false /\ finger_points = None)
  \/ (exists contour tips,
         hand_contour self image = Some contour
         /\ _find_finger_tips contour (shape image) = Return tips
         /\ fingers_detected = true /\ finger_points = Some tips
         /\ 3 <= Py.len tips <= 5).
Proof.
  rewrite detect_fingers_unfold.
  destruct (hand_contour self image) as [contour |] eqn:Ec.
  - destruct (_find_finger_tips contour (shape image)) as [tips |] eqn:Et;
      cbn [Py.bind]; [| discriminate].
    destruct (Z.leb_spec 3 (Py.len tips)) as [H3 | H3]; intros E; inversion E; subst.
    + right. exists contour, tips. pose proof (find_finger_tips_len _ _ _ Et).
      repeat split; auto; lia.
    + now left.
  - intros E; inversion E. now left.
Qed.

(** Fewer than three tips, or no contour to analyse, is no detection. *)
Lemma detect_fingers_none (self : FingerDetector) (image : Image) (tips : list Point) :
  finger_tips_of self image = Return tips -> Py.len tips < 3 ->
  detect_fingers self image = Return (false, None).
Proof.
  unfold finger_tips_of. rewrite detect_fingers_unfold.
  destruct (hand_contour self image) as [contour |]; [| reflexivity].
  intros -> Hlt. cbn [Py.bind].
  destruct (Z.leb_spec 3 (Py.len tips)); [lia | reflexivity].
Qed.

(** The per-frame letter only depends on the finger detector. *)
Lemma frame_detection_indep (self other : ASLLetterDetector) (image : Image) :
  finger_detector self = finger_detector other ->
  frame_detection self image = frame_detection other image.
Proof. unfold frame_detection. now intros ->. Qed.

(** What [frame_detection] can return. *)
Lemma frame_detection_inv (self : ASLLetterDetector) (image : Image) (d : Detection) :
  frame_detection self image = Return d ->
  (detect_fingers (finger_detector self) image = Return (false, None)
   /\ d = ("E", 0.7%float))
  \/ (exists tips,
         detect_fingers (finger_detector self) image = Return (true, Some tips)
         /\ 3 <= Py.len tips <= 5
         /\ d = _classify_by_finger_count (Py.len tips) tips).
Proof.
  unfold frame_detection.
  destruct (detect_fingers (finger_detector self) image) as [[b pts] |] eqn:Ed;
    cbn [Py.bind]; [| discriminate].
  destruct (detect_fingers_inv _ _ _ _ Ed) as [[-> ->] | (c & tips & _ & _ & -> & -> & Hlen)];
    simpl; intros E; inversion E; subst.
  - now left.
  - right. exists tips. auto.
Qed.

(** What [detect_letter] can return. *)
Lemma detect_letter_inv (fd : FingerDetector) (image : Image) (r : Described) :
  detect_letter fd image = Return r ->
  (detect_fingers fd image = Return (false, None)
   /\ r = ("E", 0.8%float, "Fist (no fingers)"))
  \/ (exists tips,
         detect_fingers fd image = Return (true, Some tips)
         /\ 3 <= Py.len tips <= 5
         /\ describe_letter true (Some tips) = Return r).
Proof.
  unfold detect_letter.
  destruct (detect_fingers fd image) as [[b pts] |] eqn:Ed; cbn [Py.bind]; [| discriminate].
  destruct (detect_fingers_inv _ _ _ _ Ed) as [[-> ->] | (c & tips & _ & _ & -> & -> & Hlen)].
  - simpl. intros E; inversion E. now left.
  - intros E. right. exists tips. auto.
Qed.

End FingerDetectionFacts.

(* ================================================================== *)
(** * Properties: frames without a detected hand *)
(* ================================================================== *)

(** C2.  Fist invariant.  When a frame yields no qualifying tip
    candidate, the finger count (the length of the tip list) is 0,
    [detect_fingers] reports no detection, and the frame is classified
    as E: with confidence 0.7 by [detect_asl_letter], with confidence
    0.8 by [SimpleASLDetector.detect_letter] and by the rule for a
    finger count of 0; both confidences lie in [0.70, 0.80]. *)
Theorem C2_fist_invariant :
  forall (cv : OpenCV) (self : ASLLetterDetector) (image : Image) (tips : list Point),
    finger_tips_of (finger_detector self) image = Return tips ->
    tips = [] ->
    Py.len tips = 0
    /\ detect_fingers (finger_detector self) image = Return (false, None)
    /\ frame_detection self image = Return ("E", 0.7%float)
    /\ detect_letter (finger_detector self) image
       = Return ("E", 0.8%float, "Fist (no fingers)")
    /\ _classify_by_finger_count (Py.len tips) tips = ("E", 0.8%float)
    /\ within 0.70 0.80 0.7 = true
    /\ within 0.70 0.80 0.8 = true.
Proof.
  intros cv self image tips Htips ->.
  assert (Hd : detect_fingers (finger_detector self) image = Return (false, None)).
  { apply (detect_fingers_none _ _ [] Htips). reflexivity. }
  split; [reflexivity |]. split; [exact Hd |].
  split; [unfold frame_detection; now rewrite Hd |].
  split; [unfold detect_letter; now rewrite Hd |].
  split; [reflexivity |]. split; vm_compute; reflexivity.
Qed.

Lemma C2_fist_invariant_witness :
  Py.len (@nil Point) = 0
  /\ detect_fingers (cv := SceneCV) FingerDetector_init fist_frame = Return (false, None)
  /\ frame_detection (cv := SceneCV) ASLLetterDetector_init fist_frame
     = Return ("E", 0.7%float)
  /\ detect_letter (cv := SceneCV) FingerDetector_init fist_frame
     = Return ("E", 0.8%float, "Fist (no fingers)")
  /\ _classify_by_finger_count (Py.len (@nil Point)) [] = ("E", 0.8%float)
  /\ within 0.70 0.80 0.7 = true
  /\ within 0.70 0.80 0.8 = true.
Proof.
  apply (C2_fist_invariant SceneCV ASLLetterDetector_init fist_frame []).
  - vm_compute. reflexivity.
  - reflexivity.
Defined.

(** C5, as stated, fails.  The frame [speck_frame] is rejected by the
    area bound and [two_finger_frame] has fewer than 3 tip candidates;
    the per-frame outcome of both is the letter E with confidence 0.7,
    not an absent label with confidence 0. *)
Lemma C5_counterexample :
  hand_contour (cv := SceneCV) FingerDetector_init speck_frame = None
  /\ per_frame_outcome (cv := SceneCV) ASLLetterDetector_init speck_frame
     = Return (Some "E", 0.7%float)
  /\ per_frame_outcome (cv := SceneCV) ASLLetterDetector_init speck_frame
     <> Return (None, 0%float)
  /\ Py.bind (finger_tips_of (cv := SceneCV) FingerDetector_init two_finger_frame)
             (fun tips => Return (Py.len tips)) = Return 2
  /\ per_frame_outcome (cv := SceneCV) ASLLetterDetector_init two_finger_frame
     = Return (Some "E", 0.7%float)
  /\ per_frame_outcome (cv := SceneCV) ASLLetterDetector_init two_finger_frame
     <> Return (None, 0%float).
Proof.
  repeat split; try (vm_compute; reflexivity); vm_compute; discriminate.
Qed.

(** C5, amended.  When no contour passes the minimum-area test, or the
    contour analysed has fewer than 3 tip candidates, [detect_fingers]
    returns [(False, None)] without raising, and the per-frame outcome
    is the letter E: with confidence 0.7 in [detect_asl_letter] and 0.8
    in [SimpleASLDetector.detect_letter]. *)
Theorem C5_no_hand_is_letter_E :
  forall (cv : OpenCV) (self : ASLLetterDetector) (image : Image),
    (hand_contour (finger_detector self) image = None
     \/ exists contour tips,
          hand_contour (finger_detector self) image = Some contour
          /\ _find_finger_tips contour (shape image) = Return tips
          /\ Py.len tips < 3) ->
    detect_fingers (finger_detector self) image = Return (false, None)
    /\ frame_detection self image = Return ("E", 0.7%float)
    /\ per_frame_outcome self image = Return (Some "E", 0.7%float)
    /\ detect_letter (finger_detector self) image
       = Return ("E", 0.8%float, "Fist (no fingers)").
Proof.
  intros cv self image H.
  assert (Hd : detect_fingers (finger_detector self) image = Return (false, None)).
  { destruct H as [Hnone | (contour & tips & Hc & Ht & Hlt)].
    - apply (detect_fingers_none _ _ []); [| reflexivity].
      unfold finger_tips_of. now rewrite Hnone.
    - apply (detect_fingers_none _ _ tips); [| exact Hlt].
      unfold finger_tips_of. now rewrite Hc. }
  assert (Hf : frame_detection self image = Return ("E", 0.7%float)).
  { unfold frame_detection. now rewrite Hd. }
  split; [exact Hd |]. split; [exact Hf |].
  split; [unfold per_frame_outcome; now rewrite Hf |].
  unfold detect_letter. now rewrite Hd.
Qed.

Lemma C5_no_hand_is_letter_E_witness :
  detect_fingers (cv := SceneCV) FingerDetector_init two_finger_frame = Return (false, None)
  /\ frame_detection (cv := SceneCV) ASLLetterDetector_init two_finger_frame
     = Return ("E", 0.7%float)
  /\ per_frame_outcome (cv := SceneCV) ASLLetterDetector_init two_finger_frame
     = Return (Some "E", 0.7%float)
  /\ detect_letter (cv := SceneCV) FingerDetector_init two_finger_frame
     = Return ("E", 0.8%float, "Fist (no fingers)").
Proof.
  apply (C5_no_hand_is_letter_E SceneCV ASLLetterDetector_init two_finger_frame).
  right. eexists. eexists. split; [vm_compute; reflexivity |].
  split; [vm_compute; reflexivity |]. vm_compute. reflexivity.
Defined.

(* ================================================================== *)
(** * Properties: the area band *)
(* ================================================================== *)

Section AreaBand.

Context {cv : OpenCV}.

(** A contour analysed by [FingerDetector] passed the minimum-area test. *)
Lemma hand_contour_min_area (self : FingerDetector) (image : Image) (contour : Contour) :
  hand_contour self image = Some contour ->
  (contourArea contour <? Z2F (min_contour_area self))%float = false.
Proof.
  unfold hand_contour. destruct (skin_contours 3 image) as [| first rest]; [discriminate |].
  cbv zeta.
  destruct (contourArea (Py.max_by_scan contourArea first rest)
            <? Z2F (min_contour_area self))%float eqn:E; [discriminate |].
  intros H; inversion H; subst. exact E.
Qed.

(** A contour analysed by [ImprovedHandDetector] passed both area tests. *)
Lemma improved_hand_contour_band (self : ImprovedHandDetector) (image : Image)
      (contour : Contour) :
  improved_hand_contour self image = Some contour ->
  (contourArea contour <? Z2F (improved_min_contour_area self))%float = false
  /\ (Z2F (improved_max_contour_area self) <? contourArea contour)%float = false.
Proof.
  unfold improved_hand_contour.
  destruct (skin_contours 5 image) as [| first rest]; [discriminate |].
  cbv zeta.
  destruct (contourArea (Py.max_by_scan contourArea first rest)
            <? Z2F (improved_min_contour_area self))%float eqn:E1;
    [discriminate |].
  destruct (Z2F (improved_max_contour_area self)
            <? contourArea (Py.max_by_scan contourArea first rest))%float eqn:E2;
    [discriminate |].
  intros H; inversion H; subst. split; assumption.
Qed.

(** [detect_hands] reports a hand only for a contour inside the band. *)
Lemma detect_hands_band (extract : Contour -> Z * Z -> option (list Point))
      (self : ImprovedHandDetector) (image : Image) (landmarks : option (list Point)) :
  detect_hands extract self image = (true, landmarks) ->
  exists contour,
    improved_hand_contour self image = Some contour
    /\ (contourArea contour <? Z2F (improved_min_contour_area self))%float = false
    /\ (Z2F (improved_max_contour_area self) <? contourArea contour)%float = false.
Proof.
  intros H.
  assert (Hc : exists contour, improved_hand_contour self image = Some contour).
  { revert H. unfold detect_hands, improved_hand_contour.
    destruct (skin_contours 5 image) as [| first rest]; [discriminate |].
    cbv zeta.
    destruct ((contourArea (Py.max_by_scan contourArea first rest)
               <? Z2F (improved_min_contour_area self))%float
              || (Z2F (improved_max_contour_area self)
                  <? contourArea (Py.max_by_scan contourArea first rest))%float);
      [discriminate | eauto]. }
  destruct Hc as [contour Hc]. exists contour. split; [exact Hc |].
  exact (improved_hand_contour_band self image contour Hc).
Qed.

End AreaBand.

(** C4: the area band is not enforced by [FingerDetector].  The largest
    contour of [oversized_frame] has area 60000, above the configured
    [max_contour_area] of 50000; [detect_fingers] nevertheless analyses
    it and reports five fingers, and the frame is classified as B.
    [ImprovedHandDetector.detect_hands], with its own band, rejects the
    same kind of contour (see [detect_hands_band]). *)
Theorem C4_oversized_contour_accepted :
  max_contour_area FingerDetector_init = 50000
  /\ (exists contour,
         hand_contour (cv := SceneCV) FingerDetector_init oversized_frame = Some contour
         /\ contourArea (OpenCV := SceneCV) contour = 60000%float
         /\ (Z2F (max_contour_area FingerDetector_init)
             <? contourArea (OpenCV := SceneCV) contour)%float = true)
  /\ detect_fingers (cv := SceneCV) FingerDetector_init oversized_frame
     = Return (true, Some [(0.3125, 0.41666666666666669, 0); (0.40625, 0.3125, 0);
                           (0.5, 0.27083333333333331, 0); (0.59375, 0.3125, 0);
                           (0.6875, 0.41666666666666669, 0)]%float)
  /\ frame_detection (cv := SceneCV) ASLLetterDetector_init oversized_frame
     = Return ("B", 0.8%float)
  /\ improved_hand_contour (cv := SceneCV)
       {| improved_min_contour_area := 5000; improved_max_contour_area := 50000 |}
       oversized_frame = None.
Proof.
  split; [reflexivity |]. split.
  - eexists. split; [vm_compute; reflexivity |]. split; vm_compute; reflexivity.
  - repeat split; vm_compute; reflexivity.
Qed.

(* ================================================================== *)
(** * Properties: runs of the letter detector *)
(* ================================================================== *)

Section Runs.

Lemma firstn_repeat {A : Type} (x : A) (n m : nat) :
  firstn n (repeat x m) = repeat x (Nat.min n m).
Proof.
  revert m. induction n as [| n IH]; intros [| m]; simpl; try reflexivity.
  now rewrite IH.
Qed.

Lemma skipn_repeat {A : Type} (x : A) (n m : nat) :
  skipn n (repeat x m) = repeat x (m - n).
Proof.
  revert m. induction n as [| n IH]; intros [| m]; simpl; try reflexivity.
  now rewrite IH.
Qed.

Lemma trailing_window_repeat (d : Detection) (m : nat) :
  trailing_window (repeat d m) = repeat d (Nat.min m 5).
Proof.
  unfold trailing_window. rewrite repeat_length, skipn_repeat. f_equal. lia.
Qed.

Lemma occurrences_repeat (d : Detection) (m : nat) :
  occurrences (fst d) (repeat d m) = Z.of_nat m.
Proof.
  induction m as [| m IH]; [reflexivity |].
  cbn [repeat]. rewrite occurrences_cons, String.eqb_refl, IH. lia.
Qed.

(** The value returned once [j] copies of one result have been pushed. *)
Lemma stable_of_window_repeat (d : Detection) (j : nat) :
  window_mean (repeat d 5) = snd d ->
  stable_of_window (trailing_window (repeat d j))
  = if (j <? 5)%nat then (None, 0%float) else (Some (fst d), snd d).
Proof.
  intros Hmean. rewrite trailing_window_repeat.
  destruct (Nat.ltb_spec j 5) as [Hlt | Hge].
  - unfold stable_of_window, Py.len. rewrite repeat_length.
    destruct (Z.ltb_spec (Z.of_nat (Nat.min j 5)) 5); [reflexivity | lia].
  - replace (Nat.min j 5) with 5%nat by lia.
    rewrite (stable_of_window_accept (repeat d 5) (fst d)).
    + now rewrite Hmean.
    + reflexivity.
    + rewrite occurrences_repeat. lia.
Qed.

(** The values returned by [m] pushes of one result into a fresh
    detector: undetermined for the first four, the result itself from
    the fifth on. *)
Lemma repeated_pushes (d : Detection) (m : nat) :
  window_mean (repeat d 5) = snd d ->
  record_sequence ASLLetterDetector_init (repeat d m)
  = Return (with_history ASLLetterDetector_init (repeat d (Nat.min m 5)),
            map (fun k => if (S k <? 5)%nat then (None, 0%float)
                          else (Some (fst d), snd d))
                (seq 0 m)).
Proof.
  intros Hmean.
  rewrite (record_sequence_spec (repeat d m) ASLLetterDetector_init [] eq_refl eq_refl).
  cbn [app]. rewrite trailing_window_repeat. f_equal. f_equal.
  unfold stable_outputs. rewrite repeat_length. apply map_ext_in.
  intros k Hk. apply in_seq in Hk. cbn [app].
  rewrite firstn_repeat. replace (Nat.min (S k) m) with (S k) by lia.
  now apply stable_of_window_repeat.
Qed.

(** The five confidences of the rules are reproduced exactly by the mean
    of five copies. *)
Lemma rule_confidence_mean (d : Detection) :
  In (snd d) [0.8; 0.5; 0.7; 0.6; 0]%float -> window_mean (repeat d 5) = snd d.
Proof.
  destruct d as [letter c]. cbn [snd]. intros H.
  unfold window_mean, confidence_sum. cbn [repeat fold_left snd].
  simpl in H.
  repeat (destruct H as [<- | H]; [vm_compute; reflexivity |]). contradiction.
Qed.

Lemma classify_confidence (finger_count : Z) (finger_points : list Point) :
  In (snd (_classify_by_finger_count finger_count finger_points)) [0.8; 0.5; 0.7; 0.6; 0]%float.
Proof.
  pose proof (classify_cases finger_count finger_points) as H. simpl in H.
  repeat (destruct H as [<- | H]; [simpl; tauto |]). contradiction.
Qed.

Context {cv : OpenCV}.

Lemma record_detection_fd (self self' : ASLLetterDetector) (d : Detection)
      (stable : option string * float) :
  record_detection self d = Return (self', stable) ->
  finger_detector self' = finger_detector self.
Proof.
  unfold record_detection.
  destruct (_get_stable_detection _) as [s |]; cbn [Py.bind]; [| discriminate].
  intros E; inversion E; subst. reflexivity.
Qed.

(** A run of [detect_asl_letter] over frames pushes their per-frame
    results. *)
Lemma detect_sequence_record (images : list Image) :
  forall (ds : list Detection) (self : ASLLetterDetector),
    Forall2 (fun image d => frame_detection self image = Return d) images ds ->
    detect_sequence self images = record_sequence self ds.
Proof.
  induction images as [| image images IH]; intros ds self HF; inversion HF; subst.
  - reflexivity.
  - cbn [detect_sequence record_sequence]. unfold detect_asl_letter.
    match goal with H : frame_detection self image = _ |- _ => rewrite H end.
    cbn [Py.bind].
    destruct (record_detection self y) as [[self' stable] |] eqn:Er; cbn [Py.bind];
      [| reflexivity].
    rewrite (IH l' self'); [reflexivity |].
    pose proof (record_detection_fd _ _ _ _ Er) as Hfd.
    match goal with H : Forall2 _ images l' |- _ =>
      eapply Forall2_impl; [| exact H] end.
    intros a b Hab. cbv beta in *. now rewrite (frame_detection_indep self' self).
Qed.

Lemma frame_detection_confidence (self : ASLLetterDetector) (image : Image) (d : Detection) :
  frame_detection self image = Return d -> In (snd d) [0.8; 0.5; 0.7; 0.6; 0]%float.
Proof.
  intros H. apply frame_detection_inv in H.
  destruct H as [[_ ->] | (tips & _ & _ & ->)].
  - simpl. tauto.
  - apply classify_confidence.
Qed.

(** The values returned by [m] calls of [detect_asl_letter] on one frame,
    from a fresh detector. *)
Lemma repeated_calls (image : Image) (d : Detection) (m : nat) :
  frame_detection ASLLetterDetector_init image = Return d ->
  detect_sequence ASLLetterDetector_init (repeat image m)
  = Return (with_history ASLLetterDetector_init (repeat d (Nat.min m 5)),
            map (fun k => if (S k <? 5)%nat then (None, 0%float)
                          else (Some (fst d), snd d))
                (seq 0 m)).
Proof.
  intros Hd.
  rewrite (detect_sequence_record (repeat image m) (repeat d m)).
  - apply repeated_pushes, rule_confidence_mean.
    exact (frame_detection_confidence _ _ _ Hd).
  - induction m; simpl; constructor; assumption.
Qed.

End Runs.

(** C8.  Monotonic windowing.  Pushing one per-frame result five times
    in a row into a fresh detector returns "undetermined" four times and
    then that result: its letter, with its own confidence.  This holds
    for every result of the classification rules (any finger count, any
    tip list), for the result E/0.7 of a frame without detected fingers,
    and hence for five consecutive calls of [detect_asl_letter] on one
    frame. *)
Theorem C8_monotonic_windowing :
  (forall (finger_count : Z) (finger_points : list Point),
      let d := _classify_by_finger_count finger_count finger_points in
      record_sequence ASLLetterDetector_init [d; d; d; d; d]
      = Return (with_history ASLLetterDetector_init [d; d; d; d; d],
                [(None, 0%float); (None, 0%float); (None, 0%float); (None, 0%float);
                 (Some (fst d), snd d)]))
  /\ (let d := ("E", 0.7%float) in
      record_sequence ASLLetterDetector_init [d; d; d; d; d]
      = Return (with_history ASLLetterDetector_init [d; d; d; d; d],
                [(None, 0%float); (None, 0%float); (None, 0%float); (None, 0%float);
                 (Some "E", 0.7%float)]))
  /\ (forall (cv : OpenCV) (image : Image) (d : Detection),
         frame_detection ASLLetterDetector_init image = Return d ->
         detect_sequence ASLLetterDetector_init [image; image; image; image; image]
         = Return (with_history ASLLetterDetector_init [d; d; d; d; d],
                   [(None, 0%float); (None, 0%float); (None, 0%float); (None, 0%float);
                    (Some (fst d), snd d)])).
Proof.
  split; [| split].
  - intros finger_count finger_points d.
    exact (repeated_pushes d 5 (rule_confidence_mean d (classify_confidence _ _))).
  - intros d. apply (repeated_pushes d 5). vm_compute. reflexivity.
  - intros cv image d Hd. exact (repeated_calls image d 5 Hd).
Qed.

(** The restriction of C8 to the results of the rules matters: the mean
    of five copies of an arbitrary binary64 value need not be that
    value. *)
Remark mean_of_five_copies_rounds :
  window_mean (repeat ("C", 0.11%float) 5) = 0.11000000000000001%float
  /\ (window_mean (repeat ("C", 0.11%float) 5) =? 0.11)%float = false.
Proof. vm_compute. split; reflexivity. Qed.

(** C10.  Labels reachable from an image.  [detect_fingers] reports a
    detection only with three to five tips, so the per-frame letter of
    [detect_asl_letter] and the letter of
    [SimpleASLDetector.detect_letter] are always among E, C and B, and
    each of the three is reached by some frame; the pipeline returns
    whenever the centre quotients of the analysed contour are finite.
    The letters A and D and the label Unknown are produced by
    [_classify_by_finger_count] only on finger counts 1 and above 5,
    which a direct call can supply. *)
Theorem C10_image_labels :
  (forall (cv : OpenCV) (fd : FingerDetector) (image : Image) finger_points,
      detect_fingers fd image = Return (true, finger_points) ->
      exists tips, finger_points = Some tips /\ 3 <= Py.len tips <= 5)
  /\ (forall (cv : OpenCV) (self : ASLLetterDetector) (image : Image) (d : Detection),
         frame_detection self image = Return d -> In (fst d) ["E"; "C"; "B"])
  /\ (forall (cv : OpenCV) (fd : FingerDetector) (image : Image) letter confidence description,
         detect_letter fd image = Return (letter, confidence, description) ->
         In letter ["E"; "C"; "B"])
  /\ (forall (cv : OpenCV) (self : ASLLetterDetector) (image : Image),
         (forall contour,
             hand_contour (finger_detector self) image = Some contour ->
             let cx := (m10 (moments contour) / m00 (moments contour))%float in
             let cy := (m01 (moments contour) / m00 (moments contour))%float in
             PrimFloat.is_nan cx = false /\ PrimFloat.is_infinity cx = false
             /\ PrimFloat.is_nan cy = false /\ PrimFloat.is_infinity cy = false) ->
         exists d, frame_detection self image = Return d /\ In (fst d) ["E"; "C"; "B"])
  /\ (frame_detection (cv := SceneCV) ASLLetterDetector_init fist_frame
      = Return ("E", 0.7%float)
      /\ frame_detection (cv := SceneCV) ASLLetterDetector_init three_finger_frame
         = Return ("C", 0.7%float)
      /\ frame_detection (cv := SceneCV) ASLLetterDetector_init open_hand_frame
         = Return ("B", 0.8%float))
  /\ (forall (finger_count : Z) (finger_points : list Point),
         In (fst (_classify_by_finger_count finger_count finger_points)) ["A"; "D"; "Unknown"]
         <-> finger_count = 1 \/ finger_count < 0 \/ 5 < finger_count)
  /\ (_classify_by_finger_count 1 [(0.1, 0.5, 0)%float] = ("A", 0.7%float)
      /\ _classify_by_finger_count 1 [(0.9, 0.5, 0)%float] = ("D", 0.7%float)
      /\ _classify_by_finger_count 6 [] = ("Unknown", 0%float)).
Proof.
  assert (Hcount : forall tips : list Point,
             3 <= Py.len tips <= 5 ->
             In (fst (_classify_by_finger_count (Py.len tips) tips)) ["E"; "C"; "B"]).
  { intros tips Hlen.
    assert (C : Py.len tips = 3 \/ Py.len tips = 4 \/ Py.len tips = 5) by lia.
    destruct C as [-> | [-> | ->]]; simpl; tauto. }
  assert (Hframe : forall (cv : OpenCV) (self : ASLLetterDetector) (image : Image)
                          (d : Detection),
             frame_detection self image = Return d -> In (fst d) ["E"; "C"; "B"]).
  { intros cv self image d H. apply frame_detection_inv in H.
    destruct H as [[_ ->] | (tips & _ & Hlen & ->)]; [simpl; tauto | now apply Hcount]. }
  split; [| split; [exact Hframe | split; [| split; [| split; [| split]]]]].
  - intros cv fd image finger_points H.
    destruct (detect_fingers_inv _ _ _ _ H) as [[Hf _] | (c & tips & _ & _ & _ & -> & Hlen)];
      [discriminate | eauto].
  - intros cv fd image letter confidence description H.
    apply detect_letter_inv in H.
    destruct H as [[_ E] | (tips & _ & Hlen & E)]; [inversion E; simpl; tauto |].
    revert E. unfold describe_letter. cbn [negb].
    assert (C : Py.len tips = 3 \/ Py.len tips = 4 \/ Py.len tips = 5) by lia.
    destruct C as [-> | [-> | ->]]; simpl; intros E; inversion E; tauto.
  - intros cv self image Hfin.
    assert (Hret : exists r, detect_fingers (finger_detector self) image = Return r).
    { rewrite detect_fingers_unfold.
      destruct (hand_contour (finger_detector self) image) as [contour |] eqn:Ec;
        [| eexists; reflexivity].
      destruct (Hfin contour eq_refl) as (H1 & H2 & H3 & H4).
      destruct (find_finger_tips_returns contour (shape image) H1 H2 H3 H4) as [tips ->].
      cbn [Py.bind]. destruct (3 <=? Py.len tips); eexists; reflexivity. }
    destruct Hret as [[b pts] Hr].
    assert (exists d, frame_detection self image = Return d) as [d Hd].
    { unfold frame_detection. rewrite Hr. cbn [Py.bind].
      destruct (detect_fingers_inv _ _ _ _ Hr) as [[-> ->] | (c & tips & _ & _ & -> & -> & _)];
        simpl; eexists; reflexivity. }
    exists d. split; [exact Hd | exact (Hframe _ _ _ _ Hd)].
  - repeat split; vm_compute; reflexivity.
  - intros finger_count finger_points. unfold _classify_by_finger_count, _distinguish_a_or_d.
    destruct (Z.eqb_spec finger_count 0) as [-> | H0].
    { simpl. split; [intros [H | [H | [H | []]]]; discriminate | lia]. }
    destruct (Z.eqb_spec finger_count 1) as [-> | H1].
    { split; [auto |]. intros _. destruct finger_points as [| p ps]; [simpl; tauto |].
      destruct (px p <? 0.4)%float; simpl; tauto. }
    destruct (Z.eqb_spec finger_count 2) as [-> | H2].
    { simpl. split; [intros [H | [H | [H | []]]]; discriminate | lia]. }
    destruct (Z.eqb_spec finger_count 3) as [-> | H3].
    { simpl. split; [intros [H | [H | [H | []]]]; discriminate | lia]. }
    destruct (Z.eqb_spec finger_count 4) as [-> | H4].
    { simpl. split; [intros [H | [H | [H | []]]]; discriminate | lia]. }
    destruct (Z.eqb_spec finger_count 5) as [-> | H5].
    { simpl. split; [intros [H | [H | [H | []]]]; discriminate | lia]. }
    simpl. split; [lia | tauto].
  - repeat split; vm_compute; reflexivity.
Qed.

(* ================================================================== *)
(** * Properties: the finger tips *)
(* ================================================================== *)

Section FingerTips.

Context {cv : OpenCV}.

Lemma firstn_In {A : Type} (n : nat) (l : list A) (x : A) :
  In x (firstn n l) -> In x l.
Proof.
  revert l. induction n as [| n IH]; intros [| a l]; simpl; try contradiction.
  intros [-> | H]; [now left | right; now apply IH].
Qed.

(** Every tip kept by the loop, the sort and the cut to five is the
    normalised form of a hull vertex that passed the test. *)
Lemma kept_tip_origin (image_shape : Z * Z) (center_x center_y : Z)
      (hull : list (Z * Z)) (tip : Point) :
  In tip (firstn 5 (Py.sort_by px
                      (map (normalized image_shape)
                           (filter (is_finger_tip center_x center_y) hull)))) ->
  exists point,
    In point hull /\ is_finger_tip center_x center_y point = true
    /\ tip = normalized image_shape point.
Proof.
  intros H. apply firstn_In in H.
  apply (Permutation_in _ (sort_by_perm px _)) in H.
  apply in_map_iff in H. destruct H as (point & <- & Hin).
  apply filter_In in Hin. destruct Hin as [Hin Htest].
  exists point. auto.
Qed.

Lemma is_finger_tip_inv (center_x center_y x y : Z) :
  is_finger_tip center_x center_y (x, y) = true ->
  (Z2F 50 <? distance x y center_x center_y)%float = true /\ y < center_y.
Proof.
  unfold is_finger_tip. intros H. apply andb_prop in H. destruct H as [H1 H2].
  split; [exact H1 | now apply Z.ltb_lt].
Qed.

Lemma forallb_range (f : Z -> bool) (n : nat) :
  forallb f (map Z.of_nat (seq 0 n)) = true ->
  forall z, 0 <= z < Z.of_nat n -> f z = true.
Proof.
  intros H z Hz. rewrite forallb_forall in H. apply H.
  apply in_map_iff. exists (Z.to_nat z). split; [lia |].
  apply in_seq. lia.
Qed.

(** The binary64 square root of an integer up to 2500 does not exceed
    50. *)
Lemma sqrt_up_to_50 (n : Z) :
  0 <= n <= 2500 -> (Z2F 50 <? PrimFloat.sqrt (Z2F n))%float = false.
Proof.
  intros Hn.
  apply negb_true_iff.
  apply (forallb_range (fun n => negb (Z2F 50 <? PrimFloat.sqrt (Z2F n))%float) 2501);
    [vm_compute; reflexivity | lia].
Qed.

(** A vertex that passes the distance test of the code is, in exact
    arithmetic, more than 50 pixels away from the centre the code
    uses. *)
Lemma distance_exceeds_50 (x y center_x center_y : Z) :
  (Z2F 50 <? distance x y center_x center_y)%float = true ->
  50 ^ 2 < (x - center_x) ^ 2 + (y - center_y) ^ 2.
Proof.
  unfold distance. intros H.
  destruct (Z_lt_le_dec (50 ^ 2) ((x - center_x) ^ 2 + (y - center_y) ^ 2)) as [Hgt | Hle];
    [exact Hgt |].
  rewrite sqrt_up_to_50 in H; [discriminate |].
  change (50 ^ 2) with 2500 in Hle.
  pose proof (Z.pow_even_nonneg (x - center_x) 2 ltac:(now exists 1)).
  pose proof (Z.pow_even_nonneg (y - center_y) 2 ltac:(now exists 1)).
  lia.
Qed.

End FingerTips.

(** C7, as stated, fails.  The code measures the distance from the
    centre [(int(m10/m00), int(m01/m00))], the centroid with both
    coordinates truncated to integers, not from the centroid.  The
    contour [off_centre_contour] has area 20000 and centroid
    (320.9, 300.9); the code takes (320, 300) as its centre and returns
    the tip of the hull vertex (370, 299), which is 50.01 pixels from
    (320, 300) and 49.14 pixels from the centroid: with the moments
    [m00 = 20000], [m10 = 6418000], [m01 = 6018000] the squared distance
    from the centroid, multiplied by [m00 ^ 2], is below
    [50 ^ 2 * m00 ^ 2]. *)
Lemma C7_counterexample :
  moments (OpenCV := SceneCV) off_centre_contour
  = {| m00 := Z2F 20000; m10 := Z2F 6418000; m01 := Z2F 6018000 |}
  /\ convexHull (OpenCV := SceneCV) off_centre_contour
     = [(370, 299); (400, 400); (240, 400)]
  /\ _find_finger_tips (cv := SceneCV) off_centre_contour (480, 640)
     = Return [normalized (480, 640) (370, 299)]
  /\ (370 * 20000 - 6418000) ^ 2 + (299 * 20000 - 6018000) ^ 2 < 50 ^ 2 * 20000 ^ 2
  /\ 50 ^ 2 < (370 - 320) ^ 2 + (299 - 300) ^ 2.
Proof.
  split; [reflexivity |]. split; [reflexivity |].
  split; [vm_compute; reflexivity |]. split; reflexivity.
Qed.

(** C7, amended.  Whenever [_find_finger_tips] returns, at most 5 tips
    are returned, no tip is followed by one with a smaller x-coordinate,
    and every tip is the normalised form [(x / columns, y / rows, 0.0)]
    of a vertex [(x, y)] of the convex hull of the contour whose
    Euclidean distance from the truncated centre
    [(int(m10/m00), int(m01/m00))] is, in exact arithmetic, strictly
    greater than 50, and which lies above that centre ([y < center_y]).
    For hull vertices inside the frame, as OpenCV yields them, both
    coordinates of every tip lie in [0, 1] and the tips are in ascending
    order of x. *)
Theorem C7_tip_qualification :
  forall (cv : OpenCV) (contour : Contour) (rows columns : Z) (tips : list Point),
    _find_finger_tips contour (rows, columns) = Return tips ->
    Py.len tips <= 5
    /\ Sorted (no_descent px) tips
    /\ (forall tip,
          In tip tips ->
          exists x y center_x center_y,
            In (x, y) (convexHull contour)
            /\ Py.int (m10 (moments contour) / m00 (moments contour))%float = Return center_x
            /\ Py.int (m01 (moments contour) / m00 (moments contour))%float = Return center_y
            /\ 50 ^ 2 < (x - center_x) ^ 2 + (y - center_y) ^ 2
            /\ y < center_y
            /\ tip = ((Z2F x / Z2F columns)%float, (Z2F y / Z2F rows)%float, 0%float))
    /\ (0 < rows < 2 ^ 53 -> 0 < columns < 2 ^ 53 ->
        (forall x y, In (x, y) (convexHull contour) -> 0 <= x <= columns /\ 0 <= y <= rows) ->
        (forall tip,
            In tip tips -> within 0 1 (px tip) = true /\ within 0 1 (py tip) = true)
        /\ StronglySorted (key_le px) tips).
Proof.
  intros cv contour rows columns tips Hret.
  assert (Hlen : Py.len tips <= 5) by exact (find_finger_tips_len _ _ _ Hret).
  assert (Hsorted : Sorted (no_descent px) tips).
  { apply find_finger_tips_inv in Hret.
    destruct Hret as [[_ ->] | (cx & cy & _ & _ & _ & ->)]; [constructor |].
    apply firstn_sorted, sort_by_sorted. }
  assert (Horigin : forall tip,
             In tip tips ->
             exists x y center_x center_y,
               In (x, y) (convexHull contour)
               /\ Py.int (m10 (moments contour) / m00 (moments contour))%float = Return center_x
               /\ Py.int (m01 (moments contour) / m00 (moments contour))%float = Return center_y
               /\ 50 ^ 2 < (x - center_x) ^ 2 + (y - center_y) ^ 2
               /\ y < center_y
               /\ tip = ((Z2F x / Z2F columns)%float, (Z2F y / Z2F rows)%float, 0%float)).
  { intros tip Hin. apply find_finger_tips_inv in Hret.
    destruct Hret as [[_ ->] | (cx & cy & _ & Hcx & Hcy & ->)]; [contradiction |].
    apply kept_tip_origin in Hin. destruct Hin as ([x y] & Hhull & Htest & ->).
    apply is_finger_tip_inv in Htest. destruct Htest as [Hdist Habove].
    apply distance_exceeds_50 in Hdist.
    exists x, y, cx, cy. repeat split; assumption. }
  split; [exact Hlen |]. split; [exact Hsorted |]. split; [exact Horigin |].
  intros Hrows Hcolumns Hframe.
  change (2 ^ 53) with 9007199254740992 in Hrows, Hcolumns.
  assert (Hunit : forall tip,
             In tip tips -> within 0 1 (px tip) = true /\ within 0 1 (py tip) = true).
  { intros tip Hin.
    destruct (Horigin tip Hin) as (x & y & cx & cy & Hhull & _ & _ & _ & _ & ->).
    destruct (Hframe x y Hhull) as [Hx Hy].
    split; apply unit_quotient; assumption. }
  split; [exact Hunit |].
  apply Sorted_StronglySorted.
  - intros a b c. unfold key_le. apply leb_trans.
  - apply sorted_comparable; [| exact Hsorted].
    apply Forall_forall. intros tip Hin. unfold key_le.
    exact (within_comparable 0 1 (px tip) (proj1 (Hunit tip Hin))).
Qed.

Lemma C7_tip_qualification_witness :
  Py.len open_hand_tips <= 5
  /\ (forall tip,
        In tip open_hand_tips ->
        exists x y center_x center_y,
          In (x, y) spread_hull
          /\ Py.int (Z2F (320 * 20000) / Z2F 20000)%float = Return center_x
          /\ Py.int (Z2F (300 * 20000) / Z2F 20000)%float = Return center_y
          /\ 50 ^ 2 < (x - center_x) ^ 2 + (y - center_y) ^ 2
          /\ y < center_y
          /\ tip = ((Z2F x / Z2F 640)%float, (Z2F y / Z2F 480)%float, 0%float))
  /\ StronglySorted (key_le px) open_hand_tips
  /\ (forall tip,
        In tip open_hand_tips ->
        within 0 1 (px tip) = true /\ within 0 1 (py tip) = true).
Proof.
  destruct (C7_tip_qualification SceneCV open_hand_contour 480 640 open_hand_tips)
    as (Hlen & _ & Horigin & Hframe).
  - vm_compute. reflexivity.
  - destruct Hframe as [Hunit Hsorted].
    + split; reflexivity.
    + split; reflexivity.
    + intros x y Hin. simpl in Hin.
      repeat (destruct Hin as [Hin | Hin]; [inversion Hin; subst; lia |]). contradiction.
    + split; [exact Hlen | split; [exact Horigin | split; [exact Hsorted | exact Hunit]]].
Defined.

(** The distance test at its boundary: a hull vertex exactly 50 pixels
    from the centre is not a tip, one at squared distance 2501 is. *)
Example distance_boundary :
  is_finger_tip 320 300 (350, 260) = false
  /\ distance 350 260 320 300 = 50%float
  /\ is_finger_tip 320 300 (320, 250) = false
  /\ is_finger_tip 320 300 (321, 250) = true
  /\ is_finger_tip 320 300 (320, 400) = false.
Proof. vm_compute. repeat split; reflexivity. Qed.

Example python_conversions :
  Py.int 320.75%float = Return 320 /\ Py.int (-2.5)%float = Return (-2)
  /\ Py.int (1 / 0)%float = Raise OverflowError /\ Py.int (0 / 0)%float = Raise ValueError
  /\ Z2F 640 = 640%float /\ (Z2F 5 * 0.6)%float = 3%float /\ Py.str 7 = "7".
Proof. vm_compute. repeat split; reflexivity. Qed.

(* ================================================================== *)
(** * Further properties: the stability window *)
(* ================================================================== *)

Section WindowDynamics.

(** The run of a fresh detector over pushed results, with its last
    returned value singled out. *)
Lemma record_sequence_last (pushed : list Detection) (d : Detection) :
  record_sequence ASLLetterDetector_init (pushed ++ [d])
  = Return (with_history ASLLetterDetector_init (trailing_window (pushed ++ [d])),
            stable_outputs [] pushed ++ [stable_of_window (trailing_window (pushed ++ [d]))]).
Proof.
  rewrite (record_sequence_spec (pushed ++ [d]) ASLLetterDetector_init [] eq_refl eq_refl).
  cbn [app]. f_equal. f_equal.
  unfold stable_outputs. rewrite length_app. cbn [List.length].
  rewrite Nat.add_1_r, seq_S, map_app. cbn [map Nat.add app]. f_equal.
  - apply map_ext_in. intros k Hk. apply in_seq in Hk.
    rewrite firstn_app. replace (S k - List.length pushed)%nat with 0%nat by lia.
    now rewrite firstn_O, app_nil_r.
  - now rewrite firstn_all2 by (rewrite length_app; simpl; lia).
Qed.

(** Results older than the last five do not matter. *)
Lemma trailing_window_app (past recent : list Detection) :
  5 <= Py.len recent -> trailing_window (past ++ recent) = trailing_window recent.
Proof.
  unfold trailing_window, Py.len. intros H. rewrite length_app, skipn_app.
  replace (List.length past + List.length recent - 5 - List.length past)%nat
    with (List.length recent - 5)%nat by lia.
  rewrite skipn_all2 by lia. reflexivity.
Qed.

Lemma occurrences_tl (letter : string) (h : list Detection) :
  occurrences letter h - 1 <= occurrences letter (tl h).
Proof.
  destruct h as [| d h]; [rewrite occurrences_nil; simpl; rewrite occurrences_nil; lia |].
  rewrite occurrences_cons. simpl tl. destruct (String.eqb (fst d) letter); lia.
Qed.

Lemma occurrences_skipn (letter : string) (n : nat) (h : list Detection) :
  occurrences letter (skipn n h) <= occurrences letter h.
Proof.
  revert h. induction n as [| n IH]; intros [| d h]; simpl; try lia.
  rewrite occurrences_cons. specialize (IH h).
  destruct (String.eqb (fst d) letter); lia.
Qed.

End WindowDynamics.

(** C9, as stated, fails for [detect_asl_letter].  One detector, one
    configuration, one frame: the fourth call returns "undetermined" and
    the fifth call returns the letter B with confidence 0.8.  The
    returned value depends on the history the detector keeps between
    calls. *)
Lemma C9_counterexample :
  let self3 := with_history ASLLetterDetector_init (repeat ("B", 0.8%float) 3) in
  let self4 := with_history ASLLetterDetector_init (repeat ("B", 0.8%float) 4) in
  let self5 := with_history ASLLetterDetector_init (repeat ("B", 0.8%float) 5) in
  detect_sequence (cv := SceneCV) ASLLetterDetector_init (repeat open_hand_frame 3)
  = Return (self3, [(None, 0%float); (None, 0%float); (None, 0%float)])
  /\ detect_asl_letter (cv := SceneCV) self3 open_hand_frame
     = Return (self4, (None, 0%float))
  /\ detect_asl_letter (cv := SceneCV) self4 open_hand_frame
     = Return (self5, (Some "B", 0.8%float))
  /\ finger_detector self4 = finger_detector self3
  /\ stable_frames self4 = stable_frames self3.
Proof. repeat split; vm_compute; reflexivity. Qed.

(** C9, amended.  Repeated calls settle.  Take a detector with
    [stable_frames = 5] whose history holds at most five entries,
    whatever they are, and a frame whose per-frame classification is
    [d].  Any number of consecutive calls of [detect_asl_letter] on that
    frame return; they leave the finger detector and [stable_frames]
    untouched, so the per-frame classification of the frame is still
    [d]; from the fifth call on, every call returns the letter and the
    confidence of [d], and the history is five copies of [d].  The
    earlier calls depend on the history: with an empty history, each of
    the first four calls returns "undetermined". *)
Theorem C9_repeated_calls_settle :
  forall (cv : OpenCV) (self : ASLLetterDetector) (image : Image) (d : Detection)
         (m : nat),
    stable_frames self = 5 ->
    Py.len (detection_history self) <= 5 ->
    frame_detection self image = Return d ->
    exists self' stables,
      detect_sequence self (repeat image m) = Return (self', stables)
      /\ List.length stables = m
      /\ finger_detector self' = finger_detector self
      /\ stable_frames self' = 5
      /\ frame_detection self' image = Return d
      /\ (forall k, (4 <= k < m)%nat ->
                    nth k stables (None, 0%float) = (Some (fst d), snd d))
      /\ ((5 <= m)%nat -> detection_history self' = repeat d 5)
      /\ (detection_history self = [] ->
          forall k, (k < 4)%nat -> (k < m)%nat ->
                    nth k stables (Some (fst d), snd d) = (None, 0%float)).
Proof.
  intros cv self image d m Hsf Hlen Hd.
  assert (Hmean : window_mean (repeat d 5) = snd d).
  { apply rule_confidence_mean. exact (frame_detection_confidence _ _ _ Hd). }
  assert (Hh : detection_history self = trailing_window (detection_history self)).
  { unfold trailing_window, Py.len in *.
    replace (List.length (detection_history self) - 5)%nat with 0%nat by lia.
    reflexivity. }
  assert (Hrun : detect_sequence self (repeat image m) = record_sequence self (repeat d m)).
  { apply detect_sequence_record. clear -Hd.
    induction m; simpl; constructor; assumption. }
  rewrite Hrun, (record_sequence_spec (repeat d m) self (detection_history self) Hsf Hh).
  set (pushed := detection_history self) in *.
  assert (Hnth : forall k default,
             (k < m)%nat ->
             nth k (stable_outputs pushed (repeat d m)) default
             = stable_of_window (trailing_window (pushed ++ repeat d (S k)))).
  { intros k default Hk. unfold stable_outputs. rewrite repeat_length.
    rewrite (nth_indep _ default
               ((fun k => stable_of_window
                            (trailing_window (pushed ++ firstn (S k) (repeat d m))))
                  0%nat))
      by (rewrite length_map, length_seq; exact Hk).
    rewrite (map_nth (fun k => stable_of_window
                                 (trailing_window (pushed ++ firstn (S k) (repeat d m))))).
    rewrite seq_nth by exact Hk. cbn [Nat.add].
    rewrite firstn_repeat. replace (Nat.min (S k) m) with (S k) by lia. reflexivity. }
  eexists. eexists. split; [reflexivity |].
  split; [unfold stable_outputs; now rewrite length_map, length_seq, repeat_length |].
  split; [reflexivity |]. split; [exact Hsf |].
  split; [rewrite <- Hd; now apply frame_detection_indep |].
  split; [| split].
  - intros k [Hk4 Hkm]. rewrite (Hnth k _ Hkm).
    rewrite trailing_window_app by (unfold Py.len; rewrite repeat_length; lia).
    rewrite (stable_of_window_repeat d (S k) Hmean).
    destruct (Nat.ltb_spec (S k) 5); [lia | reflexivity].
  - intros Hm. cbn [with_history detection_history].
    rewrite trailing_window_app by (unfold Py.len; rewrite repeat_length; lia).
    rewrite trailing_window_repeat. f_equal. lia.
  - intros Hempty k Hk4 Hkm. rewrite (Hnth k _ Hkm).
    rewrite Hempty. cbn [app].
    rewrite (stable_of_window_repeat d (S k) Hmean).
    destruct (Nat.ltb_spec (S k) 5); [reflexivity | lia].
Qed.

Lemma C9_repeated_calls_settle_witness :
  let self := with_history ASLLetterDetector_init [("C", 0.6%float); ("E", 0.7%float)] in
  let d := ("B", 0.8%float) in
  exists self' stables,
    detect_sequence (cv := SceneCV) self (repeat open_hand_frame 6)
    = Return (self', stables)
    /\ List.length stables = 6%nat
    /\ finger_detector self' = finger_detector self
    /\ stable_frames self' = 5
    /\ frame_detection (cv := SceneCV) self' open_hand_frame = Return d
    /\ (forall k, (4 <= k < 6)%nat ->
                  nth k stables (None, 0%float) = (Some (fst d), snd d))
    /\ ((5 <= 6)%nat -> detection_history self' = repeat d 5)
    /\ (detection_history self = [] ->
        forall k, (k < 4)%nat -> (k < 6)%nat ->
                  nth k stables (Some (fst d), snd d) = (None, 0%float)).
Proof.
  apply (C9_repeated_calls_settle SceneCV
           (with_history ASLLetterDetector_init [("C", 0.6%float); ("E", 0.7%float)])
           open_hand_frame ("B", 0.8%float) 6%nat).
  - reflexivity.
  - vm_compute. discriminate.
  - vm_compute. reflexivity.
Defined.

(** X1.  The stability window forgets: two fresh detectors fed different
    pasts and then the same five or more per-frame results return the
    same value and hold the same history, both read off the last five
    results. *)
Theorem window_forgets_past :
  forall (past1 past2 recent : list Detection) (d : Detection),
    4 <= Py.len recent ->
    exists self1 earlier1 self2 earlier2 stable,
      record_sequence ASLLetterDetector_init (past1 ++ recent ++ [d])
      = Return (self1, earlier1 ++ [stable])
      /\ record_sequence ASLLetterDetector_init (past2 ++ recent ++ [d])
         = Return (self2, earlier2 ++ [stable])
      /\ detection_history self1 = trailing_window (recent ++ [d])
      /\ detection_history self2 = trailing_window (recent ++ [d])
      /\ stable = stable_of_window (trailing_window (recent ++ [d])).
Proof.
  intros past1 past2 recent d Hlen.
  assert (H5 : 5 <= Py.len (recent ++ [d])).
  { unfold Py.len in *. rewrite length_app. cbn [List.length]. length_lia. }
  pose proof (record_sequence_last (past1 ++ recent) d) as R1.
  pose proof (record_sequence_last (past2 ++ recent) d) as R2.
  rewrite <- !app_assoc in R1, R2.
  rewrite (trailing_window_app past1 _ H5) in R1.
  rewrite (trailing_window_app past2 _ H5) in R2.
  do 5 eexists. split; [exact R1 |]. split; [exact R2 |].
  repeat split; reflexivity.
Qed.

Lemma window_forgets_past_witness :
  exists self1 earlier1 self2 earlier2 stable,
    record_sequence ASLLetterDetector_init
      ([("A", 0.7%float)] ++ repeat ("B", 0.8%float) 4 ++ [("C", 0.6%float)])
    = Return (self1, earlier1 ++ [stable])
    /\ record_sequence ASLLetterDetector_init
         ([] ++ repeat ("B", 0.8%float) 4 ++ [("C", 0.6%float)])
       = Return (self2, earlier2 ++ [stable])
    /\ detection_history self1
       = trailing_window (repeat ("B", 0.8%float) 4 ++ [("C", 0.6%float)])
    /\ detection_history self2
       = trailing_window (repeat ("B", 0.8%float) 4 ++ [("C", 0.6%float)])
    /\ stable = stable_of_window
                  (trailing_window (repeat ("B", 0.8%float) 4 ++ [("C", 0.6%float)])).
Proof.
  apply (window_forgets_past [("A", 0.7%float)] [] (repeat ("B", 0.8%float) 4)
                             ("C", 0.6%float)).
  vm_compute. discriminate.
Defined.

(** X2.  Debouncing: once a letter holds at least 4 of the 5 entries of
    the window, the next per-frame result, whatever it is, leaves that
    letter stable. *)
Theorem one_outlier_keeps_letter :
  forall (pushed : list Detection) (detection : Detection) (letter : string),
    5 <= Py.len pushed ->
    4 <= occurrences letter (trailing_window pushed) ->
    exists self' earlier,
      record_sequence ASLLetterDetector_init (pushed ++ [detection])
      = Return (self', earlier ++ [(Some letter,
                                    window_mean (trailing_window (pushed ++ [detection])))]).
Proof.
  intros pushed detection letter H5 H4.
  rewrite record_sequence_last. do 2 eexists. f_equal. f_equal. f_equal. f_equal.
  apply stable_of_window_accept.
  - rewrite trailing_window_len. unfold Py.len in *. rewrite length_app. cbn [List.length]. length_lia.
  - rewrite trailing_window_snoc. cbv zeta.
    assert (Hw : Py.len (trailing_window pushed ++ [detection]) = 6).
    { unfold Py.len. rewrite length_app. cbn [List.length].
      pose proof (trailing_window_len pushed) as Hl. unfold Py.len in *. length_lia. }
    rewrite Hw. change (5 <? 6) with true. cbv iota.
    pose proof (occurrences_tl letter (trailing_window pushed ++ [detection])) as Ht.
    rewrite occurrences_app in Ht.
    pose proof (occurrences_nonneg letter [detection]). lia.
Qed.

Lemma one_outlier_keeps_letter_witness :
  exists self' earlier,
    record_sequence ASLLetterDetector_init
      ([("B", 0.8%float); ("C", 0.7%float); ("B", 0.8%float); ("B", 0.8%float);
        ("B", 0.8%float)] ++ [("E", 0.7%float)])
    = Return (self', earlier ++ [(Some "B",
                window_mean (trailing_window
                  ([("B", 0.8%float); ("C", 0.7%float); ("B", 0.8%float); ("B", 0.8%float);
                    ("B", 0.8%float)] ++ [("E", 0.7%float)])))]).
Proof.
  apply (one_outlier_keeps_letter
           [("B", 0.8%float); ("C", 0.7%float); ("B", 0.8%float); ("B", 0.8%float);
            ("B", 0.8%float)] ("E", 0.7%float) "B").
  - vm_compute. discriminate.
  - vm_compute. discriminate.
Defined.

(** X3.  Switching latency: once at least two results have been pushed,
    three consecutive per-frame results with one letter make that letter
    stable, whatever the window held before. *)
Theorem three_in_a_row_is_stable :
  forall (pushed : list Detection) (letter : string) (c1 c2 c3 : float),
    2 <= Py.len pushed ->
    exists self' earlier,
      record_sequence ASLLetterDetector_init
        (pushed ++ [(letter, c1); (letter, c2); (letter, c3)])
      = Return (self',
                earlier ++ [(Some letter,
                             window_mean (trailing_window
                               (pushed ++ [(letter, c1); (letter, c2); (letter, c3)])))]).
Proof.
  intros pushed letter c1 c2 c3 H2.
  replace (pushed ++ [(letter, c1); (letter, c2); (letter, c3)])
    with ((pushed ++ [(letter, c1); (letter, c2)]) ++ [(letter, c3)])
    by (rewrite <- app_assoc; reflexivity).
  rewrite record_sequence_last. do 2 eexists. f_equal. f_equal. f_equal. f_equal.
  set (all := (pushed ++ [(letter, c1); (letter, c2)]) ++ [(letter, c3)]).
  assert (Hlen : List.length all = (List.length pushed + 3)%nat).
  { unfold all. rewrite !length_app. cbn [List.length]. lia. }
  apply stable_of_window_accept.
  - rewrite trailing_window_len. unfold Py.len in *. length_lia.
  - unfold trailing_window.
    assert (Hall : all = firstn (List.length all - 5) all ++ skipn (List.length all - 5) all)
      by (symmetry; apply firstn_skipn).
    assert (Hocc : occurrences letter all
                   = occurrences letter pushed + 3).
    { unfold all. rewrite !occurrences_app, !occurrences_cons, occurrences_nil.
      cbn [fst]. rewrite String.eqb_refl. lia. }
    assert (Hfirst : occurrences letter (firstn (List.length all - 5) all)
                     <= occurrences letter pushed).
    { unfold all at 2.
      rewrite <- app_assoc, firstn_app.
      replace (List.length all - 5 - List.length pushed)%nat with 0%nat
        by (unfold Py.len in H2; lia).
      rewrite firstn_O, app_nil_r.
      rewrite <- (firstn_skipn (List.length all - 5) pushed) at 2.
      rewrite occurrences_app.
      pose proof (occurrences_nonneg letter (skipn (List.length all - 5) pushed)). lia. }
    rewrite Hall, occurrences_app in Hocc. lia.
Qed.

Lemma three_in_a_row_is_stable_witness :
  exists self' earlier,
    record_sequence ASLLetterDetector_init
      ([("B", 0.8%float); ("B", 0.8%float)] ++ [("C", 0.6%float); ("C", 0.7%float); ("C", 0.6%float)])
    = Return (self',
              earlier ++ [(Some "C",
                           window_mean (trailing_window
                             ([("B", 0.8%float); ("B", 0.8%float)]
                                ++ [("C", 0.6%float); ("C", 0.7%float); ("C", 0.6%float)])))]).
Proof.
  apply (three_in_a_row_is_stable [("B", 0.8%float); ("B", 0.8%float)] "C" 0.6 0.7 0.6).
  vm_compute. discriminate.
Defined.

Section StableDetectionGeneral.

(** On a non-empty history the search for the most common letter
    succeeds, and any letter returned occurs in the history. *)
Lemma get_stable_returns (self : ASLLetterDetector) :
  detection_history self <> [] ->
  exists stable,
    _get_stable_detection self = Return stable
    /\ (forall letter confidence,
           stable = (Some letter, confidence) ->
           In letter (map fst (detection_history self))).
Proof.
  intros Hne. unfold _get_stable_detection.
  destruct (Py.len (detection_history self) <? stable_frames self).
  { eexists. split; [reflexivity |]. intros letter confidence E. discriminate E. }
  set (h := detection_history self) in *.
  destruct (tally_spec h) as (_ & _ & _ & Hkeys).
  destruct (dict_max_spec (fst (tally h)) (tally_nonempty h Hne)) as ([k v] & Hmax & Hin & _).
  destruct (tally h) as [letter_counts total]. cbn [fst snd] in *.
  rewrite Hmax. cbn [Py.bind].
  assert (Hk : In k (map fst h)).
  { apply Hkeys. change k with (fst (k, v)). now apply in_map. }
  destruct (Z2F (stable_frames self) * 0.6 <=? Z2F v)%float.
  - eexists. split; [reflexivity |]. intros letter confidence E. inversion E; subst. exact Hk.
  - eexists. split; [reflexivity |]. intros letter confidence E. discriminate E.
Qed.

End StableDetectionGeneral.

(** X4.  Pushing a result, for any setting of [stable_frames].  With
    [stable_frames >= 1] the push returns: the new result is the last
    entry of the history, a history within [stable_frames] entries stays
    within it, and a letter reported as stable occurs in the history.
    With [stable_frames <= 0] and an empty history the push raises
    [ValueError]: the history is emptied again and [max] is applied to
    an empty dict. *)
Theorem push_for_any_stable_frames :
  forall (self : ASLLetterDetector) (d : Detection),
    (1 <= stable_frames self ->
     exists older stable,
       record_detection self d = Return (with_history self (older ++ [d]), stable)
       /\ (Py.len (detection_history self) <= stable_frames self ->
           Py.len (older ++ [d]) <= stable_frames self)
       /\ (forall letter confidence,
              stable = (Some letter, confidence) -> In letter (map fst (older ++ [d]))))
    /\ (stable_frames self <= 0 -> detection_history self = [] ->
        record_detection self d = Raise ValueError).
Proof.
  intros self d. split.
  - intros Hn. unfold record_detection.
    set (h := detection_history self).
    assert (Hshape : exists older,
               (if stable_frames self <? Py.len (h ++ [d]) then tl (h ++ [d]) else h ++ [d])
               = older ++ [d]
               /\ (Py.len h <= stable_frames self -> Py.len (older ++ [d]) <= stable_frames self)).
    { destruct (Z.ltb_spec (stable_frames self) (Py.len (h ++ [d]))) as [Hpop | Hkeep].
      - destruct h as [| x h'].
        + exfalso. unfold Py.len in Hpop. simpl in Hpop. lia.
        + exists h'. split; [reflexivity |].
          unfold Py.len in *. rewrite !length_app in *. cbn [List.length] in *. length_lia.
      - exists h. split; [reflexivity |]. intros _. exact Hkeep. }
    destruct Hshape as (older & -> & Hbound).
    destruct (get_stable_returns (with_history self (older ++ [d]))) as (stable & Hs & Hin).
    { cbn. destruct older; discriminate. }
    rewrite Hs. cbn [Py.bind]. exists older, stable.
    split; [reflexivity |]. split; [exact Hbound | exact Hin].
  - intros Hn Hempty. unfold record_detection. rewrite Hempty. cbn [app].
    assert (Hpop : (stable_frames self <? Py.len [d]) = true).
    { apply Z.ltb_lt. unfold Py.len. simpl. lia. }
    rewrite Hpop. cbn [tl]. unfold _get_stable_detection. cbn [with_history detection_history stable_frames].
    assert (Hfull : (Py.len (@nil Detection) <? stable_frames self) = false).
    { apply Z.ltb_ge. unfold Py.len. simpl. lia. }
    rewrite Hfull. reflexivity.
Qed.

(* ================================================================== *)
(** * Further properties: the finger detector *)
(* ================================================================== *)

Section FloatOrderMore.

Lemma SFltb_SFleb (a b : spec_float) : SFltb a b = true -> SFleb a b = true.
Proof.
  unfold SFltb, SFleb. destruct (SFcompare a b) as [[| |] |]; congruence.
Qed.

Lemma ltb_leb (x y : float) : (x <? y)%float = true -> (x <=? y)%float = true.
Proof. rewrite FloatAxioms.ltb_spec, FloatAxioms.leb_spec. apply SFltb_SFleb. Qed.

Lemma SFleb_SFltb_trans (a b c : spec_float) :
  SFleb a b = true -> SFltb b c = true -> SFltb a c = true.
Proof.
  unfold SFleb, SFltb, SFcompare.
  destruct a as [sa | sa | | sa ma ea], b as [sb | sb | | sb mb eb],
           c as [sc | sc | | sc mc ec];
    try discriminate; try reflexivity;
    try (destruct sa; try discriminate; try reflexivity;
         destruct sb; try discriminate; try reflexivity;
         destruct sc; discriminate || reflexivity);
    try (destruct sa, sb; try discriminate; try reflexivity; fail);
    try (destruct sa, sc; try discriminate; try reflexivity; fail);
    try (destruct sb, sc; try discriminate; try reflexivity; fail);
    try (destruct sa, sb, sc; try discriminate; try reflexivity; fail).
  all: destruct sa, sb, sc; try discriminate; try reflexivity;
    change (PosDef.Pos.compare_cont Eq) with Pos.compare;
    destruct (Z.compare_spec ea eb), (Z.compare_spec eb ec), (Z.compare_spec ea ec);
    try lia; try discriminate; try reflexivity; subst;
    destruct (Pos.compare_spec ma mb), (Pos.compare_spec mb mc), (Pos.compare_spec ma mc);
    try lia; try discriminate; try reflexivity; simpl; intros; try discriminate;
    try congruence.
Qed.

Lemma leb_ltb_trans (x y z : float) :
  (x <=? y)%float = true -> (y <? z)%float = true -> (x <? z)%float = true.
Proof.
  rewrite !FloatAxioms.ltb_spec, FloatAxioms.leb_spec. apply SFleb_SFltb_trans.
Qed.

(** The scan of [max] ends on an element of the list whose key bounds
    every key, when all keys are comparable. *)
Lemma max_by_scan_spec {A : Type} (key : A -> float) (l : list A) :
  forall best,
    (key best <=? key best)%float = true ->
    Forall (fun x => (key x <=? key x)%float = true) l ->
    let r := Py.max_by_scan key best l in
    In r (best :: l)
    /\ (key best <=? key r)%float = true
    /\ Forall (fun x => (key x <=? key r)%float = true) l.
Proof.
  induction l as [| x l IH]; intros best Hb Hl; simpl.
  - split; [now left | split; [exact Hb | constructor]].
  - inversion Hl as [| ? ? Hx Hl']; subst.
    destruct (key best <? key x)%float eqn:E.
    + destruct (IH x Hx Hl') as (Hin & Hle & Hall).
      split; [destruct Hin as [<- | Hin]; auto |].
      split; [exact (leb_trans _ _ _ (ltb_leb _ _ E) Hle) |].
      constructor; assumption.
    + destruct (IH best Hb Hl') as (Hin & Hle & Hall).
      split; [destruct Hin as [<- | Hin]; auto |].
      split; [exact Hle |].
      constructor; [| exact Hall].
      exact (leb_trans _ _ _ (not_ltb_leb _ _ Hx Hb E) Hle).
Qed.

End FloatOrderMore.

(** X5.  The contour handed to the hull analysis is a largest one.  When
    the areas OpenCV reports are comparable (none is a NaN): the contour
    analysed by [detect_fingers] is one of the contours of the skin mask,
    no contour has a larger area, and its area is not below
    [min_contour_area]; when no contour is analysed, every contour of the
    mask has an area below [min_contour_area]. *)
Theorem hand_contour_is_largest :
  forall (cv : OpenCV) (self : FingerDetector) (image : Image),
    Forall (fun c => (contourArea c <=? contourArea c)%float = true)
           (skin_contours 3 image) ->
    (forall contour,
        hand_contour self image = Some contour ->
        In contour (skin_contours 3 image)
        /\ Forall (fun c => (contourArea c <=? contourArea contour)%float = true)
                  (skin_contours 3 image)
        /\ (contourArea contour <? Z2F (min_contour_area self))%float = false)
    /\ (hand_contour self image = None ->
        Forall (fun c => (contourArea c <? Z2F (min_contour_area self))%float = true)
               (skin_contours 3 image)).
Proof.
  intros cv self image Hcmp. unfold hand_contour.
  destruct (skin_contours 3 image) as [| first rest]; [split; [discriminate | constructor] |].
  inversion Hcmp as [| ? ? Hfirst Hrest]; subst.
  destruct (max_by_scan_spec contourArea rest first Hfirst Hrest) as (Hin & Hle & Hall).
  cbv zeta.
  set (largest := Py.max_by_scan contourArea first rest) in *.
  destruct (contourArea largest <? Z2F (min_contour_area self))%float eqn:E; split.
  - discriminate.
  - intros _. constructor.
    + exact (leb_ltb_trans _ _ _ Hle E).
    + eapply Forall_impl; [| exact Hall]. intros c Hc. cbv beta in *.
      exact (leb_ltb_trans _ _ _ Hc E).
  - intros contour H. inversion H; subst contour.
    split; [exact Hin |]. split; [constructor; assumption | exact E].
  - discriminate.
Qed.

Lemma hand_contour_is_largest_witness :
  (forall contour,
      hand_contour (cv := SceneCV) FingerDetector_init open_hand_frame = Some contour ->
      In contour (skin_contours (cv := SceneCV) 3 open_hand_frame)
      /\ Forall (fun c => (contourArea (OpenCV := SceneCV) c
                           <=? contourArea (OpenCV := SceneCV) contour)%float = true)
                (skin_contours (cv := SceneCV) 3 open_hand_frame)
      /\ (contourArea (OpenCV := SceneCV) contour
          <? Z2F (min_contour_area FingerDetector_init))%float = false)
  /\ (hand_contour (cv := SceneCV) FingerDetector_init open_hand_frame = None ->
      Forall (fun c => (contourArea (OpenCV := SceneCV) c
                        <? Z2F (min_contour_area FingerDetector_init))%float = true)
             (skin_contours (cv := SceneCV) 3 open_hand_frame)).
Proof.
  apply (hand_contour_is_largest SceneCV FingerDetector_init open_hand_frame).
  repeat constructor.
Defined.

Section TipSelection.

Lemma skipn_In {A : Type} (n : nat) (l : list A) (x : A) :
  In x (skipn n l) -> In x l.
Proof.
  revert l. induction n as [| n IH]; intros [| a l]; simpl; try tauto.
  intros H. right. now apply IH.
Qed.

Lemma firstn_skipn_sorted {A : Type} (R : A -> A -> Prop) (n : nat) (l : list A) :
  StronglySorted R l ->
  forall a b, In a (firstn n l) -> In b (skipn n l) -> R a b.
Proof.
  revert l. induction n as [| n IH]; intros [| x l] Hs a b Ha Hb; simpl in *;
    try contradiction.
  inversion Hs as [| ? ? Hl Hx]; subst.
  destruct Ha as [<- | Ha].
  - rewrite Forall_forall in Hx. apply Hx. exact (skipn_In _ _ _ Hb).
  - now apply (IH l).
Qed.

End TipSelection.

(** X6.  No tip is lost below the cap.  For a contour with a computable
    centre, [_find_finger_tips] returns as many tips as hull vertices
    pass its test, capped at 5; when at most 5 pass, the tips are exactly
    the normalised forms of those vertices, rearranged.  [detect_fingers]
    then reports a detection exactly when at least 3 hull vertices pass
    the test. *)
Theorem tips_are_qualifying_vertices :
  forall (cv : OpenCV) (self : FingerDetector) (image : Image) (contour : Contour)
         (center_x center_y : Z),
    hand_contour self image = Some contour ->
    (m00 (moments contour) =? 0)%float = false ->
    Py.int (m10 (moments contour) / m00 (moments contour))%float = Return center_x ->
    Py.int (m01 (moments contour) / m00 (moments contour))%float = Return center_y ->
    let qualifying := filter (is_finger_tip center_x center_y) (convexHull contour) in
    exists tips,
      _find_finger_tips contour (shape image) = Return tips
      /\ Py.len tips = Z.min 5 (Py.len qualifying)
      /\ (Py.len qualifying <= 5 ->
          Permutation tips (map (normalized (shape image)) qualifying))
      /\ detect_fingers self image
         = Return (if 3 <=? Py.len qualifying then (true, Some tips) else (false, None)).
Proof.
  intros cv self image contour cx cy Hc Hm Hx Hy qualifying.
  set (sorted := Py.sort_by px (map (normalized (shape image)) qualifying)).
  assert (Hret : _find_finger_tips contour (shape image) = Return (firstn 5 sorted)).
  { unfold _find_finger_tips. rewrite Hm, Hx, Hy. cbn [Py.bind]. now rewrite tips_loop. }
  assert (Hlen : List.length sorted = List.length qualifying).
  { unfold sorted.
    rewrite (Permutation_length (sort_by_perm px _)). apply length_map. }
  assert (Htips : Py.len (firstn 5 sorted) = Z.min 5 (Py.len qualifying)).
  { unfold Py.len. rewrite length_firstn, Hlen. length_lia. }
  exists (firstn 5 sorted). split; [exact Hret |]. split; [exact Htips |]. split.
  - intros Hle. rewrite firstn_all2; [apply sort_by_perm |].
    unfold Py.len in Hle. rewrite Hlen. length_lia.
  - rewrite detect_fingers_unfold, Hc, Hret. cbn [Py.bind]. rewrite Htips.
    destruct (Z.leb_spec 3 (Py.len qualifying)) as [H3 | H3].
    + destruct (Z.leb_spec 3 (Z.min 5 (Py.len qualifying))); [reflexivity | lia].
    + destruct (Z.leb_spec 3 (Z.min 5 (Py.len qualifying))); [lia | reflexivity].
Qed.

Lemma tips_are_qualifying_vertices_witness :
  let qualifying := filter (is_finger_tip 320 300) spread_hull in
  exists tips,
    _find_finger_tips (cv := SceneCV) open_hand_contour (480, 640) = Return tips
    /\ Py.len tips = Z.min 5 (Py.len qualifying)
    /\ (Py.len qualifying <= 5 ->
        Permutation tips (map (normalized (480, 640)) qualifying))
    /\ detect_fingers (cv := SceneCV) FingerDetector_init open_hand_frame
       = Return (if 3 <=? Py.len qualifying then (true, Some tips) else (false, None)).
Proof.
  apply (tips_are_qualifying_vertices SceneCV FingerDetector_init open_hand_frame
           open_hand_contour 320 300); vm_compute; reflexivity.
Defined.

(** X7.  Above the cap the leftmost tips are kept.  For hull vertices
    inside the frame, the tips returned by [_find_finger_tips] together
    with the candidates it drops are a rearrangement of all the
    normalised vertices that pass the test, and no dropped candidate
    lies left of a returned tip. *)
Theorem leftmost_tips_are_kept :
  forall (cv : OpenCV) (contour : Contour) (rows columns center_x center_y : Z),
    0 < rows < 2 ^ 53 -> 0 < columns < 2 ^ 53 ->
    (forall x y, In (x, y) (convexHull contour) -> 0 <= x <= columns /\ 0 <= y <= rows) ->
    (m00 (moments contour) =? 0)%float = false ->
    Py.int (m10 (moments contour) / m00 (moments contour))%float = Return center_x ->
    Py.int (m01 (moments contour) / m00 (moments contour))%float = Return center_y ->
    exists tips dropped,
      _find_finger_tips contour (rows, columns) = Return tips
      /\ Permutation (tips ++ dropped)
                     (map (normalized (rows, columns))
                          (filter (is_finger_tip center_x center_y) (convexHull contour)))
      /\ (forall tip candidate,
             In tip tips -> In candidate dropped ->
             (px tip <=? px candidate)%float = true).
Proof.
  intros cv contour rows columns cx cy Hrows Hcolumns Hframe Hm Hx Hy.
  change (2 ^ 53) with 9007199254740992 in Hrows, Hcolumns.
  set (candidates := map (normalized (rows, columns))
                         (filter (is_finger_tip cx cy) (convexHull contour))).
  set (sorted := Py.sort_by px candidates).
  exists (firstn 5 sorted), (skipn 5 sorted).
  split; [| split].
  - unfold _find_finger_tips. rewrite Hm, Hx, Hy. cbn [Py.bind]. now rewrite tips_loop.
  - rewrite firstn_skipn. apply sort_by_perm.
  - assert (Hcmp : Forall (fun p => key_le px p p) sorted).
    { apply Forall_forall. intros p Hp.
      apply (Permutation_in _ (sort_by_perm px candidates)) in Hp.
      unfold candidates in Hp. apply in_map_iff in Hp. destruct Hp as ([x y] & <- & Hin).
      apply filter_In in Hin. destruct Hin as [Hin _].
      destruct (Hframe x y Hin) as [Hx' _]. unfold key_le.
      apply (within_comparable 0 1). cbn. now apply unit_quotient. }
    assert (Hs : StronglySorted (key_le px) sorted).
    { apply Sorted_StronglySorted.
      - intros a b c. unfold key_le. apply leb_trans.
      - apply sorted_comparable; [exact Hcmp | apply sort_by_sorted]. }
    intros tip candidate Ht Hd.
    exact (firstn_skipn_sorted (key_le px) 5 sorted Hs tip candidate Ht Hd).
Qed.

Lemma leftmost_tips_are_kept_witness :
  exists tips dropped,
    _find_finger_tips (cv := SceneCV) crowded_contour (480, 640) = Return tips
    /\ Permutation (tips ++ dropped)
                   (map (normalized (480, 640))
                        (filter (is_finger_tip 320 300) crowded_hull))
    /\ (forall tip candidate,
           In tip tips -> In candidate dropped ->
           (px tip <=? px candidate)%float = true).
Proof.
  apply (leftmost_tips_are_kept SceneCV crowded_contour 480 640 320 300);
    try (vm_compute; reflexivity); try lia.
  intros x y H. simpl in H.
  repeat (destruct H as [H | H]; [inversion H; subst; lia |]). contradiction.
Defined.

(* ================================================================== *)
(** * Properties: drawing the finger tips *)
(* ================================================================== *)

Section PixelRoundTrip.

(** Columns of a 640-pixel-wide frame survive the division by 640 and
    the multiplication by 640. *)
Lemma column_round_trip (x : Z) :
  0 <= x <= 640 -> Py.int (Z2F x / Z2F 640 * Z2F 640)%float = Return x.
Proof.
  intros Hx.
  set (f := fun x => match Py.int (Z2F x / Z2F 640 * Z2F 640)%float with
                     | Return x' => x' =? x
                     | Raise _ => false
                     end).
  assert (H : f x = true).
  { apply (forallb_range f 641); [vm_compute; reflexivity | lia]. }
  unfold f in H.
  destruct (Py.int (Z2F x / Z2F 640 * Z2F 640)%float); [| discriminate].
  apply Z.eqb_eq in H. now subst.
Qed.

(** Rows of a 480-pixel-high frame survive up to the four rows that
    round down. *)
Lemma row_round_trip (y : Z) :
  0 <= y <= 480 ->
  Py.int (Z2F y / Z2F 480 * Z2F 480)%float
  = Return (if rounds_down y then y - 1 else y).
Proof.
  intros Hy.
  set (f := fun y => match Py.int (Z2F y / Z2F 480 * Z2F 480)%float with
                     | Return y' => y' =? (if rounds_down y then y - 1 else y)
                     | Raise _ => false
                     end).
  assert (H : f y = true).
  { apply (forallb_range f 481); [vm_compute; reflexivity | lia]. }
  unfold f in H.
  destruct (Py.int (Z2F y / Z2F 480 * Z2F 480)%float); [| discriminate].
  apply Z.eqb_eq in H. now subst.
Qed.

Lemma pixel_round_trip (x y : Z) :
  0 <= x <= 640 -> 0 <= y <= 480 ->
  pixel (480, 640) (normalized (480, 640) (x, y)) = Return (drawn_at (x, y)).
Proof.
  intros Hx Hy. unfold pixel, normalized, px, py, drawn_at. cbn [fst snd].
  rewrite (column_round_trip x Hx). cbn [Py.bind].
  rewrite (row_round_trip y Hy). reflexivity.
Qed.

Lemma draw_fingers_from_vertices {C : Type} (vertices : list (Z * Z)) :
  Forall (fun v => 0 <= fst v <= 640 /\ 0 <= snd v <= 480) vertices ->
  forall i,
  exists ops : list (DrawOp C),
    draw_fingers_from (480, 640) i (map (normalized (480, 640)) vertices) = Return ops
    /\ circle_centers ops = map drawn_at vertices
    /\ Py.len ops = 2 * Py.len vertices.
Proof.
  induction 1 as [| [x y] vertices [Hx Hy] _ IH]; intros i.
  - exists []. repeat split.
  - destruct (IH (i + 1)) as (ops & Hops & Hc & Hl).
    cbn [map draw_fingers_from]. cbn [fst snd] in Hx, Hy.
    rewrite (pixel_round_trip x y Hx Hy). cbn [Py.bind]. unfold drawn_at at 1.
    cbn [fst snd]. rewrite Hops. cbn [Py.bind].
    eexists. split; [reflexivity |]. split.
    + cbn [circle_centers flat_map app]. fold (circle_centers ops). now rewrite Hc.
    + unfold Py.len in *. cbn [List.length]. lia.
Qed.

End PixelRoundTrip.

(** X8.  The circles of [draw_fingers] sit on hull vertices.  In a
    640x480 frame whose hand contour has its hull inside the frame, the
    tips reported by [detect_fingers] are the frame-relative forms of
    hull vertices, [draw_fingers] returns on them, and it draws one
    circle and one label per tip; each circle is centred on the column
    of its vertex and on its row, or one row above it for the rows 123,
    245, 246 and 247, where [y / 480 * 480] falls below [y] in
    binary64. *)
Theorem drawn_tips_sit_on_hull_vertices :
  forall (cv : OpenCV) (self : FingerDetector) (image : Image) (contour : Contour)
         (tips : list Point),
    shape image = (480, 640) ->
    hand_contour self image = Some contour ->
    (forall x y, In (x, y) (convexHull contour) -> 0 <= x <= 640 /\ 0 <= y <= 480) ->
    detect_fingers self image = Return (true, Some tips) ->
    exists vertices ops,
      tips = map (normalized (480, 640)) vertices
      /\ incl vertices (convexHull contour)
      /\ draw_fingers image (Some tips) = Return ops
      /\ circle_centers ops = map drawn_at vertices
      /\ Py.len ops = 2 * Py.len tips.
Proof.
  intros cv self image contour tips Hshape Hc Hframe Hd.
  rewrite detect_fingers_unfold, Hc, Hshape in Hd.
  destruct (_find_finger_tips contour (480, 640)) as [found |] eqn:Ef;
    cbn [Py.bind] in Hd; [| discriminate].
  destruct (Z.leb_spec 3 (Py.len found)) as [H3 | H3]; inversion Hd; subst found.
  apply find_finger_tips_inv in Ef.
  destruct Ef as [[_ ->] | (cx & cy & _ & _ & _ & Etips)]; [cbn in H3; lia |].
  set (q := filter (is_finger_tip cx cy) (convexHull contour)) in Etips.
  destruct (Permutation_map_inv _ _ (sort_by_perm px (map (normalized (480, 640)) q)))
    as (q' & Eq' & Hperm).
  rewrite Eq', firstn_map in Etips.
  set (vertices := firstn 5 q') in Etips.
  assert (Hincl : incl vertices (convexHull contour)).
  { intros v Hv. apply firstn_In in Hv.
    apply (Permutation_in _ (Permutation_sym Hperm)) in Hv.
    unfold q in Hv. apply filter_In in Hv. tauto. }
  assert (Hin : Forall (fun v => 0 <= fst v <= 640 /\ 0 <= snd v <= 480) vertices).
  { apply Forall_forall. intros [x y] Hv. apply Hframe, Hincl, Hv. }
  destruct (draw_fingers_from_vertices (C := Contour) vertices Hin 0)
    as (ops & Hops & Hcenters & Hlen).
  exists vertices, ops. split; [exact Etips |]. split; [exact Hincl |].
  rewrite Etips. split; [| split].
  - unfold draw_fingers. rewrite Hshape.
    destruct (map (normalized (480, 640)) vertices) eqn:Em; [| exact Hops].
    rewrite Etips in H3. cbn in H3. lia.
  - exact Hcenters.
  - rewrite Hlen. unfold Py.len. now rewrite length_map.
Qed.

Lemma drawn_tips_sit_on_hull_vertices_witness :
  exists vertices ops,
    open_hand_tips = map (normalized (480, 640)) vertices
    /\ incl vertices spread_hull
    /\ draw_fingers (cv := SceneCV) open_hand_frame (Some open_hand_tips) = Return ops
    /\ circle_centers ops = map drawn_at vertices
    /\ Py.len ops = 2 * Py.len open_hand_tips.
Proof.
  apply (drawn_tips_sit_on_hull_vertices SceneCV FingerDetector_init open_hand_frame
           open_hand_contour open_hand_tips); try (vm_compute; reflexivity).
  intros x y H. simpl in H.
  repeat (destruct H as [H | H]; [inversion H; subst; lia |]). contradiction.
Defined.

(* ================================================================== *)
(** * Properties: drawing the hand contour *)
(* ================================================================== *)

Section ContourDrawing.

Context {cv : OpenCV}.

Lemma ltb_irrefl (x : float) : (x <? x)%float = false.
Proof.
  destruct (x <? x)%float eqn:E; [| reflexivity].
  pose proof (ltb_asym x x E) as H. congruence.
Qed.

(** The contour search of [draw_hand_contour] is the one of
    [detect_fingers]. *)
Lemma draw_hand_contour_unfold (self : FingerDetector) (image : Image) :
  draw_hand_contour self image =
  match skin_contours 3 image with
  | [] => Return []
  | first :: rest =>
      let contour := Py.max_by_scan contourArea first rest in
      if (Z2F (min_contour_area self) <? contourArea contour)%float then
        let outlines :=
          [drawContours (inl contour) (0, 255, 0) 2;
           drawContours (inr (convexHull contour)) (255, 0, 0) 2] in
        if (m00 (moments contour) =? 0)%float then Return outlines
        else
          center_x <- Py.int (m10 (moments contour) / m00 (moments contour))%float ;;
          center_y <- Py.int (m01 (moments contour) / m00 (moments contour))%float ;;
          Return (outlines ++ [circle (center_x, center_y) 5 (0, 0, 255) (-1)])
      else Return []
  end.
Proof. reflexivity. Qed.

End ContourDrawing.

(** X9.  [FingerDetector.draw_hand_contour] draws only what
    [detect_fingers] analyses.  Whenever it draws anything, the contour
    it outlines is the one that passes the area test of
    [detect_fingers], its area is strictly above [min_contour_area], and
    the drawing starts with the contour in green and its convex hull in
    blue. *)
Theorem drawn_contour_is_analysed :
  forall (cv : OpenCV) (self : FingerDetector) (image : Image)
         (ops : list (DrawOp Contour)),
    draw_hand_contour self image = Return ops ->
    ops <> [] ->
    exists contour,
      hand_contour self image = Some contour
      /\ (Z2F (min_contour_area self) <? contourArea contour)%float = true
      /\ firstn 2 ops = [drawContours (inl contour) (0, 255, 0) 2;
                         drawContours (inr (convexHull contour)) (255, 0, 0) 2].
Proof.
  intros cv self image ops Hdraw Hops.
  rewrite draw_hand_contour_unfold in Hdraw. unfold hand_contour.
  destruct (skin_contours 3 image) as [| first rest].
  { inversion Hdraw. congruence. }
  cbv zeta in *. set (contour := Py.max_by_scan contourArea first rest) in *.
  destruct (Z2F (min_contour_area self) <? contourArea contour)%float eqn:Egt.
  2: { inversion Hdraw. congruence. }
  rewrite (ltb_asym _ _ Egt). exists contour. split; [reflexivity |].
  split; [exact Egt |].
  destruct (m00 (moments contour) =? 0)%float.
  - inversion Hdraw. reflexivity.
  - destruct (Py.int (m10 (moments contour) / m00 (moments contour))%float);
      cbn [Py.bind] in Hdraw; [| discriminate].
    destruct (Py.int (m01 (moments contour) / m00 (moments contour))%float);
      cbn [Py.bind] in Hdraw; [| discriminate].
    inversion Hdraw. reflexivity.
Qed.

Lemma drawn_contour_is_analysed_witness :
  exists contour,
    hand_contour (cv := SceneCV) FingerDetector_init open_hand_frame = Some contour
    /\ (Z2F (min_contour_area FingerDetector_init)
        <? contourArea (OpenCV := SceneCV) contour)%float = true
    /\ firstn 2 [drawContours (inl open_hand_contour) (0, 255, 0) 2;
                 drawContours (inr spread_hull) (255, 0, 0) 2;
                 circle (320, 300) 5 (0, 0, 255) (-1)]
       = [drawContours (inl contour) (0, 255, 0) 2;
          drawContours (inr (convexHull (OpenCV := SceneCV) contour)) (255, 0, 0) 2].
Proof.
  apply (drawn_contour_is_analysed SceneCV FingerDetector_init open_hand_frame).
  - vm_compute. reflexivity.
  - discriminate.
Defined.

(** X10.  A contour of area exactly [min_contour_area] is analysed but
    not drawn.  [detect_fingers] rejects an area below the minimum,
    [draw_hand_contour] requires an area above it: at the minimum itself
    the contour goes through the tip search of [detect_fingers] while
    [draw_hand_contour] draws nothing. *)
Theorem contour_at_minimum_is_not_drawn :
  forall (cv : OpenCV) (self : FingerDetector) (image : Image) (contour : Contour),
    hand_contour self image = Some contour ->
    contourArea contour = Z2F (min_contour_area self) ->
    draw_hand_contour self image = Return []
    /\ detect_fingers self image
       = (finger_points <- _find_finger_tips contour (shape image) ;;
          if 3 <=? Py.len finger_points then Return (true, Some finger_points)
          else Return (false, None)).
Proof.
  intros cv self image contour Hc Harea. split.
  - rewrite draw_hand_contour_unfold. unfold hand_contour in Hc.
    destruct (skin_contours 3 image) as [| first rest]; [reflexivity |].
    cbv zeta in *.
    destruct (contourArea (Py.max_by_scan contourArea first rest)
              <? Z2F (min_contour_area self))%float; [discriminate |].
    inversion Hc as [Hc']. rewrite Hc', Harea, ltb_irrefl. reflexivity.
  - now rewrite detect_fingers_unfold, Hc.
Qed.

Lemma contour_at_minimum_is_not_drawn_witness :
  draw_hand_contour (cv := SceneCV) FingerDetector_init boundary_frame = Return []
  /\ detect_fingers (cv := SceneCV) FingerDetector_init boundary_frame
     = (finger_points <-
          _find_finger_tips (cv := SceneCV)
            {| blob_area := Z2F 5000; blob_hull := spread_hull;
               blob_moments := moments_at 5000 320 300 |}
            (shape (OpenCV := SceneCV) boundary_frame) ;;
        if 3 <=? Py.len finger_points then Return (true, Some finger_points)
        else Return (false, None)).
Proof.
  apply (contour_at_minimum_is_not_drawn SceneCV FingerDetector_init boundary_frame);
    vm_compute; reflexivity.
Defined.

(** X11.  [ImprovedHandDetector.draw_hand_contour] draws only inside the
    band.  Whenever it draws anything, the contour it outlines is the
    one [detect_hands] passes to [_extract_finger_landmarks], and its
    area lies strictly between the two bounds. *)
Theorem improved_drawn_contour_is_inside_band :
  forall (cv : OpenCV) (self : ImprovedHandDetector) (image : Image),
    improved_draw_hand_contour self image <> [] ->
    exists contour,
      improved_hand_contour self image = Some contour
      /\ (Z2F (improved_min_contour_area self) <? contourArea contour)%float = true
      /\ (contourArea contour <? Z2F (improved_max_contour_area self))%float = true
      /\ improved_draw_hand_contour self image
         = [drawContours (inl contour) (0, 255, 0) 2;
            drawContours (inr (convexHull contour)) (255, 0, 0) 2].
Proof.
  intros cv self image. unfold improved_draw_hand_contour, improved_hand_contour.
  destruct (skin_contours 5 image) as [| first rest]; [congruence |].
  cbv zeta. set (contour := Py.max_by_scan contourArea first rest).
  destruct (Z2F (improved_min_contour_area self) <? contourArea contour)%float eqn:Elo;
    [| cbn; congruence].
  destruct (contourArea contour <? Z2F (improved_max_contour_area self))%float eqn:Ehi;
    [| cbn; congruence].
  intros _. rewrite (ltb_asym _ _ Elo), (ltb_asym _ _ Ehi). cbn [orb andb].
  exists contour. auto.
Qed.

Lemma improved_drawn_contour_is_inside_band_witness :
  exists contour,
    improved_hand_contour (cv := SceneCV) ImprovedHandDetector_init open_hand_frame
    = Some contour
    /\ (Z2F (improved_min_contour_area ImprovedHandDetector_init)
        <? contourArea (OpenCV := SceneCV) contour)%float = true
    /\ (contourArea (OpenCV := SceneCV) contour
        <? Z2F (improved_max_contour_area ImprovedHandDetector_init))%float = true
    /\ improved_draw_hand_contour (cv := SceneCV) ImprovedHandDetector_init open_hand_frame
       = [drawContours (inl contour) (0, 255, 0) 2;
          drawContours (inr (convexHull (OpenCV := SceneCV) contour)) (255, 0, 0) 2].
Proof.
  apply (improved_drawn_contour_is_inside_band SceneCV ImprovedHandDetector_init
           open_hand_frame).
  vm_compute. discriminate.
Defined.

(** X12.  A contour whose area is exactly one of the two bounds passes
    the area test of [ImprovedHandDetector.detect_hands], which rejects
    only areas below the minimum or above the maximum, and is not drawn
    by [draw_hand_contour], which requires an area strictly between the
    bounds. *)
Theorem contour_at_a_bound_is_not_drawn :
  forall (cv : OpenCV) (self : ImprovedHandDetector) (image : Image) (contour : Contour),
    improved_hand_contour self image = Some contour ->
    contourArea contour = Z2F (improved_min_contour_area self)
    \/ contourArea contour = Z2F (improved_max_contour_area self) ->
    improved_draw_hand_contour self image = [].
Proof.
  intros cv self image contour Hc Harea.
  unfold improved_draw_hand_contour. unfold improved_hand_contour in Hc.
  destruct (skin_contours 5 image) as [| first rest]; [reflexivity |].
  cbv zeta in *.
  destruct ((contourArea (Py.max_by_scan contourArea first rest)
             <? Z2F (improved_min_contour_area self))%float
            || (Z2F (improved_max_contour_area self)
                <? contourArea (Py.max_by_scan contourArea first rest))%float);
    [discriminate |].
  inversion Hc as [Hc']. rewrite Hc'.
  destruct Harea as [-> | ->]; rewrite ltb_irrefl; [reflexivity |].
  now rewrite andb_false_r.
Qed.

Lemma contour_at_a_bound_is_not_drawn_witness :
  improved_draw_hand_contour (cv := SceneCV) ImprovedHandDetector_init upper_bound_frame
  = [].
Proof.
  apply (contour_at_a_bound_is_not_drawn SceneCV ImprovedHandDetector_init
           upper_bound_frame
           {| blob_area := Z2F 100000; blob_hull := spread_hull;
              blob_moments := moments_at 100000 320 300 |}).
  - vm_compute. reflexivity.
  - right. vm_compute. reflexivity.
Defined.

(* ================================================================== *)
(** * Properties: drawing the detection *)
(* ================================================================== *)

Section DetectionDrawingFacts.

Variable format_2f : float -> string.

(** The two outcomes of [draw_detection] that return. *)
Lemma draw_detection_hidden {C : Type} (letter : option string) (confidence : float) :
  truthy letter && (min_confidence <? confidence)%float = false ->
  draw_detection (C := C) format_2f letter confidence = Return no_letter_drawing.
Proof.
  unfold draw_detection. intros H. destruct letter as [text |]; [| reflexivity].
  now rewrite H.
Qed.

Lemma draw_detection_shown {C : Type} (text : string) (confidence : float) (width : Z) :
  text <> "" ->
  (0.6 <? confidence)%float = true ->
  Py.int (Z2F 200 * confidence)%float = Return width ->
  draw_detection (C := C) format_2f (Some text) confidence
  = Return (letter_drawing format_2f text confidence width
              (if (0.8 <? confidence)%float then (0, 255, 0) else (0, 255, 255))).
Proof.
  intros Htext Hc Hw. unfold draw_detection, truthy, min_confidence.
  apply String.eqb_neq in Htext. rewrite Htext, Hc. cbn [negb andb].
  cbv zeta. rewrite Hw. cbn [Py.bind]. reflexivity.
Qed.

(** The mean of five per-frame confidences is at most 0.8, and when it
    exceeds 0.6 the bar is between 120 and 160 pixels wide. *)
Lemma mean_of_frame_confidences (a b c d e : float) :
  let frame_confidences := [0.6; 0.7; 0.8]%float in
  In a frame_confidences -> In b frame_confidences -> In c frame_confidences ->
  In d frame_confidences -> In e frame_confidences ->
  let mean := ((0 + a + b + c + d + e) / Z2F 5)%float in
  (0.6 <? mean)%float = false
  \/ ((0.6 <? mean)%float = true /\ (0.8 <? mean)%float = false
      /\ exists width, Py.int (Z2F 200 * mean)%float = Return width /\ 120 <= width <= 160).
Proof.
  intros cs Ha Hb Hc Hd He. simpl in Ha, Hb, Hc, Hd, He.
  repeat match goal with
         | H : _ \/ _ |- _ => destruct H as [<- | H]
         | H : False |- _ => contradiction
         end;
    (first
       [ left; vm_compute; reflexivity
       | right; split; [vm_compute; reflexivity |];
         split; [vm_compute; reflexivity |];
         eexists; split; [vm_compute; reflexivity | lia] ]).
Qed.

End DetectionDrawingFacts.

Section DetectorRuns.

Context {cv : OpenCV}.

(** A run of [detect_asl_letter] that returns has classified every
    frame. *)
Lemma detect_sequence_inv (images : list Image) :
  forall (self self' : ASLLetterDetector) (stables : list (option string * float)),
    detect_sequence self images = Return (self', stables) ->
    exists ds, Forall2 (fun image d => frame_detection self image = Return d) images ds.
Proof.
  induction images as [| image images IH]; intros self self' stables H.
  - exists []. constructor.
  - cbn [detect_sequence] in H. unfold detect_asl_letter in H.
    destruct (frame_detection self image) as [d |] eqn:Ed; cbn [Py.bind] in H;
      [| discriminate].
    destruct (record_detection self d) as [[self1 stable] |] eqn:Er; cbn [Py.bind] in H;
      [| discriminate].
    destruct (detect_sequence self1 images) as [[self2 rest] |] eqn:Es;
      cbn [Py.bind] in H; [| discriminate].
    destruct (IH _ _ _ Es) as (ds & Hds).
    exists (d :: ds). constructor; [exact Ed |].
    pose proof (record_detection_fd _ _ _ _ Er) as Hfd.
    eapply Forall2_impl; [| exact Hds].
    intros a b Hab. cbv beta in *. now rewrite (frame_detection_indep self self1).
Qed.

Lemma Forall2_In_r {A B : Type} (R : A -> B -> Prop) (l : list A) (l' : list B) :
  Forall2 R l l' -> forall y, In y l' -> exists x, In x l /\ R x y.
Proof.
  induction 1 as [| x y l l' Hxy _ IH]; intros z Hz; [contradiction |].
  destruct Hz as [<- | Hz].
  - exists x. split; [now left | exact Hxy].
  - destruct (IH z Hz) as (x' & Hin & HR). exists x'. split; [now right | exact HR].
Qed.

(** The four per-frame results a frame can have. *)
Lemma frame_detection_values (self : ASLLetterDetector) (image : Image) (d : Detection) :
  frame_detection self image = Return d ->
  In d [("E", 0.7%float); ("C", 0.7%float); ("C", 0.6%float); ("B", 0.8%float)].
Proof.
  intros H. apply frame_detection_inv in H.
  destruct H as [[_ ->] | (tips & _ & Hlen & ->)]; [simpl; tauto |].
  assert (E : Py.len tips = 3 \/ Py.len tips = 4 \/ Py.len tips = 5) by lia.
  destruct E as [-> | [-> | ->]]; simpl; tauto.
Qed.

End DetectorRuns.

(** X13.  A hand with four detected fingers is recognised but never
    shown.  The per-frame result for four tips is C with confidence 0.6;
    after five or more calls of [detect_asl_letter] on such a frame the
    stable result is C with confidence 0.6, and [draw_detection], which
    shows a letter only for a confidence above [min_confidence] = 0.6,
    draws "No ASL Letter Detected" for it. *)
Theorem four_fingers_are_stable_but_not_shown :
  forall (cv : OpenCV) (C : Type) (format_2f : float -> string) (image : Image)
         (tips : list Point) (m : nat),
    detect_fingers FingerDetector_init image = Return (true, Some tips) ->
    Py.len tips = 4 ->
    (5 <= m)%nat ->
    exists self' stables,
      detect_sequence ASLLetterDetector_init (repeat image m) = Return (self', stables)
      /\ last stables (None, 0%float) = (Some "C", 0.6%float)
      /\ draw_detection (C := C) format_2f (Some "C") 0.6%float
         = Return no_letter_drawing.
Proof.
  intros cv C format_2f image tips m Hd Hlen Hm.
  assert (Hf : frame_detection ASLLetterDetector_init image = Return ("C", 0.6%float)).
  { unfold frame_detection. cbn [finger_detector ASLLetterDetector_init].
    rewrite Hd. cbn [Py.bind negb]. rewrite Hlen. reflexivity. }
  rewrite (repeated_calls image _ m Hf).
  eexists. eexists. split; [reflexivity |]. split; [| reflexivity].
  destruct m as [| m]; [lia |].
  rewrite seq_S, map_app. cbn [map]. rewrite last_last. cbn [fst snd Nat.add].
  destruct (Nat.ltb_spec (S m) 5); [lia | reflexivity].
Qed.

Lemma four_fingers_are_stable_but_not_shown_witness :
  exists self' stables,
    detect_sequence (cv := SceneCV) ASLLetterDetector_init (repeat four_finger_frame 6)
    = Return (self', stables)
    /\ last stables (None, 0%float) = (Some "C", 0.6%float)
    /\ draw_detection (C := Blob) (fun _ => "0.60") (Some "C") 0.6%float
       = Return no_letter_drawing.
Proof.
  apply (four_fingers_are_stable_but_not_shown SceneCV Blob (fun _ => "0.60")
           four_finger_frame
           [(0.3125, 0.41666666666666669, 0); (0.40625, 0.3125, 0);
            (0.5, 0.27083333333333331, 0); (0.59375, 0.3125, 0)]%float 6%nat).
  - vm_compute. reflexivity.
  - reflexivity.
  - lia.
Defined.

(** X14.  The confidence bar of a detector result is yellow.  Whatever
    frames a fresh detector is run on, [draw_detection] returns on every
    value that [detect_asl_letter] returned: it draws either "No ASL
    Letter Detected", or one of the letters E, C, B with the
    description of its pattern and a confidence bar between 120 and
    160 pixels wide in yellow.  The green of a confidence above 0.8 and
    the red of a confidence of at most 0.6 are never drawn. *)
Theorem detector_results_draw_a_yellow_bar :
  forall (cv : OpenCV) (C : Type) (format_2f : float -> string) (images : list Image)
         (self' : ASLLetterDetector) (stables : list (option string * float))
         (letter : option string) (confidence : float),
    detect_sequence ASLLetterDetector_init images = Return (self', stables) ->
    In (letter, confidence) stables ->
    draw_detection (C := C) format_2f letter confidence = Return no_letter_drawing
    \/ exists text width,
         letter = Some text /\ In text ["E"; "C"; "B"] /\ 120 <= width <= 160
         /\ draw_detection (C := C) format_2f letter confidence
            = Return (letter_drawing format_2f text confidence width (0, 255, 255)).
Proof.
  intros cv C format_2f images self' stables letter confidence Hrun Hin.
  destruct (detect_sequence_inv images _ _ _ Hrun) as (ds & Hds).
  rewrite (detect_sequence_record images ds _ Hds) in Hrun.
  rewrite (record_sequence_spec ds ASLLetterDetector_init [] eq_refl eq_refl) in Hrun.
  inversion Hrun as [[Hself Hst]]. clear Hrun Hself. subst stables.
  unfold stable_outputs in Hin. apply in_map_iff in Hin.
  destruct Hin as (k & Hk & _). cbn [app] in Hk.
  set (w := trailing_window (firstn (S k) ds)) in Hk.
  assert (Hw : forall d, In d w ->
                 In d [("E", 0.7%float); ("C", 0.7%float); ("C", 0.6%float);
                       ("B", 0.8%float)]).
  { intros d Hd. unfold w, trailing_window in Hd.
    apply skipn_In, firstn_In in Hd.
    destruct (Forall2_In_r _ _ _ Hds d Hd) as (image & _ & Hf).
    exact (frame_detection_values _ _ _ Hf). }
  unfold stable_of_window in Hk.
  destruct (Py.len w <? 5) eqn:Elen.
  { inversion Hk. left. now apply draw_detection_hidden. }
  destruct (majority_letter w) as [text |] eqn:Emaj.
  2: { inversion Hk. left. now apply draw_detection_hidden. }
  inversion Hk as [[Hletter Hconf]]. clear Hk.
  assert (Htext : In text ["E"; "C"; "B"]).
  { unfold majority_letter in Emaj.
    destruct (find (fun d => 3 <=? occurrences (fst d) w) w) as [d |] eqn:Ef;
      [| discriminate].
    inversion Emaj. apply find_some in Ef. destruct Ef as [Hd _].
    specialize (Hw d Hd). simpl in Hw.
    repeat (destruct Hw as [<- | Hw]; [simpl; tauto |]). contradiction. }
  assert (Hfive : List.length w = 5%nat).
  { apply Z.ltb_ge in Elen. pose proof (trailing_window_len (firstn (S k) ds)) as Hle.
    fold w in Hle. unfold Py.len in *. lia. }
  destruct w as [| d1 [| d2 [| d3 [| d4 [| d5 [| d6 w]]]]]]; try discriminate.
  assert (Hc : forall d, In d [d1; d2; d3; d4; d5] ->
                 In (snd d) [0.6; 0.7; 0.8]%float).
  { intros d Hd. specialize (Hw d Hd). simpl in Hw.
    repeat (destruct Hw as [<- | Hw]; [simpl; tauto |]). contradiction. }
  pose proof (mean_of_frame_confidences (snd d1) (snd d2) (snd d3) (snd d4) (snd d5)
                (Hc d1 ltac:(simpl; tauto)) (Hc d2 ltac:(simpl; tauto))
                (Hc d3 ltac:(simpl; tauto)) (Hc d4 ltac:(simpl; tauto))
                (Hc d5 ltac:(simpl; tauto))) as Hmean.
  cbv zeta in Hmean.
  change ((0 + snd d1 + snd d2 + snd d3 + snd d4 + snd d5) / Z2F 5)%float
    with (window_mean [d1; d2; d3; d4; d5]) in Hmean.
  destruct Hmean as [Hlow | (Hhigh & Hcap & width & Hwidth & Hrange)].
  - left. apply draw_detection_hidden. unfold min_confidence. rewrite Hlow.
    apply andb_false_r.
  - right. exists text, width. split; [reflexivity |]. split; [exact Htext |].
    split; [exact Hrange |].
    rewrite (draw_detection_shown format_2f text _ width); [now rewrite Hcap | | exact Hhigh
                                                             | exact Hwidth].
    intros ->. simpl in Htext. intuition discriminate.
Qed.

Lemma detector_results_draw_a_yellow_bar_witness :
  draw_detection (C := Blob) (fun _ => "0.80") (Some "B") 0.8%float
  = Return no_letter_drawing
  \/ exists text width,
       Some "B" = Some text /\ In text ["E"; "C"; "B"] /\ 120 <= width <= 160
       /\ draw_detection (C := Blob) (fun _ => "0.80") (Some "B") 0.8%float
          = Return (letter_drawing (fun _ => "0.80") text 0.8%float width (0, 255, 255)).
Proof.
  eapply (detector_results_draw_a_yellow_bar SceneCV Blob (fun _ => "0.80")
            (repeat open_hand_frame 5)).
  - vm_compute. reflexivity.
  - simpl. right. right. right. right. left. reflexivity.
Defined.

(* ================================================================== *)
(** * Properties: the landmarks of [ImprovedHandDetector] *)
(* ================================================================== *)

Section Padding.

Lemma pad_landmarks_length (missing : nat) :
  forall landmarks,
    List.length (pad_landmarks missing landmarks)
    = (List.length landmarks + missing)%nat.
Proof.
  induction missing as [| n IH]; intros l; cbn [pad_landmarks]; [lia |].
  rewrite IH, length_app. cbn [List.length]. lia.
Qed.

Lemma pad_landmarks_prefix (missing : nat) :
  forall landmarks,
    firstn (List.length landmarks) (pad_landmarks missing landmarks) = landmarks.
Proof.
  induction missing as [| n IH]; intros l; cbn [pad_landmarks].
  - apply firstn_all.
  - specialize (IH (l ++ [synthetic l])).
    apply (f_equal (firstn (List.length l))) in IH.
    rewrite firstn_firstn, length_app in IH.
    replace (Nat.min (List.length l) (List.length l + List.length [synthetic l]))
      with (List.length l) in IH by lia.
    rewrite IH, firstn_app, firstn_all, Nat.sub_diag. cbn [firstn].
    apply app_nil_r.
Qed.

Lemma nth_firstn_lt {A : Type} (n i : nat) (l : list A) (d : A) :
  (i < n)%nat -> nth i (firstn n l) d = nth i l d.
Proof.
  revert i l. induction n as [| n IH]; intros i l Hi; [lia |].
  destruct l as [| a l]; [reflexivity |].
  destruct i as [| i]; [reflexivity |]. cbn [firstn nth]. apply IH. lia.
Qed.

(** From two landmarks on, the synthetic landmark is the midpoint of
    the last two. *)
Lemma synthetic_midpoint (landmarks : list Point) (d : Point) :
  (2 <= List.length landmarks)%nat ->
  synthetic landmarks
  = midpoint (nth (List.length landmarks - 2) landmarks d)
             (nth (List.length landmarks - 1) landmarks d).
Proof.
  intros Hlen. unfold synthetic.
  rewrite <- (rev_involutive landmarks) at 2 3 4 5.
  rewrite <- length_rev in Hlen.
  destruct (rev landmarks) as [| p2 [| p1 r]]; cbn [List.length] in Hlen; try lia.
  cbn [rev]. rewrite <- app_assoc. cbn [app].
  rewrite !length_app. cbn [List.length]. rewrite length_rev.
  rewrite !app_nth2 by (rewrite length_rev; lia). rewrite length_rev.
  replace (List.length r + 2 - 2 - List.length r)%nat with 0%nat by lia.
  replace (List.length r + 2 - 1 - List.length r)%nat with 1%nat by lia.
  reflexivity.
Qed.

(** Every landmark that the padding loop adds at an index of at least
    2 is the midpoint of its two predecessors. *)
Lemma pad_landmarks_midpoints (missing : nat) (d : Point) :
  forall landmarks i,
    (List.length landmarks <= i)%nat -> (2 <= i)%nat ->
    (i < List.length landmarks + missing)%nat ->
    let padded := pad_landmarks missing landmarks in
    nth i padded d = midpoint (nth (i - 2) padded d) (nth (i - 1) padded d).
Proof.
  induction missing as [| n IH]; intros l i Hlo H2 Hhi; [lia |].
  cbn [pad_landmarks]. cbv zeta.
  destruct (Nat.eq_dec i (List.length l)) as [-> | Hne].
  - set (l' := l ++ [synthetic l]).
    pose proof (pad_landmarks_prefix n l') as Hp.
    assert (Hlen' : List.length l' = S (List.length l)).
    { unfold l'. rewrite length_app. cbn [List.length]. lia. }
    assert (Hn : forall j, (j < List.length l')%nat ->
                   nth j (pad_landmarks n l') d = nth j l' d).
    { intros j Hj. rewrite <- Hp at 2. symmetry. now apply nth_firstn_lt. }
    rewrite !Hn by lia. unfold l'.
    rewrite app_nth2 by lia. rewrite Nat.sub_diag. cbn [nth].
    rewrite !app_nth1 by lia. now apply synthetic_midpoint.
  - apply IH; rewrite ?length_app; cbn [List.length]; lia.
Qed.

End Padding.

Section LandmarkFacts.

Context {cv : OpenCV}.
Variable Defect : Type.
Variable convexityDefects : Contour -> option (list Defect).
Variable far_point : Contour -> Defect -> Z * Z.
Variable is_valley : Contour -> Defect -> bool.

(** What a successful extraction is made of. *)
Lemma extract_finger_landmarks_inv (contour : Contour) (image_shape : Z * Z)
      (landmarks : list Point) :
  _extract_finger_landmarks Defect convexityDefects far_point is_valley
    contour image_shape = Some landmarks ->
  exists defects wrist finger_tips,
    convexityDefects contour = Some defects
    /\ wrist_point contour image_shape = inr wrist
    /\ points_above (option_map fst wrist) (convexHull contour) = inr finger_tips
    /\ let real :=
         match wrist with Some (_, p) => [p] | None => [] end
         ++ map (normalized image_shape) (firstn 5 (sort_by_int fst finger_tips))
         ++ map (normalized image_shape)
                (firstn 4 (map (far_point contour)
                               (filter (is_valley contour) defects))) in
       (List.length real <= 10)%nat
       /\ landmarks
          = firstn 21 (pad_landmarks (Z.to_nat (21 - Py.len real)) real).
Proof.
  unfold _extract_finger_landmarks, extract_finger_landmarks_try.
  destruct (convexityDefects contour) as [defects |]; [| discriminate].
  destruct (wrist_point contour image_shape) as [e | wrist]; [discriminate |].
  destruct (points_above (option_map fst wrist) (convexHull contour))
    as [e | finger_tips] eqn:Ea; [discriminate |].
  intros [= <-].
  exists defects, wrist, finger_tips.
  split; [reflexivity |]. split; [reflexivity |]. split; [exact Ea |].
  cbv zeta. split.
  - rewrite !length_app, !length_map, !length_firstn.
    destruct wrist as [[? ?] |]; cbn [List.length]; lia.
  - destruct wrist as [[? ?] |]; now rewrite <- ?app_assoc.
Qed.

End LandmarkFacts.

(** X15.  A successful extraction has exactly 21 landmarks.  Whenever
    [_extract_finger_landmarks] returns landmarks for the contour that
    passed the area test, there are exactly 21 of them, so the test
    [landmarks and len(landmarks) >= 5] of [detect_hands] does not
    reject anything: [detect_hands] reports the hand with these
    landmarks. *)
Theorem landmarks_are_twenty_one :
  forall (cv : OpenCV) (Defect : Type)
         (convexityDefects : Contour -> option (list Defect))
         (far_point : Contour -> Defect -> Z * Z)
         (is_valley : Contour -> Defect -> bool)
         (self : ImprovedHandDetector) (image : Image) (contour : Contour)
         (landmarks : list Point),
    improved_hand_contour self image = Some contour ->
    _extract_finger_landmarks Defect convexityDefects far_point is_valley
      contour (shape image) = Some landmarks ->
    Py.len landmarks = 21
    /\ detect_hands
         (_extract_finger_landmarks Defect convexityDefects far_point is_valley)
         self image
       = (true, Some landmarks).
Proof.
  intros cv Defect cd far iv self image contour landmarks Hc He.
  assert (Hlen : Py.len landmarks = 21).
  { destruct (extract_finger_landmarks_inv _ _ _ _ _ _ _ He)
      as (defects & wrist & tips & _ & _ & _ & Hreal & ->).
    unfold Py.len in *. rewrite length_firstn, pad_landmarks_length. lia. }
  split; [exact Hlen |].
  unfold detect_hands. unfold improved_hand_contour in Hc.
  destruct (skin_contours 5 image) as [| first rest]; [discriminate |].
  cbv zeta in *.
  destruct ((contourArea (Py.max_by_scan contourArea first rest)
             <? Z2F (improved_min_contour_area self))%float
            || (Z2F (improved_max_contour_area self)
                <? contourArea (Py.max_by_scan contourArea first rest))%float);
    [discriminate |].
  injection Hc as Hc. rewrite Hc, He.
  destruct landmarks as [| p landmarks]; [discriminate |].
  rewrite Hlen. reflexivity.
Qed.

Lemma landmarks_are_twenty_one_witness :
  Py.len open_hand_landmarks = 21
  /\ detect_hands (cv := SceneCV) scene_landmarks ImprovedHandDetector_init
       open_hand_frame
     = (true, Some open_hand_landmarks).
Proof.
  apply (landmarks_are_twenty_one SceneCV (Z * Z) scene_defects
           (fun _ far => far) (fun _ _ => true) ImprovedHandDetector_init
           open_hand_frame open_hand_contour open_hand_landmarks);
    vm_compute; reflexivity.
Defined.

(** X16.  At most ten landmarks carry information.  The wrist, at most 5
    finger tips and at most 4 valleys are followed by padding: in every
    list returned by [_extract_finger_landmarks], each landmark from
    index 10 on is the midpoint of its two predecessors, with a third
    coordinate of 0.0. *)
Theorem landmarks_tail_is_interpolated :
  forall (cv : OpenCV) (Defect : Type)
         (convexityDefects : Contour -> option (list Defect))
         (far_point : Contour -> Defect -> Z * Z)
         (is_valley : Contour -> Defect -> bool)
         (contour : Contour) (image_shape : Z * Z) (landmarks : list Point) (i : nat),
    _extract_finger_landmarks Defect convexityDefects far_point is_valley
      contour image_shape = Some landmarks ->
    (10 <= i < 21)%nat ->
    let origin := (0, 0, 0)%float in
    nth i landmarks origin
    = midpoint (nth (i - 2) landmarks origin) (nth (i - 1) landmarks origin).
Proof.
  intros cv Defect cd far iv contour image_shape landmarks i He Hi origin.
  destruct (extract_finger_landmarks_inv _ _ _ _ _ _ _ He)
    as (defects & wrist & tips & _ & _ & _ & Hreal & ->).
  set (real := _ ++ _ ++ _) in *.
  rewrite !nth_firstn_lt by lia.
  apply pad_landmarks_midpoints; unfold Py.len; lia.
Qed.

Lemma landmarks_tail_is_interpolated_witness :
  let origin := (0, 0, 0)%float in
  nth 12 open_hand_landmarks origin
  = midpoint (nth (12 - 2) open_hand_landmarks origin)
             (nth (12 - 1) open_hand_landmarks origin).
Proof.
  apply (landmarks_tail_is_interpolated SceneCV (Z * Z) scene_defects
           (fun _ far => far) (fun _ _ => true) open_hand_contour (480, 640)
           open_hand_landmarks 12%nat).
  - vm_compute. reflexivity.
  - lia.
Defined.

(** X17.  No centre, no landmarks.  For a contour whose [m00] is zero
    the wrist branch is skipped and [cy] is never assigned; the first
    hull point then makes the tip test read [cy], the exception is
    caught, and [_extract_finger_landmarks] returns [None], whatever the
    hull and the defects are. *)
Theorem zero_moment_contour_has_no_landmarks :
  forall (cv : OpenCV) (Defect : Type)
         (convexityDefects : Contour -> option (list Defect))
         (far_point : Contour -> Defect -> Z * Z)
         (is_valley : Contour -> Defect -> bool)
         (contour : Contour) (image_shape : Z * Z),
    (m00 (moments contour) =? 0)%float = true ->
    convexHull contour <> [] ->
    _extract_finger_landmarks Defect convexityDefects far_point is_valley
      contour image_shape = None
    /\ (convexityDefects contour <> None ->
        extract_finger_landmarks_try Defect convexityDefects far_point is_valley
          contour image_shape = Except UnboundLocalError).
Proof.
  intros cv Defect cd far iv contour image_shape Hm Hhull.
  unfold _extract_finger_landmarks, extract_finger_landmarks_try, wrist_point.
  rewrite Hm. cbn [option_map].
  destruct (cd contour) as [defects |]; [| split; [reflexivity | congruence]].
  destruct (convexHull contour) as [| point hull]; [congruence |].
  cbn [points_above]. split; reflexivity.
Qed.

Lemma zero_moment_contour_has_no_landmarks_witness :
  scene_landmarks flat_contour (480, 640) = None
  /\ (scene_defects flat_contour <> None ->
      extract_finger_landmarks_try (cv := SceneCV) (Z * Z) scene_defects
        (fun _ far => far) (fun _ _ => true) flat_contour (480, 640)
      = Except UnboundLocalError).
Proof.
  apply (zero_moment_contour_has_no_landmarks SceneCV (Z * Z) scene_defects
           (fun _ far => far) (fun _ _ => true) flat_contour (480, 640)).
  - vm_compute. reflexivity.
  - discriminate.
Defined.

(** X18.  The first landmark is the wrist.  Whenever
    [_extract_finger_landmarks] returns landmarks for a contour with a
    non-empty hull, [m00] is not zero, both centre quotients convert to
    integers, both sides of the frame are non-zero, and the first
    landmark is the centre [(cx / columns, cy / rows, 0.0)]. *)
Theorem first_landmark_is_the_wrist :
  forall (cv : OpenCV) (Defect : Type)
         (convexityDefects : Contour -> option (list Defect))
         (far_point : Contour -> Defect -> Z * Z)
         (is_valley : Contour -> Defect -> bool)
         (contour : Contour) (image_shape : Z * Z) (landmarks : list Point),
    _extract_finger_landmarks Defect convexityDefects far_point is_valley
      contour image_shape = Some landmarks ->
    convexHull contour <> [] ->
    exists cx cy,
      (m00 (moments contour) =? 0)%float = false
      /\ Py.int (m10 (moments contour) / m00 (moments contour))%float = Return cx
      /\ Py.int (m01 (moments contour) / m00 (moments contour))%float = Return cy
      /\ fst image_shape <> 0 /\ snd image_shape <> 0
      /\ nth 0 landmarks (0, 0, 0)%float
         = ((Z2F cx / Z2F (snd image_shape))%float,
            (Z2F cy / Z2F (fst image_shape))%float, 0%float).
Proof.
  intros cv Defect cd far iv contour image_shape landmarks He Hhull.
  destruct (extract_finger_landmarks_inv _ _ _ _ _ _ _ He)
    as (defects & wrist & tips & _ & Hw & Ha & Hreal & ->).
  unfold wrist_point in Hw.
  destruct (m00 (moments contour) =? 0)%float.
  { injection Hw as <-. cbn [option_map] in Ha.
    destruct (convexHull contour); [congruence | discriminate]. }
  destruct (Py.int (m10 (moments contour) / m00 (moments contour))%float)
    as [cx |]; [| discriminate].
  destruct (Py.int (m01 (moments contour) / m00 (moments contour))%float)
    as [cy |]; [| discriminate].
  destruct (Z.eqb_spec (snd image_shape) 0) as [| Hcols]; [discriminate |].
  destruct (Z.eqb_spec (fst image_shape) 0) as [| Hrows]; [discriminate |].
  injection Hw as <-.
  exists cx, cy. repeat (split; [reflexivity || assumption |]).
  set (real := _ ++ _ ++ _) in *.
  rewrite nth_firstn_lt by lia.
  pose proof (pad_landmarks_prefix (Z.to_nat (21 - Py.len real)) real) as Hp.
  rewrite <- (nth_firstn_lt (List.length real) 0 _ _);
    [| unfold real; cbn [app List.length]; lia].
  rewrite Hp. reflexivity.
Qed.

Lemma first_landmark_is_the_wrist_witness :
  exists cx cy,
    (m00 (moments (OpenCV := SceneCV) open_hand_contour) =? 0)%float = false
    /\ Py.int (m10 (moments (OpenCV := SceneCV) open_hand_contour)
               / m00 (moments (OpenCV := SceneCV) open_hand_contour))%float = Return cx
    /\ Py.int (m01 (moments (OpenCV := SceneCV) open_hand_contour)
               / m00 (moments (OpenCV := SceneCV) open_hand_contour))%float = Return cy
    /\ fst (480, 640) <> 0 /\ snd (480, 640) <> 0
    /\ nth 0 open_hand_landmarks (0, 0, 0)%float
       = ((Z2F cx / Z2F 640)%float, (Z2F cy / Z2F 480)%float, 0%float).
Proof.
  apply (first_landmark_is_the_wrist SceneCV (Z * Z) scene_defects
           (fun _ far => far) (fun _ _ => true) open_hand_contour (480, 640)
           open_hand_landmarks).
  - vm_compute. reflexivity.
  - discriminate.
Defined.

(* ================================================================== *)
(** * Properties: the training helper *)
(* ================================================================== *)

Section TrainingFacts.

Context {cv : OpenCV}.

(** What one call of [collect_sample] does to the helper. *)
Lemma collect_sample_inv (self self' : ASLTrainingHelper) (now : string)
      (image : Image) (label : string) (collected : bool) :
  collect_sample self now image label = Return (self', collected) ->
  helper_finger_detector self' = helper_finger_detector self
  /\ ((collected = false /\ training_data self' = training_data self)
      \/ (exists tips,
             collected = true
             /\ detect_fingers (helper_finger_detector self) image
                = Return (true, Some tips)
             /\ 3 <= Py.len tips <= 5
             /\ training_data self'
                = training_data self
                  ++ [ {| timestamp := now; letter := label;
                          finger_count := Py.len tips; finger_points := tips;
                          image_shape := shape image |} ])).
Proof.
  unfold collect_sample.
  destruct (detect_fingers (helper_finger_detector self) image) as [[b pts] |] eqn:Ed;
    cbn [Py.bind]; [| discriminate].
  destruct (detect_fingers_inv _ _ _ _ Ed)
    as [[-> ->] | (c & tips & _ & _ & -> & -> & Hlen)].
  - intros [= <- <-]. split; [reflexivity |]. now left.
  - intros [= <- <-]. split; [reflexivity |]. right. exists tips. auto.
Qed.

(** Every stored sample was stored with three to five finger tips. *)
Lemma collect_samples_inv (calls : list (string * Image * string)) :
  forall (self self' : ASLTrainingHelper) (collected : list bool),
    collect_samples self calls = Return (self', collected) ->
    exists added,
      training_data self' = training_data self ++ added
      /\ Py.len added = Py.len (filter (fun b => b) collected)
      /\ Py.len collected = Py.len calls
      /\ Forall (fun sample =>
                   3 <= finger_count sample <= 5
                   /\ finger_count sample = Py.len (finger_points sample)
                   /\ exists now image,
                        In (now, image, letter sample) calls
                        /\ image_shape sample = shape image)
                added.
Proof.
  induction calls as [| [[now image] label] calls IH]; intros self self' collected H.
  - injection H as <- <-. exists []. rewrite app_nil_r. repeat split. constructor.
  - cbn [collect_samples] in H.
    destruct (collect_sample self now image label) as [[self1 b] |] eqn:Ec;
      cbn [Py.bind] in H; [| discriminate].
    destruct (collect_samples self1 calls) as [[self2 rest] |] eqn:Er;
      cbn [Py.bind] in H; [| discriminate].
    injection H as <- <-.
    destruct (IH _ _ _ Er) as (added & Hdata & Hcount & Hcalls & Hall).
    assert (Hall' : Forall (fun sample =>
                   3 <= finger_count sample <= 5
                   /\ finger_count sample = Py.len (finger_points sample)
                   /\ exists now0 image0,
                        In (now0, image0, letter sample) ((now, image, label) :: calls)
                        /\ image_shape sample = shape image0)
                added).
    { eapply Forall_impl; [| exact Hall].
      intros s (H1 & H2 & now0 & image0 & Hin & Hs).
      split; [exact H1 |]. split; [exact H2 |].
      exists now0, image0. split; [now right | exact Hs]. }
    destruct (collect_sample_inv _ _ _ _ _ _ Ec)
      as [_ [[-> Hsame] | (tips & -> & _ & Hlen & Hpush)]].
    + exists added. rewrite Hdata, Hsame. cbn [filter].
      repeat split; try assumption.
      unfold Py.len in *. cbn [List.length]. lia.
    + eexists (_ :: added). rewrite Hdata, Hpush, <- app_assoc. cbn [app filter].
      split; [reflexivity |].
      split; [unfold Py.len in *; cbn [List.length]; lia |].
      split; [unfold Py.len in *; cbn [List.length]; lia |].
      constructor; [| exact Hall'].
      cbn [finger_count finger_points letter image_shape].
      split; [exact Hlen |]. split; [reflexivity |].
      exists now, image. split; [now left | reflexivity].
Qed.

End TrainingFacts.

(** X19.  Training samples always carry three to five fingers.  After
    any sequence of calls of [collect_sample] on a fresh helper, there
    is one stored sample per call that returned [True], and every stored
    sample has a [finger_count] between 3 and 5 that is the length of
    its [finger_points].  A sample stored for the letter A, D or E
    therefore never has the number of fingers that [letter_patterns]
    gives for its letter. *)
Theorem collected_samples_have_three_to_five_fingers :
  forall (cv : OpenCV) (calls : list (string * Image * string))
         (self' : ASLTrainingHelper) (collected : list bool),
    collect_samples ASLTrainingHelper_init calls = Return (self', collected) ->
    Py.len (training_data self') = Py.len (filter (fun b => b) collected)
    /\ forall sample,
         In sample (training_data self') ->
         3 <= finger_count sample <= 5
         /\ finger_count sample = Py.len (finger_points sample)
         /\ (forall fingers description,
                In (letter sample) ["A"; "D"; "E"] ->
                get_letter_info (letter sample) = Some (fingers, description) ->
                finger_count sample <> fingers).
Proof.
  intros cv calls self' collected H.
  destruct (collect_samples_inv calls _ _ _ H) as (added & Hdata & Hcount & _ & Hall).
  cbn [training_data ASLTrainingHelper_init app] in Hdata. rewrite Hdata.
  split; [exact Hcount |].
  intros sample Hin. rewrite Forall_forall in Hall.
  destruct (Hall sample Hin) as (Hrange & Hlen & _).
  split; [exact Hrange |]. split; [exact Hlen |].
  intros fingers description Hletter Hinfo. simpl in Hletter.
  destruct Hletter as [E | [E | [E | []]]]; rewrite <- E in Hinfo;
    vm_compute in Hinfo; injection Hinfo as <- _; lia.
Qed.

Lemma collected_samples_have_three_to_five_fingers_witness :
  let self' :=
    {| helper_finger_detector := FingerDetector_init;
       training_data :=
         [ {| timestamp := "2025-01-01T00:00:00"; letter := "A";
              finger_count := 5; finger_points := open_hand_tips;
              image_shape := (480, 640) |} ] |} in
  Py.len (training_data self') = Py.len (filter (fun b => b) [false; true])
  /\ forall sample,
       In sample (training_data self') ->
       3 <= finger_count sample <= 5
       /\ finger_count sample = Py.len (finger_points sample)
       /\ (forall fingers description,
              In (letter sample) ["A"; "D"; "E"] ->
              get_letter_info (letter sample) = Some (fingers, description) ->
              finger_count sample <> fingers).
Proof.
  apply (collected_samples_have_three_to_five_fingers SceneCV
           [("2025-01-01T00:00:00", fist_frame, "E");
            ("2025-01-01T00:00:00", open_hand_frame, "A")]).
  vm_compute. reflexivity.
Defined.

(* ================================================================== *)
(** * Properties: the colour-based detector *)
(* ================================================================== *)

Section SimpleLandmarks.

(** The pixel of every simple landmark lies in the bounding box. *)
Lemma simple_landmark_pixel_in_box (x y w h i : Z) :
  0 <= w -> 0 <= h -> 0 <= i < 21 ->
  x <= fst (simple_landmark_pixel x y w h i) <= x + w
  /\ y <= snd (simple_landmark_pixel x y w h i) <= y + h.
Proof.
  intros Hw Hh Hi.
  assert (E : In i (map Z.of_nat (seq 0 21))).
  { apply in_map_iff. exists (Z.to_nat i). split; [lia |]. apply in_seq. lia. }
  simpl in E.
  repeat (destruct E as [<- | E];
          [ cbn [simple_landmark_pixel Z.ltb Z.compare Pos.compare Pos.compare_cont
                 fst snd];
            Z.div_mod_to_equations; lia |]).
  contradiction.
Qed.

Lemma simple_landmarks_inv (x y w h : Z) (p : Point) :
  0 <= w -> 0 <= h ->
  In p (_create_simple_landmarks x y w h) ->
  exists column row,
    x <= column <= x + w /\ y <= row <= y + h
    /\ p = ((Z2F column / Z2F 640)%float, (Z2F row / Z2F 480)%float, 0%float).
Proof.
  intros Hw Hh Hp. unfold _create_simple_landmarks in Hp.
  apply in_map_iff in Hp. destruct Hp as (i & Hp & Hi).
  assert (Hrange : 0 <= i < 21).
  { apply in_map_iff in Hi. destruct Hi as (n & <- & Hn). apply in_seq in Hn. lia. }
  pose proof (simple_landmark_pixel_in_box x y w h i Hw Hh Hrange) as Hbox.
  destruct (simple_landmark_pixel x y w h i) as [column row]. cbn [fst snd] in Hbox.
  exists column, row. split; [tauto |]. split; [tauto |]. now rewrite <- Hp.
Qed.

End SimpleLandmarks.

(** X20.  The simple landmarks stay in the bounding box.
    [_create_simple_landmarks] returns 21 points; each is the
    frame-relative form, for a 640x480 frame, of a pixel of the bounding
    box [(x, y, w, h)]; for a box inside a 640x480 frame both
    coordinates lie in [0, 1] and the third is 0.0. *)
Theorem simple_landmarks_stay_in_the_box :
  forall (x y w h : Z),
    0 <= x -> 0 <= y -> 0 <= w -> 0 <= h -> x + w <= 640 -> y + h <= 480 ->
    Py.len (_create_simple_landmarks x y w h) = 21
    /\ forall p,
         In p (_create_simple_landmarks x y w h) ->
         (exists column row,
             x <= column <= x + w /\ y <= row <= y + h
             /\ p = ((Z2F column / Z2F 640)%float, (Z2F row / Z2F 480)%float, 0%float))
         /\ within 0 1 (px p) = true /\ within 0 1 (py p) = true /\ pz p = 0%float.
Proof.
  intros x y w h Hx Hy Hw Hh Hxw Hyh. split; [reflexivity |].
  intros p Hp.
  destruct (simple_landmarks_inv x y w h p Hw Hh Hp) as (column & row & Hc & Hr & ->).
  split; [exists column, row; auto |].
  unfold px, py, pz. cbn [fst snd].
  split; [apply unit_quotient; lia |]. split; [apply unit_quotient; lia | reflexivity].
Qed.

Lemma simple_landmarks_stay_in_the_box_witness :
  Py.len (_create_simple_landmarks 200 130 240 270) = 21
  /\ forall p,
       In p (_create_simple_landmarks 200 130 240 270) ->
       (exists column row,
           200 <= column <= 200 + 240 /\ 130 <= row <= 130 + 270
           /\ p = ((Z2F column / Z2F 640)%float, (Z2F row / Z2F 480)%float, 0%float))
       /\ within 0 1 (px p) = true /\ within 0 1 (py p) = true /\ pz p = 0%float.
Proof.
  apply (simple_landmarks_stay_in_the_box 200 130 240 270); lia.
Defined.

Section ColorDetectionFacts.

Lemma max_by_scan_In {A : Type} (key : A -> float) (l : list A) :
  forall best, In (Py.max_by_scan key best l) (best :: l).
Proof.
  induction l as [| x l IH]; intros best; cbn [Py.max_by_scan]; [now left |].
  specialize (IH (if (key best <? key x)%float then x else best)).
  destruct IH as [IH | IH]; [| right; now right].
  rewrite <- IH. destruct (key best <? key x)%float; [right; now left | now left].
Qed.

End ColorDetectionFacts.

(** X21.  What the colour-based detector reports.  Whenever
    [_detect_hands_by_color] reports a hand, the skin mask has a contour
    of an area strictly above 5000, and the landmarks are 21 points.
    When the bounding rectangles lie inside a 640x480 frame, both
    coordinates of every landmark lie in [0, 1]. *)
Theorem color_detection_landmarks :
  forall (cv : OpenCV) (boundingRect : Contour -> Z * Z * Z * Z) (image : Image)
         (landmarks : option (list Point)),
    (forall contour,
        let '(x, y, w, h) := boundingRect contour in
        0 <= x /\ 0 <= y /\ 0 <= w /\ 0 <= h /\ x + w <= 640 /\ y + h <= 480) ->
    _detect_hands_by_color boundingRect image = (true, landmarks) ->
    exists contour points,
      In contour (skin_contours 5 image)
      /\ (Z2F 5000 <? contourArea contour)%float = true
      /\ landmarks = Some points
      /\ Py.len points = 21
      /\ forall p, In p points ->
                   within 0 1 (px p) = true /\ within 0 1 (py p) = true.
Proof.
  intros cv boundingRect image landmarks Hbox.
  unfold _detect_hands_by_color.
  destruct (skin_contours 5 image) as [| first rest]; [discriminate |].
  cbv zeta. set (contour := Py.max_by_scan contourArea first rest).
  destruct (Z2F 5000 <? contourArea contour)%float eqn:E; [| discriminate].
  specialize (Hbox contour).
  destruct (boundingRect contour) as [[[x y] w] h].
  destruct Hbox as (Hx & Hy & Hw & Hh & Hxw & Hyh).
  intros [= <-]. exists contour, (_create_simple_landmarks x y w h).
  split; [apply max_by_scan_In |]. split; [exact E |]. split; [reflexivity |].
  split; [reflexivity |].
  intros p Hp.
  destruct (simple_landmarks_inv x y w h p Hw Hh Hp) as (column & row & Hc & Hr & ->).
  unfold px, py. cbn [fst snd]. split; apply unit_quotient; lia.
Qed.

Lemma color_detection_landmarks_witness :
  exists contour points,
    In contour (skin_contours (cv := SceneCV) 5 open_hand_frame)
    /\ (Z2F 5000 <? contourArea (OpenCV := SceneCV) contour)%float = true
    /\ Some (_create_simple_landmarks 200 130 240 270) = Some points
    /\ Py.len points = 21
    /\ forall p, In p points ->
                 within 0 1 (px p) = true /\ within 0 1 (py p) = true.
Proof.
  apply (color_detection_landmarks SceneCV scene_bounding_rect open_hand_frame).
  - intros contour. cbn. lia.
  - vm_compute. reflexivity.
Defined.
